(** * Excel automation feasibility checker: the scoring engine

    A shallow embedding of [excel_automation_checker.py]
    (class [ExcelAutomationChecker]) and the properties of its scoring
    pipeline.

    Conventions of the embedding:
    - Python [int] is [Z]; Python [float] is the kernel's binary64 [float],
      so every floating-point operation of the source is computed with the
      rounding the interpreter performs.
    - Python [str] is [string]; case mapping and white space follow the ASCII
      rules, as Python's do on ASCII text.
    - A result dictionary is a record of optional entries; [d.get(k, v)] is
      [default v (k d)] and an absent key is [None].
    - An attribute of the [openpyxl] object model that the source reads under
      its own [try]/[except] is a [result]: the value, or the exception
      message.
    - [self.analysis_results] is threaded explicitly through the pipeline. *)

From Stdlib Require Import ZArith String Ascii List Bool Floats DecimalString Lia.
From stdpp Require Import base option gmap strings list.
Import ListNotations.

Set Warnings "-inexact-float".
Local Open Scope string_scope.
Local Open Scope bool_scope.
Local Open Scope Z_scope.
Local Open Scope list_scope.

(** ** Python numbers *)

Module PyNum.

Definition sf_of_Z (z : Z) : spec_float :=
  match z with
  | Z0 => S754_zero false
  | Zpos p => S754_finite false p 0
  | Zneg p => S754_finite true p 0
  end.

(** [float(z)]: the nearest double, ties to even. *)
Definition float_of_Z (z : Z) : float :=
  SF2Prim (binary_normalize prec emax z 0 false).

(** [a / b] on two [int]s: the correctly rounded quotient. *)
Definition py_truediv (a b : Z) : float :=
  SF2Prim (SFdiv prec emax (sf_of_Z a) (sf_of_Z b)).

(** The integer nearest to [n / 2^k], ties to even ([0 <= n], [0 <= k]). *)
Definition rne_shiftr (n k : Z) : Z :=
  let q := Z.shiftr n k in
  let r := Z.land n (Z.ones k) in
  match Z.shiftl r 1 ?= Z.shiftl 1 k with
  | Lt => q
  | Gt => q + 1
  | Eq => if Z.even q then q else q + 1
  end.

(** The integer nearest to [|x| * 10^nd] together with the sign of [x];
    [None] when [x] is an integer, an infinity or a NaN. *)
Definition scaled_decimal (x : float) (nd : Z) : option (bool * Z) :=
  match Prim2SF x with
  | S754_finite s m e =>
      if 0 <=? e then None
      else Some (s, rne_shiftr (Z.pos m * 10 ^ nd) (- e))
  | _ => None
  end.

(** [round(x, nd)] on a [float], [0 <= nd]: the decimal with [nd] digits
    nearest to the exact value of [x] (ties to even), read back as a
    double. *)
Definition py_round (x : float) (nd : Z) : float :=
  match scaled_decimal x nd with
  | Some (s, q) =>
      let r := py_truediv q (10 ^ nd) in
      if s then PrimFloat.opp r else r
  | None => x
  end.

(** [max(0, x)]: the first argument is kept unless the second is greater. *)
Definition py_max0 (x : float) : float :=
  if PrimFloat.ltb 0 x then x else 0%float.

(** [n > x] for an [int] and a [float], compared exactly. *)
Definition int_gt_float (n : Z) (x : float) : bool :=
  match Prim2SF x with
  | S754_zero _ => 0 <? n
  | S754_infinity s => s
  | S754_nan => false
  | S754_finite s m e =>
      let v := if s then Z.neg m else Z.pos m in
      if 0 <=? e then Z.shiftl v e <? n else v <? Z.shiftl n (- e)
  end.

Definition str_of_Z (z : Z) : string := NilZero.string_of_int (Z.to_int z).

Definition digit_char (d : Z) : string :=
  String (ascii_of_N (Z.to_N (48 + d))) EmptyString.

(** [f"{x:.1f}"] for a finite [x]. *)
Definition format_1f (x : float) : string :=
  let '(s, q) :=
    match scaled_decimal x 1 with
    | Some sq => sq
    | None =>
        match Prim2SF x with
        | S754_finite s m e => (s, Z.shiftl (Z.pos m) e * 10)
        | S754_zero s => (s, 0)
        | _ => (false, 0)
        end
    end in
  (if s then "-" else "") +:+ str_of_Z (q / 10) +:+ "." +:+ digit_char (q mod 10).

End PyNum.
Export PyNum.

(** ** Python strings *)

Module PyStr.

Definition is_upper_ascii (c : ascii) : bool :=
  let n := nat_of_ascii c in (Nat.leb 65 n && Nat.leb n 90)%nat.
Definition is_lower_ascii (c : ascii) : bool :=
  let n := nat_of_ascii c in (Nat.leb 97 n && Nat.leb n 122)%nat.
Definition is_digit (c : ascii) : bool :=
  let n := nat_of_ascii c in (Nat.leb 48 n && Nat.leb n 57)%nat.
(** [str.isspace] on ASCII: tab to carriage return, the four separators
    28 to 31, and the space. *)
Definition is_space (c : ascii) : bool :=
  let n := nat_of_ascii c in
  ((Nat.leb 9 n && Nat.leb n 13) || (Nat.leb 28 n && Nat.leb n 32))%nat.

Definition lower_char (c : ascii) : ascii :=
  if is_upper_ascii c then ascii_of_nat (nat_of_ascii c + 32) else c.
Definition upper_char (c : ascii) : ascii :=
  if is_lower_ascii c then ascii_of_nat (nat_of_ascii c - 32) else c.

Fixpoint map_chars (f : ascii -> ascii) (s : string) : string :=
  match s with
  | EmptyString => EmptyString
  | String c r => String (f c) (map_chars f r)
  end.

Definition lower : string -> string := map_chars lower_char.
Definition upper : string -> string := map_chars upper_char.

Definition startswith (s p : string) : bool := String.prefix p s.

(** [needle in hay]. *)
Fixpoint py_in (needle hay : string) : bool :=
  String.prefix needle hay ||
  match hay with
  | EmptyString => false
  | String _ r => py_in needle r
  end.

Definition endswith (s p : string) : bool :=
  let n := String.length s in
  let k := String.length p in
  (Nat.leb k n && String.eqb (String.substring (n - k) k s) p)%nat.

(** [s[:n]]. *)
Definition take_str (n : nat) (s : string) : string := String.substring 0 n s.

Fixpoint lstrip (s : string) : string :=
  match s with
  | String c r => if is_space c then lstrip r else s
  | EmptyString => EmptyString
  end.

Fixpoint rstrip (s : string) : string :=
  match s with
  | EmptyString => EmptyString
  | String c r =>
      match rstrip r with
      | EmptyString => if is_space c then EmptyString else String c EmptyString
      | r' => String c r'
      end
  end.

Definition strip (s : string) : string := rstrip (lstrip s).

(** [any(k in s for k in keys)]. *)
Definition any_in (keys : list string) (s : string) : bool :=
  existsb (fun k => py_in k s) keys.

End PyStr.
Export PyStr.

(** ** Exceptions *)

Inductive result (A : Type) : Type :=
  | Ok (a : A)
  | Raise (e : string).
Arguments Ok {A} a.
Arguments Raise {A} e.

#[global] Instance result_ret : MRet result := fun _ a => Ok a.
#[global] Instance result_bind : MBind result :=
  fun _ _ f m => match m with Ok a => f a | Raise e => Raise e end.

(** [try: body / except Exception as e: handler(str(e))]. *)
Definition try_except {A} (body : result A) (handler : string -> A) : A :=
  match body with
  | Ok a => a
  | Raise e => handler e
  end.

(** ** The workbook object model read by the analyzers *)

Record Cell := {
  cell_value : option string;          (* [None], or [str(cell.value)] *)
  cell_has_data_validation : bool;     (* [hasattr(cell, 'data_validation')] *)
  cell_data_type : string              (* [cell.data_type] *)
}.

(** An attribute probed with [hasattr] is [None] when it is absent. Reading a
    cell may raise; iterating rows may raise at any row. *)
Record Worksheet := {
  title : string;
  sheet_state : option (result string);
  max_row : result (option Z);
  max_column : result (option Z);
  merged_cells : option (result Z);    (* [len(sheet.merged_cells.ranges)] *)
  protection : option (result bool);   (* [sheet.protection.sheet] *)
  tables : option (result Z);          (* [len(sheet.tables)] *)
  iter_rows : Z -> list (result (list (result Cell)));
                                       (* [iter_rows(min_row=1, max_row=n)] *)
  first_row : result (list (result Cell))   (* [sheet[1]] *)
}.

Record Workbook := {
  worksheets : list Worksheet;
  defined_names : option (result Z);   (* [len(list(wb.defined_names))] *)
  vba_archive : bool                   (* present and truthy *)
}.

Definition sheetnames (wb : Workbook) : list string := map title (worksheets wb).

(** [wb[name]]: the first sheet of that title. *)
Definition getitem (wb : Workbook) (name : string) : option Worksheet :=
  List.find (fun ws => String.eqb (title ws) name) (worksheets wb).

(** ** Result dictionaries *)

Record SheetDict := {
  sh_sheet_name : option string;
  sh_dimensions : option (Z * Z);
  sh_total_cells : option Z;
  sh_used_cells : option Z;
  sh_formula_cells : option Z;
  sh_merged_cells : option Z;
  sh_has_tables : option bool;
  sh_has_data_validation : option bool;
  sh_data_consistency_score : option Z;
  sh_formulas : option (list string);
  sh_formula_types : option (gmap string Z);
  sh_headers_detected : option (list string);
  sh_analysis_errors : option (list string);
  sh_sheet_protection : option bool
}.

Definition empty_sheet_dict : SheetDict :=
  {| sh_sheet_name := None; sh_dimensions := None; sh_total_cells := None;
     sh_used_cells := None; sh_formula_cells := None; sh_merged_cells := None;
     sh_has_tables := None; sh_has_data_validation := None;
     sh_data_consistency_score := None; sh_formulas := None;
     sh_formula_types := None; sh_headers_detected := None;
     sh_analysis_errors := None; sh_sheet_protection := None |}.

Record StructureDict := {
  st_total_sheets : option Z;
  st_sheet_names : option (list string);
  st_named_ranges : option Z;
  st_has_hidden_sheets : option bool;
  st_has_very_hidden_sheets : option bool;
  st_file_size_mb : option float;
  st_structure_score : option Z;
  st_sheet_types : option (Z * Z * Z);     (* visible, hidden, very_hidden *)
  st_analysis_errors : option (list string)
}.

Definition empty_structure_dict : StructureDict :=
  {| st_total_sheets := None; st_sheet_names := None; st_named_ranges := None;
     st_has_hidden_sheets := None; st_has_very_hidden_sheets := None;
     st_file_size_mb := None; st_structure_score := None;
     st_sheet_types := None; st_analysis_errors := None |}.

Record FormulaDict := {
  fo_total_formulas : option Z;
  fo_complex_formulas : option Z;
  fo_simple_formulas : option Z;
  fo_formula_complexity_ratio : option float;
  fo_formula_types_summary : option (gmap string Z);
  fo_most_complex_formulas : option (list string);
  fo_automation_difficulty_score : option Z;
  fo_sheets_analyzed : option Z;
  fo_analysis_errors : option (list string)
}.

Definition empty_formula_dict : FormulaDict :=
  {| fo_total_formulas := None; fo_complex_formulas := None;
     fo_simple_formulas := None; fo_formula_complexity_ratio := None;
     fo_formula_types_summary := None; fo_most_complex_formulas := None;
     fo_automation_difficulty_score := None; fo_sheets_analyzed := None;
     fo_analysis_errors := None |}.

Record PatternDict := {
  pa_repeated_structures : option bool;
  pa_template_sheets : option (list string);
  pa_data_entry_sheets : option (list string);
  pa_calculation_sheets : option (list string);
  pa_reporting_sheets : option (list string);
  pa_summary_sheets : option (list string);
  pa_time_based_patterns : option bool;
  pa_consolidation_patterns : option bool;
  pa_pattern_score : option Z;
  pa_detected_patterns : option (list string);
  pa_business_process_indicators : option (list string);
  pa_analysis_errors : option (list string)
}.

Definition empty_pattern_dict : PatternDict :=
  {| pa_repeated_structures := None; pa_template_sheets := None;
     pa_data_entry_sheets := None; pa_calculation_sheets := None;
     pa_reporting_sheets := None; pa_summary_sheets := None;
     pa_time_based_patterns := None; pa_consolidation_patterns := None;
     pa_pattern_score := None; pa_detected_patterns := None;
     pa_business_process_indicators := None; pa_analysis_errors := None |}.

(** [self.analysis_results]. *)
Record AnalysisResults := {
  ar_structure : option StructureDict;
  ar_formulas : option FormulaDict;
  ar_patterns : option PatternDict;
  ar_red_flags : option (list string)
}.

(** The checker: [self]. [getsize] is what [os.path.getsize(self.file_path)]
    returns at the time of the analysis. *)
Record ExcelAutomationChecker := {
  workbook : option Workbook;
  file_path : option string;
  getsize : result Z;
  analysis_results : AnalysisResults;
  max_rows_to_analyze : Z;
  max_sheets_to_analyze : nat
}.

Definition set_analysis_results (self : ExcelAutomationChecker)
    (ar : AnalysisResults) : ExcelAutomationChecker :=
  {| workbook := workbook self; file_path := file_path self;
     getsize := getsize self; analysis_results := ar;
     max_rows_to_analyze := max_rows_to_analyze self;
     max_sheets_to_analyze := max_sheets_to_analyze self |}.

(** Truth value of [self.file_path]. *)
Definition path_set (p : option string) : bool :=
  match p with
  | Some s => negb (String.eqb s "")
  | None => false
  end.

Definition len {A} (l : list A) : Z := Z.of_nat (length l).

(** ** [_calculate_consistency_score] *)

Definition _calculate_consistency_score (sheet_analysis : SheetDict) : Z :=
  let score := 70 in
  let score :=
    if default false (sh_has_tables sheet_analysis) then score + 20 else score in
  let score :=
    if default false (sh_has_data_validation sheet_analysis)
    then score + 15 else score in
  let score :=
    if 0 <? len (default [] (sh_headers_detected sheet_analysis))
    then score + 10 else score in
  let used_cells := Z.max 1 (default 1 (sh_used_cells sheet_analysis)) in
  let merged_cells := default 0 (sh_merged_cells sheet_analysis) in
  let score :=
    if 0 <? merged_cells then
      let merged_ratio := py_truediv merged_cells used_cells in
      if (0.2 <? merged_ratio)%float then score - 30
      else if (0.1 <? merged_ratio)%float then score - 15
      else score - 5
    else score in
  let total_cells := Z.max 1 (default 1 (sh_total_cells sheet_analysis)) in
  let score :=
    if (0 <? used_cells) && (100 <? total_cells) then
      let density := py_truediv used_cells total_cells in
      if (density <? 0.05)%float then score - 20
      else if (density <? 0.1)%float then score - 10
      else score
    else score in
  let formula_cells := default 0 (sh_formula_cells sheet_analysis) in
  let score :=
    if 10 <? used_cells then
      let formula_ratio := py_truediv formula_cells used_cells in
      if (0.8 <? formula_ratio)%float then score - 10
      else if ((0.1 <=? formula_ratio) && (formula_ratio <=? 0.5))%float
      then score + 5
      else score
    else score in
  Z.max 0 (Z.min 100 score).

(** ** [analyze_sheet_data] *)

(** The local counters of the cell scan, with the error list of the
    analysis dictionary. *)
Record CellScan := {
  used_cell_count : Z;
  formula_count : Z;
  data_validation_count : Z;
  formulas : list string;
  formula_types : gmap string Z;
  scan_errors : list string
}.

Definition tagged_functions : list string :=
  ["SUM"; "AVERAGE"; "COUNT"; "IF"; "VLOOKUP"; "INDEX"; "MATCH"; "INDIRECT";
   "OFFSET"].

(** The body of the inner loop for one cell. *)
Definition scan_cell (row_idx col_idx : Z) (c : result Cell) (st : CellScan)
    : CellScan :=
  match c with
  | Raise e =>
      if len (scan_errors st) <? 5 then
        {| used_cell_count := used_cell_count st;
           formula_count := formula_count st;
           data_validation_count := data_validation_count st;
           formulas := formulas st;
           formula_types := formula_types st;
           scan_errors :=
             scan_errors st ++
             ["Cell analysis error at " +:+ str_of_Z row_idx +:+ "," +:+
              str_of_Z col_idx +:+ ": " +:+ e] |}
      else st
  | Ok cell =>
      match cell_value cell with
      | None => st
      | Some cell_value_str =>
          let is_formula := startswith cell_value_str "=" in
          let formula_upper := upper cell_value_str in
          {| used_cell_count := used_cell_count st + 1;
             formula_count :=
               if is_formula then formula_count st + 1 else formula_count st;
             data_validation_count :=
               if cell_has_data_validation cell
                  || String.eqb (cell_data_type cell) "f"
               then data_validation_count st + 1
               else data_validation_count st;
             formulas :=
               if is_formula
               then formulas st ++ [take_str 100 cell_value_str]
               else formulas st;
             formula_types :=
               if is_formula then
                 match List.find (fun func => py_in func formula_upper)
                         tagged_functions with
                 | Some func =>
                     <[func := default 0 (formula_types st !! func) + 1]>
                       (formula_types st)
                 | None => formula_types st
                 end
               else formula_types st;
             scan_errors := scan_errors st |}
      end
  end.

Fixpoint scan_row (row_idx col_idx : Z) (row : list (result Cell))
    (st : CellScan) : CellScan :=
  match row with
  | [] => st
  | c :: rest => scan_row row_idx (col_idx + 1) rest (scan_cell row_idx col_idx c st)
  end.

(** The outer loop; an exception of the row iterator ends the scan. *)
Fixpoint scan_rows (row_idx : Z) (rows : list (result (list (result Cell))))
    (st : CellScan) : CellScan :=
  match rows with
  | [] => st
  | Raise e :: _ =>
      {| used_cell_count := used_cell_count st;
         formula_count := formula_count st;
         data_validation_count := data_validation_count st;
         formulas := formulas st;
         formula_types := formula_types st;
         scan_errors := scan_errors st ++ ["Cell iteration failed: " +:+ e] |}
  | Ok row :: rest => scan_rows (row_idx + 1) rest (scan_row row_idx 1 row st)
  end.

(** The header loop over [sheet[1]]: up to 20 non-empty cells, each cut to
    50 characters. *)
Fixpoint header_loop (cells : list (result Cell)) (first_row_values : list string)
    : result (list string) :=
  match cells with
  | [] => Ok first_row_values
  | c :: rest =>
      cell ← c;
      let first_row_values :=
        match cell_value cell with
        | Some v => first_row_values ++ [take_str 50 v]
        | None => first_row_values
        end in
      if 20 <=? len first_row_values then Ok first_row_values
      else header_loop rest first_row_values
  end.

Definition analyze_sheet_data (self : ExcelAutomationChecker)
    (sheet_name : string) : SheetDict :=
  match workbook self with
  | None => empty_sheet_dict
  | Some wb =>
  match getitem wb sheet_name with
  | None => empty_sheet_dict
  | Some sheet =>
      match (r ← max_row sheet; c ← max_column sheet;
             Ok (default 0 r, default 0 c)) with
      | Raise e =>
          {| sh_sheet_name := Some sheet_name;
             sh_dimensions := Some (0, 0);
             sh_total_cells := Some 0;
             sh_used_cells := Some 0;
             sh_formula_cells := Some 0;
             sh_merged_cells := Some 0;
             sh_has_tables := Some false;
             sh_has_data_validation := Some false;
             sh_data_consistency_score := Some 0;
             sh_formulas := Some [];
             sh_formula_types := Some ∅;
             sh_headers_detected := Some [];
             sh_analysis_errors := Some ["Dimension analysis failed: " +:+ e];
             sh_sheet_protection := Some false |}
      | Ok (max_row, max_col) =>
          let analysis_max_row := Z.min max_row (max_rows_to_analyze self) in
          let errors : list string := [] in
          let '(merged, errors) :=
            match merged_cells sheet with
            | None => (0, errors)
            | Some (Ok n) => (n, errors)
            | Some (Raise e) =>
                (0, errors ++ ["Merged cells analysis failed: " +:+ e])
            end in
          let '(protected, errors) :=
            match protection sheet with
            | None => (false, errors)
            | Some (Ok b) => (b, errors)
            | Some (Raise e) =>
                (false, errors ++ ["Sheet protection analysis failed: " +:+ e])
            end in
          let st :=
            scan_rows 1 (iter_rows sheet analysis_max_row)
              {| used_cell_count := 0; formula_count := 0;
                 data_validation_count := 0; formulas := [];
                 formula_types := ∅; scan_errors := errors |} in
          let errors := scan_errors st in
          let '(has_tables, errors) :=
            match tables sheet with
            | None => (false, errors)
            | Some (Ok n) => (0 <? n, errors)
            | Some (Raise e) =>
                (false, errors ++ ["Table detection failed: " +:+ e])
            end in
          let '(headers, errors) :=
            if 0 <? max_row then
              match (cells ← first_row sheet; header_loop cells []) with
              | Ok hs => (hs, errors)
              | Raise e => ([], errors ++ ["Header detection failed: " +:+ e])
              end
            else ([], errors) in
          let analysis :=
            {| sh_sheet_name := Some sheet_name;
               sh_dimensions := Some (max_row, max_col);
               sh_total_cells := Some (max_row * max_col);
               sh_used_cells := Some (used_cell_count st);
               sh_formula_cells := Some (formula_count st);
               sh_merged_cells := Some merged;
               sh_has_tables := Some has_tables;
               sh_has_data_validation := Some (0 <? data_validation_count st);
               sh_data_consistency_score := Some 0;
               sh_formulas := Some (formulas st);
               sh_formula_types := Some (formula_types st);
               sh_headers_detected := Some headers;
               sh_analysis_errors := Some errors;
               sh_sheet_protection := Some protected |} in
          {| sh_sheet_name := sh_sheet_name analysis;
             sh_dimensions := sh_dimensions analysis;
             sh_total_cells := sh_total_cells analysis;
             sh_used_cells := sh_used_cells analysis;
             sh_formula_cells := sh_formula_cells analysis;
             sh_merged_cells := sh_merged_cells analysis;
             sh_has_tables := sh_has_tables analysis;
             sh_has_data_validation := sh_has_data_validation analysis;
             sh_data_consistency_score :=
               Some (_calculate_consistency_score analysis);
             sh_formulas := sh_formulas analysis;
             sh_formula_types := sh_formula_types analysis;
             sh_headers_detected := sh_headers_detected analysis;
             sh_analysis_errors := sh_analysis_errors analysis;
             sh_sheet_protection := sh_sheet_protection analysis |}
      end
  end
  end.

(** ** [analyze_file_structure] *)

(** The flags and counters updated by the visibility loop. *)
Record Visibility := {
  has_hidden_sheets : bool;
  has_very_hidden_sheets : bool;
  visible : Z;
  hidden : Z;
  very_hidden : Z
}.

(** The loop over [wb.worksheets]; an exception leaves the entries as they
    were when it was raised. *)
Fixpoint visibility_loop (sheets : list Worksheet) (v : Visibility)
    : Visibility * option string :=
  match sheets with
  | [] => (v, None)
  | sheet :: rest =>
      match sheet_state sheet with
      | Some (Raise e) => (v, Some e)
      | Some (Ok st) =>
          if String.eqb st "hidden" then
            visibility_loop rest
              {| has_hidden_sheets := true;
                 has_very_hidden_sheets := has_very_hidden_sheets v;
                 visible := visible v; hidden := hidden v + 1;
                 very_hidden := very_hidden v |}
          else if String.eqb st "veryHidden" then
            visibility_loop rest
              {| has_hidden_sheets := has_hidden_sheets v;
                 has_very_hidden_sheets := true;
                 visible := visible v; hidden := hidden v;
                 very_hidden := very_hidden v + 1 |}
          else
            visibility_loop rest
              {| has_hidden_sheets := has_hidden_sheets v;
                 has_very_hidden_sheets := has_very_hidden_sheets v;
                 visible := visible v + 1; hidden := hidden v;
                 very_hidden := very_hidden v |}
      | None =>
          visibility_loop rest
            {| has_hidden_sheets := has_hidden_sheets v;
               has_very_hidden_sheets := has_very_hidden_sheets v;
               visible := visible v + 1; hidden := hidden v;
               very_hidden := very_hidden v |}
      end
  end.

(** The scoring block, before the clamp. Every value it reads is a number or
    a flag, so none of its steps raises and its handler (score 50) is not
    entered. *)
Definition structure_scoring (total_sheets named_ranges : Z)
    (has_hidden has_very_hidden : bool) (file_size_mb : float) : Z :=
  let score := 70 in
  let score :=
    if (1 <=? total_sheets) && (total_sheets <=? 10) then score + 15
    else if (11 <=? total_sheets) && (total_sheets <=? 20) then score + 5
    else if 30 <? total_sheets then score - 20
    else score in
  let score :=
    if 0 <? named_ranges then
      if named_ranges <=? 10 then score + 15 else score + 5
    else score in
  let score := if has_hidden then score - 5 else score in
  let score := if has_very_hidden then score - 10 else score in
  let score :=
    if (file_size_mb <? 5)%float then score + 5
    else if (50 <? file_size_mb)%float then score - 15
    else score in
  score.

Definition analyze_file_structure (self : ExcelAutomationChecker)
    : StructureDict :=
  match workbook self with
  | None => empty_structure_dict
  | Some wb =>
      try_except
        (let total_sheets := len (sheetnames wb) in
         file_size_mb ←
           (if path_set (file_path self) then
              size ← getsize self;
              Ok (py_round (py_truediv size (1024 * 1024)) 2)
            else Ok 0%float);
         let errors : list string := [] in
         let '(named_ranges, errors) :=
           match defined_names wb with
           | None => (0, errors)
           | Some (Ok n) => (n, errors)
           | Some (Raise e) =>
               (0, errors ++ ["Named ranges analysis failed: " +:+ e])
           end in
         let '(v, failure) :=
           visibility_loop (worksheets wb)
             {| has_hidden_sheets := false; has_very_hidden_sheets := false;
                visible := 0; hidden := 0; very_hidden := 0 |} in
         let errors :=
           match failure with
           | Some e => errors ++ ["Sheet visibility analysis failed: " +:+ e]
           | None => errors
           end in
         let score :=
           structure_scoring total_sheets named_ranges (has_hidden_sheets v)
             (has_very_hidden_sheets v) file_size_mb in
         Ok {| st_total_sheets := Some total_sheets;
               st_sheet_names := Some (sheetnames wb);
               st_named_ranges := Some named_ranges;
               st_has_hidden_sheets := Some (has_hidden_sheets v);
               st_has_very_hidden_sheets := Some (has_very_hidden_sheets v);
               st_file_size_mb := Some file_size_mb;
               st_structure_score := Some (Z.max 0 (Z.min 100 score));
               st_sheet_types := Some (visible v, hidden v, very_hidden v);
               st_analysis_errors := Some errors |})
        (fun e =>
           {| st_total_sheets := Some 0;
              st_sheet_names := None;
              st_named_ranges := None;
              st_has_hidden_sheets := None;
              st_has_very_hidden_sheets := None;
              st_file_size_mb := None;
              st_structure_score := Some 0;
              st_sheet_types := None;
              st_analysis_errors :=
                Some ["Critical structure analysis error: " +:+ e] |})
  end.

(** ** [analyze_formulas] *)

Definition complex_formula_patterns : list string :=
  ["INDIRECT"; "OFFSET"; "INDEX"; "MATCH"; "VLOOKUP"; "HLOOKUP"; "XLOOKUP";
   "SUMPRODUCT"; "ARRAY"; "MMULT"; "TRANSPOSE"; "PIVOT"; "GETPIVOTDATA";
   "CUBE"; "HYPERLINK"].

Definition simple_formula_patterns : list string :=
  ["SUM"; "AVERAGE"; "COUNT"; "MAX"; "MIN"; "IF"; "CONCATENATE"; "CONCAT";
   "LEFT"; "RIGHT"; "MID"; "LEN"; "UPPER"; "LOWER"; "ROUND"; "ABS"; "SQRT"].

Definition moderate_formula_patterns : list string :=
  ["SUMIF"; "COUNTIF"; "AVERAGEIF"; "SUMIFS"; "COUNTIFS"; "AVERAGEIFS";
   "IFERROR"; "IFNA"; "CHOOSE"; "SWITCH"; "IFS"].

(** [summary[func] = summary.get(func, 0) + count] for every entry of the
    sheet's histogram. *)
Definition add_formula_types (sheet_formula_types summary : gmap string Z)
    : gmap string Z :=
  map_fold (fun func count acc => <[func := default 0 (acc !! func) + count]> acc)
    summary sheet_formula_types.

(** The loop over the sheet names, left at the sheet limit. *)
Fixpoint collect_formulas (self : ExcelAutomationChecker) (names : list string)
    (sheets_analyzed : nat) (all_formulas : list string)
    (formula_types_summary : gmap string Z)
    : nat * list string * gmap string Z :=
  match names with
  | [] => (sheets_analyzed, all_formulas, formula_types_summary)
  | sheet_name :: rest =>
      if (max_sheets_to_analyze self <=? sheets_analyzed)%nat
      then (sheets_analyzed, all_formulas, formula_types_summary)
      else
        let sheet_analysis := analyze_sheet_data self sheet_name in
        collect_formulas self rest (S sheets_analyzed)
          (all_formulas ++ default [] (sh_formulas sheet_analysis))
          (add_formula_types
             (default ∅ (sh_formula_types sheet_analysis))
             formula_types_summary)
  end.

(** The branch taken by the categorisation of one formula: [true] when it is
    appended to [complex_functions], [false] when it is appended to
    [simple_functions]. *)
Definition goes_to_complex (formula : string) : bool :=
  let formula_upper := upper formula in
  if any_in complex_formula_patterns formula_upper then true
  else if any_in moderate_formula_patterns formula_upper then false
  else if any_in simple_formula_patterns formula_upper then false
  else true.

Fixpoint categorize (all_formulas complex_functions simple_functions : list string)
    : list string * list string :=
  match all_formulas with
  | [] => (complex_functions, simple_functions)
  | formula :: rest =>
      if goes_to_complex formula
      then categorize rest (complex_functions ++ [formula]) simple_functions
      else categorize rest complex_functions (simple_functions ++ [formula])
  end.

Definition difficulty_scoring (total_formulas : Z) (complexity_ratio : float) : Z :=
  let difficulty_score :=
    if total_formulas =? 0 then 20
    else if (0.6 <? complexity_ratio)%float then 85
    else if (0.4 <? complexity_ratio)%float then 70
    else if (0.2 <? complexity_ratio)%float then 50
    else 25 in
  let difficulty_score :=
    if 1000 <? total_formulas then difficulty_score + 10
    else if 100 <? total_formulas then difficulty_score + 5
    else difficulty_score in
  Z.min 100 difficulty_score.

Definition analyze_formulas (self : ExcelAutomationChecker) : FormulaDict :=
  match workbook self with
  | None => empty_formula_dict
  | Some wb =>
      let '(sheets_analyzed, all_formulas, formula_types_summary) :=
        collect_formulas self (sheetnames wb) 0%nat [] ∅ in
      let '(complex_functions, simple_functions) :=
        categorize all_formulas [] [] in
      let total_formulas := len all_formulas in
      let complex_count := len complex_functions in
      let simple_count := len simple_functions in
      let formula_complexity_ratio :=
        py_truediv complex_count (Z.max 1 total_formulas) in
      {| fo_total_formulas := Some total_formulas;
         fo_complex_formulas := Some complex_count;
         fo_simple_formulas := Some simple_count;
         fo_formula_complexity_ratio := Some formula_complexity_ratio;
         fo_formula_types_summary := Some formula_types_summary;
         fo_most_complex_formulas := Some (take 5 complex_functions);
         fo_automation_difficulty_score :=
           Some (difficulty_scoring total_formulas formula_complexity_ratio);
         fo_sheets_analyzed := Some (Z.of_nat sheets_analyzed);
         fo_analysis_errors := Some [] |}
  end.

(** ** Regular expressions of the pattern detector *)

Module Re.

Fixpoint count_while (p : ascii -> bool) (s : string) : nat :=
  match s with
  | String c r => if p c then S (count_while p r) else O
  | EmptyString => O
  end.

Fixpoint drop_str (n : nat) (s : string) : string :=
  match n, s with
  | S k, String _ r => drop_str k r
  | _, _ => s
  end.

(** [\d+] at the head of [s]: the length of the match. *)
Definition digits_len (s : string) : option nat :=
  match count_while is_digit s with
  | O => None
  | n => Some n
  end.

(** [[0-9]+|_\d+|\s+\d+] at the head of [s], the alternatives tried in
    order: the length of the match. *)
Definition numeric_token_len (s : string) : option nat :=
  match digits_len s with
  | Some n => Some n
  | None =>
      match s with
      | String c r =>
          if Ascii.eqb c "_" then n ← digits_len r; Some (S n)
          else
            match count_while is_space s with
            | O => None
            | k => n ← digits_len (drop_str k s); Some (k + n)%nat
            end
      | EmptyString => None
      end
  end.

Definition month_abbreviations : list string :=
  ["jan"; "feb"; "mar"; "apr"; "may"; "jun"; "jul"; "aug"; "sep"; "oct";
   "nov"; "dec"].

Definition is_not_newline (c : ascii) : bool := negb (Ascii.eqb c "010").

(** [(jan|feb|...|dec).*] at the head of [s]: the month and the rest of
    the line. *)
Definition month_tail_len (s : string) : option nat :=
  if existsb (fun m => String.prefix m s) month_abbreviations
  then Some (3 + count_while is_not_newline (drop_str 3 s))%nat
  else None.

(** [re.sub(pattern, '', s)] for a pattern given by the length of its match
    at the head of a string; [skip] characters of a match are still to be
    dropped. *)
Fixpoint sub_empty (match_len : string -> option nat) (skip : nat)
    (s : string) : string :=
  match s with
  | EmptyString => EmptyString
  | String c r =>
      match skip with
      | S k => sub_empty match_len k r
      | O =>
          match match_len s with
          | Some (S k) => sub_empty match_len k r
          | _ => String c (sub_empty match_len O r)
          end
      end
  end.

End Re.

(** ** [detect_automation_patterns] *)

Definition time_patterns : list (string * list string) :=
  [("months",
    ["jan"; "feb"; "mar"; "apr"; "may"; "jun"; "jul"; "aug"; "sep"; "oct";
     "nov"; "dec"; "january"; "february"; "march"; "april"; "june"; "july";
     "august"; "september"; "october"; "november"; "december"]);
   ("quarters", ["q1"; "q2"; "q3"; "q4"; "quarter"]);
   ("years", ["2020"; "2021"; "2022"; "2023"; "2024"; "2025"; "2026"]);
   ("periods", ["week"; "daily"; "monthly"; "annual"; "yearly"])].

Definition is_time_based (name : string) : bool :=
  let name_lower := lower name in
  existsb (fun '(_, pattern_list) => any_in pattern_list name_lower) time_patterns.

Definition time_based_sheets (sheet_names : list string) : list string :=
  List.filter is_time_based sheet_names.

Definition base_name (name : string) : string :=
  let base_name := strip (Re.sub_empty Re.numeric_token_len O name) in
  strip (Re.sub_empty Re.month_tail_len O (lower base_name)).

Definition pattern_groups (sheet_names : list string) : gmap string Z :=
  foldl (fun groups name =>
           let b := base_name name in
           if (2 <=? String.length b)%nat
           then <[b := default 0 (groups !! b) + 1]> groups
           else groups)
        ∅ sheet_names.

Definition repeated_patterns (sheet_names : list string) : gmap string Z :=
  filter (fun kv => 2 <= kv.2) (pattern_groups sheet_names).

Inductive category := data_entry | calculation | reporting | template | summary.

Definition categorization_rules : list (category * list string) :=
  [(data_entry, ["input"; "entry"; "data"; "raw"; "import"; "source"; "form"]);
   (calculation,
    ["calc"; "calculation"; "compute"; "process"; "analysis"; "logic"]);
   (reporting,
    ["report"; "summary"; "dashboard"; "output"; "results"; "final"]);
   (template, ["template"; "master"; "base"; "model"; "standard"]);
   (summary, ["summary"; "total"; "consolidated"; "overview"; "aggregate"])].

(** The five role lists of the [patterns] dictionary. *)
Record Roles := {
  data_entry_sheets : list string;
  calculation_sheets : list string;
  reporting_sheets : list string;
  template_sheets : list string;
  summary_sheets : list string
}.

(** [patterns[f'{category}_sheets'].append(sheet_name)]. *)
Definition append_role (c : category) (sheet_name : string) (r : Roles) : Roles :=
  match c with
  | data_entry =>
      {| data_entry_sheets := data_entry_sheets r ++ [sheet_name];
         calculation_sheets := calculation_sheets r;
         reporting_sheets := reporting_sheets r;
         template_sheets := template_sheets r;
         summary_sheets := summary_sheets r |}
  | calculation =>
      {| data_entry_sheets := data_entry_sheets r;
         calculation_sheets := calculation_sheets r ++ [sheet_name];
         reporting_sheets := reporting_sheets r;
         template_sheets := template_sheets r;
         summary_sheets := summary_sheets r |}
  | reporting =>
      {| data_entry_sheets := data_entry_sheets r;
         calculation_sheets := calculation_sheets r;
         reporting_sheets := reporting_sheets r ++ [sheet_name];
         template_sheets := template_sheets r;
         summary_sheets := summary_sheets r |}
  | template =>
      {| data_entry_sheets := data_entry_sheets r;
         calculation_sheets := calculation_sheets r;
         reporting_sheets := reporting_sheets r;
         template_sheets := template_sheets r ++ [sheet_name];
         summary_sheets := summary_sheets r |}
  | summary =>
      {| data_entry_sheets := data_entry_sheets r;
         calculation_sheets := calculation_sheets r;
         reporting_sheets := reporting_sheets r;
         template_sheets := template_sheets r;
         summary_sheets := summary_sheets r ++ [sheet_name] |}
  end.

(** The category a sheet name is filed under, if any: the first rule with a
    keyword in the lower-cased name, else [data_entry] for a generic page
    name. *)
Definition sheet_category (sheet_name : string) : option category :=
  let name_lower := lower sheet_name in
  match List.find (fun '(_, keywords) => any_in keywords name_lower)
          categorization_rules with
  | Some (c, _) => Some c
  | None =>
      if any_in ["sheet"; "tab"; "page"] name_lower then Some data_entry
      else None
  end.

Definition categorize_sheets (sheet_names : list string) : Roles :=
  foldl (fun r sheet_name =>
           match sheet_category sheet_name with
           | Some c => append_role c sheet_name r
           | None => r
           end)
        {| data_entry_sheets := []; calculation_sheets := [];
           reporting_sheets := []; template_sheets := [];
           summary_sheets := [] |}
        sheet_names.

(** The running [pattern_score], [detected_patterns] and
    [business_process_indicators]. *)
Record Tally := {
  pattern_score : Z;
  detected_patterns : list string;
  business_process_indicators : list string
}.

Definition found (points : Z) (pattern indicator : string) (t : Tally) : Tally :=
  {| pattern_score := pattern_score t + points;
     detected_patterns := detected_patterns t ++ [pattern];
     business_process_indicators := business_process_indicators t ++ [indicator] |}.

Definition is_nonempty {A} (l : list A) : bool :=
  match l with [] => false | _ => true end.

Definition detect_automation_patterns (self : ExcelAutomationChecker)
    : PatternDict :=
  match workbook self with
  | None => empty_pattern_dict
  | Some wb =>
      let sheet_names := sheetnames wb in
      let t := {| pattern_score := 0; detected_patterns := [];
                  business_process_indicators := [] |} in
      let time_based := 2 <=? len (time_based_sheets sheet_names) in
      let t :=
        if time_based
        then found 30 "Time-based sheet structure detected"
               "Periodic reporting process" t
        else t in
      let repeated :=
        (3 <=? len sheet_names)
        && bool_decide (repeated_patterns sheet_names ≠ ∅) in
      let t :=
        if repeated
        then found 25 "Repeated sheet naming patterns detected"
               "Template-based workflow" t
        else t in
      let roles := categorize_sheets sheet_names in
      let data_sources := len (data_entry_sheets roles) in
      let reporting_outputs :=
        len (reporting_sheets roles) + len (summary_sheets roles) in
      let consolidation := (2 <=? data_sources) && (1 <=? reporting_outputs) in
      let t :=
        if consolidation
        then found 20 "Data consolidation workflow detected"
               "Multi-source data aggregation" t
        else t in
      let t :=
        if is_nonempty (template_sheets roles)
           && (2 <=? len sheet_names - len (template_sheets roles))
        then found 15 "Master template with variations"
               "Standardized reporting process" t
        else t in
      let t :=
        if is_nonempty (data_entry_sheets roles)
           && is_nonempty (calculation_sheets roles)
           && is_nonempty (reporting_sheets roles)
        then found 25 "Complete business process workflow"
               "End-to-end data processing pipeline" t
        else t in
      let t :=
        if 3 <=? len (detected_patterns t)
        then {| pattern_score := pattern_score t + 10;
                detected_patterns := detected_patterns t;
                business_process_indicators :=
                  business_process_indicators t
                  ++ ["Multi-pattern business process"] |}
        else t in
      {| pa_repeated_structures := Some repeated;
         pa_template_sheets := Some (template_sheets roles);
         pa_data_entry_sheets := Some (data_entry_sheets roles);
         pa_calculation_sheets := Some (calculation_sheets roles);
         pa_reporting_sheets := Some (reporting_sheets roles);
         pa_summary_sheets := Some (summary_sheets roles);
         pa_time_based_patterns := Some time_based;
         pa_consolidation_patterns := Some consolidation;
         pa_pattern_score := Some (pattern_score t);
         pa_detected_patterns := Some (detected_patterns t);
         pa_business_process_indicators := Some (business_process_indicators t);
         pa_analysis_errors := Some [] |}
  end.

(** ** [identify_red_flags] *)

(** [if c: flags.append(x)]. *)
Definition append_if (c : bool) (x : string) (flags : list string) : list string :=
  if c then flags ++ [x] else flags.

(** [if c1: flags.append(x1) / elif c2: flags.append(x2)]. *)
Definition append_elif (c1 : bool) (x1 : string) (c2 : bool) (x2 : string)
    (flags : list string) : list string :=
  if c1 then flags ++ [x1] else if c2 then flags ++ [x2] else flags.

(** The counters and the flag list of the per-sheet loop. *)
Record SheetFlags := {
  total_merged_cells : Z;
  sheets_with_protection : Z;
  sheets_with_many_formulas : Z;
  loop_flags : list string
}.

Definition sheet_red_flags (self : ExcelAutomationChecker) (acc : SheetFlags)
    (sheet_name : string) : SheetFlags :=
  let sheet_analysis := analyze_sheet_data self sheet_name in
  let merged_count := default 0 (sh_merged_cells sheet_analysis) in
  let used_cells := default 1 (sh_used_cells sheet_analysis) in
  let formula_cells := default 0 (sh_formula_cells sheet_analysis) in
  let total_cells := default 1 (sh_total_cells sheet_analysis) in
  let flags := loop_flags acc in
  let flags :=
    append_if (50 <? merged_count)
      ("Sheet '" +:+ sheet_name +:+ "' has excessive merged cells ("
       +:+ str_of_Z merged_count +:+ ")")
      flags in
  let flags :=
    append_if
      ((0 <? used_cells) && (1000 <? total_cells)
       && (py_truediv used_cells total_cells <? 0.05)%float)
      ("Sheet '" +:+ sheet_name +:+ "' has very sparse data (low density)")
      flags in
  {| total_merged_cells := total_merged_cells acc + merged_count;
     sheets_with_protection :=
       if default false (sh_sheet_protection sheet_analysis)
       then sheets_with_protection acc + 1
       else sheets_with_protection acc;
     sheets_with_many_formulas :=
       if (100 <? used_cells)
          && (0.7 <? py_truediv formula_cells used_cells)%float
       then sheets_with_many_formulas acc + 1
       else sheets_with_many_formulas acc;
     loop_flags := flags |}.

Definition sum_Z (l : list Z) : Z := foldl Z.add 0 l.

Definition macro_indicators : list string :=
  ["CALL"; "RUN"; "PERSONAL"; "APPLICATION"].

Definition identify_red_flags (self : ExcelAutomationChecker) : list string :=
  match workbook self with
  | None => ["No workbook loaded"]
  | Some wb =>
      let structure_analysis :=
        default empty_structure_dict (ar_structure (analysis_results self)) in
      let formula_analysis :=
        default empty_formula_dict (ar_formulas (analysis_results self)) in
      let red_flags : list string := [] in
      let file_size_mb := default 0%float (st_file_size_mb structure_analysis) in
      let red_flags :=
        append_elif
          (100 <? file_size_mb)%float
          ("Very large file size (" +:+ format_1f file_size_mb
           +:+ "MB) - may cause performance issues")
          (50 <? file_size_mb)%float
          ("Large file size (" +:+ format_1f file_size_mb
           +:+ "MB) - requires optimization considerations")
          red_flags in
      let total_sheets := default 0 (st_total_sheets structure_analysis) in
      let red_flags :=
        append_elif
          (30 <? total_sheets)
          ("Excessive number of sheets (" +:+ str_of_Z total_sheets
           +:+ ") - increases automation complexity")
          (20 <? total_sheets)
          ("High number of sheets (" +:+ str_of_Z total_sheets
           +:+ ") - may require phased automation approach")
          red_flags in
      let complex_formula_ratio :=
        default 0%float (fo_formula_complexity_ratio formula_analysis) in
      let total_formulas := default 0 (fo_total_formulas formula_analysis) in
      let red_flags :=
        append_elif
          (0.7 <? complex_formula_ratio)%float
          "Very high complex formula ratio (>70%) - significant logic replication required"
          (0.5 <? complex_formula_ratio)%float
          "High complex formula ratio (>50%) - moderate logic replication required"
          red_flags in
      let red_flags :=
        append_elif
          (2000 <? total_formulas)
          ("Very high formula count (" +:+ str_of_Z total_formulas
           +:+ ") - extensive logic to replicate")
          (1000 <? total_formulas)
          ("High formula count (" +:+ str_of_Z total_formulas
           +:+ ") - substantial automation effort required")
          red_flags in
      let acc :=
        foldl (sheet_red_flags self)
          {| total_merged_cells := 0; sheets_with_protection := 0;
             sheets_with_many_formulas := 0; loop_flags := red_flags |}
          (take (max_sheets_to_analyze self) (sheetnames wb)) in
      let red_flags := loop_flags acc in
      let red_flags :=
        append_elif
          (20 <? total_merged_cells acc)
          ("High total merged cells across file ("
           +:+ str_of_Z (total_merged_cells acc)
           +:+ ") - major automation blocker")
          (10 <? total_merged_cells acc)
          ("Moderate merged cell usage ("
           +:+ str_of_Z (total_merged_cells acc)
           +:+ ") - complicates automation")
          red_flags in
      let red_flags :=
        append_if (0 <? sheets_with_protection acc)
          ("Protected sheets detected ("
           +:+ str_of_Z (sheets_with_protection acc)
           +:+ ") - may restrict automation access")
          red_flags in
      let red_flags :=
        append_if
          (int_gt_float (sheets_with_many_formulas acc)
             (float_of_Z total_sheets * 0.5)%float)
          "Many sheets are formula-heavy - complex logic replication required"
          red_flags in
      let red_flags :=
        append_if (default false (st_has_hidden_sheets structure_analysis))
          "Hidden sheets detected - may contain critical logic or data"
          red_flags in
      let red_flags :=
        append_if (default false (st_has_very_hidden_sheets structure_analysis))
          "Very hidden sheets detected - likely contains sensitive or complex logic"
          red_flags in
      let formula_types := default ∅ (fo_formula_types_summary formula_analysis) in
      let has_macros :=
        (path_set (file_path self)
         && endswith (lower (default "" (file_path self))) ".xlsm")
        || vba_archive wb
        || existsb (fun indicator => bool_decide (is_Some (formula_types !! indicator)))
             macro_indicators in
      let red_flags :=
        append_if has_macros
          "VBA macros detected - requires specialized automation approach"
          red_flags in
      let consistency_scores :=
        map (fun sheet_name =>
               default 50 (sh_data_consistency_score
                             (analyze_sheet_data self sheet_name)))
            (take 10 (sheetnames wb)) in
      let avg_consistency :=
        py_truediv (sum_Z consistency_scores) (len consistency_scores) in
      let red_flags :=
        append_elif
          (is_nonempty consistency_scores && (avg_consistency <? 40)%float)
          "Low data consistency across sheets - requires cleanup before automation"
          (is_nonempty consistency_scores && (avg_consistency <? 60)%float)
          "Moderate data consistency issues - some cleanup recommended"
          red_flags in
      red_flags
  end.

(** ** [identify_opportunities] *)

Definition identify_opportunities (self : ExcelAutomationChecker) : list string :=
  let structure_analysis :=
    default empty_structure_dict (ar_structure (analysis_results self)) in
  let formula_analysis :=
    default empty_formula_dict (ar_formulas (analysis_results self)) in
  let pattern_analysis :=
    default empty_pattern_dict (ar_patterns (analysis_results self)) in
  let opportunities : list string := [] in
  let opportunities :=
    append_if (default false (pa_time_based_patterns pattern_analysis))
      "Monthly/quarterly reporting can be fully automated with templates"
      opportunities in
  let opportunities :=
    append_if (default false (pa_consolidation_patterns pattern_analysis))
      "Data consolidation process has high ROI automation potential"
      opportunities in
  let opportunities :=
    append_if (default false (pa_repeated_structures pattern_analysis))
      "Repeated sheet structures can use template-based automation"
      opportunities in
  let opportunities :=
    append_if (0 <? default 0 (st_named_ranges structure_analysis))
      "Named ranges indicate well-structured data - easier automation implementation"
      opportunities in
  let opportunities :=
    append_if (default 0 (st_total_sheets structure_analysis) <=? 10)
      "Manageable number of sheets - straightforward automation scope"
      opportunities in
  let simple_formulas := default 0 (fo_simple_formulas formula_analysis) in
  let total_formulas := default 1 (fo_total_formulas formula_analysis) in
  let opportunities :=
    append_if
      (int_gt_float simple_formulas (float_of_Z total_formulas * 0.7)%float)
      "Majority of formulas are simple - easy to replicate in automation"
      opportunities in
  let opportunities :=
    append_if (total_formulas <? 100)
      "Low formula complexity - minimal logic replication required"
      opportunities in
  let business_indicators :=
    default [] (pa_business_process_indicators pattern_analysis) in
  let opportunities :=
    append_if
      (bool_decide ("End-to-end data processing pipeline" ∈ business_indicators))
      "Complete workflow automation possible - high impact potential"
      opportunities in
  let opportunities :=
    append_if
      (bool_decide ("Multi-source data aggregation" ∈ business_indicators))
      "Data integration automation can eliminate manual consolidation"
      opportunities in
  let file_size := default 0%float (st_file_size_mb structure_analysis) in
  let opportunities :=
    append_if (file_size <? 10)%float
      "Small file size enables cloud-based automation solutions"
      opportunities in
  let opportunities :=
    append_if (is_nonempty (default [] (pa_template_sheets pattern_analysis)))
      "Master templates detected - can standardize and automate variations"
      opportunities in
  let opportunities :=
    append_if (0 <? len (default [] (pa_data_entry_sheets pattern_analysis)))
      "Data entry processes can be automated with forms or APIs"
      opportunities in
  let opportunities :=
    append_if (0 <? len (default [] (pa_reporting_sheets pattern_analysis)))
      "Report generation can be automated with scheduled processes"
      opportunities in
  let opportunities :=
    append_elif
      (5 <=? len opportunities)
      "Multiple automation opportunities identified - high ROI potential"
      (3 <=? len opportunities)
      "Several automation opportunities - good ROI potential"
      opportunities in
  opportunities.

(** ** [recommend_automation_tools] *)

Record AnalysisSummary := {
  as_overall_score : option float;
  as_formula_complexity_ratio : option float;
  as_file_size_mb : option float;
  as_has_automation_patterns : option bool;
  as_red_flags : option (list string);
  as_total_formulas : option Z
}.

(** The recommendations in the order the rules emit them, before the
    duplicates are removed. *)
Definition emitted_recommendations (self : ExcelAutomationChecker)
    (analysis_summary : AnalysisSummary) : list string :=
  let overall_score := default 0%float (as_overall_score analysis_summary) in
  let formula_complexity :=
    default 0%float (as_formula_complexity_ratio analysis_summary) in
  let file_size := default 0%float (as_file_size_mb analysis_summary) in
  let has_patterns :=
    default false (as_has_automation_patterns analysis_summary) in
  let total_formulas := default 0 (as_total_formulas analysis_summary) in
  let red_flags := default [] (as_red_flags analysis_summary) in
  let has_macros :=
    existsb (fun flag => py_in "macro" (lower flag) || py_in "vba" (lower flag))
      red_flags in
  let recommendations : list string := [] in
  let recommendations :=
    if ((70 <=? overall_score) && (formula_complexity <? 0.4))%float
       && negb has_macros
    then recommendations ++
         ["✅ Python + pandas + openpyxl - Ideal for data processing, calculations, and report generation";
          "✅ Python + xlwings - Excel integration with Python logic, maintains Excel interface"]
    else if ((50 <=? overall_score) && (formula_complexity <? 0.6))%float
    then recommendations ++
         ["⚠️ Python + pandas - Possible with formula logic replication effort"]
    else recommendations in
  let recommendations :=
    if ((60 <=? overall_score) && (file_size <? 30))%float && negb has_macros
    then recommendations ++
         ["✅ Microsoft Power Automate - Excellent for workflow automation and Office 365 integration";
          "✅ Power BI + Power Query - Perfect for reporting automation and data transformation"]
    else if (40 <=? overall_score)%float
    then recommendations ++
         ["⚠️ Power Platform - Possible with data restructuring"]
    else recommendations in
  let recommendations :=
    if has_macros || (0.5 <? formula_complexity)%float || (500 <? total_formulas)
    then recommendations ++
         ["✅ Enhanced VBA/Excel Macros - Build upon existing logic, add automation triggers";
          "✅ Excel + VBA + Python integration - Hybrid approach leveraging both platforms"]
    else if (60 <=? overall_score)%float
    then recommendations ++
         ["✅ Excel VBA - Native Excel automation for formula-heavy processes"]
    else recommendations in
  let recommendations :=
    if (overall_score <? 50)%float || (3 <? len red_flags)
    then recommendations ++
         ["⚠️ RPA Tools (UiPath, Automation Anywhere) - For processes that can't be restructured";
          "⚠️ Desktop automation - When existing file structure must be preserved"]
    else recommendations in
  let recommendations :=
    if has_patterns && (file_size <? 20)%float && (60 <=? overall_score)%float
    then recommendations ++
         ["✅ Google Sheets + Apps Script - Cloud-based collaborative automation";
          "✅ Office 365 + SharePoint + Power Automate - Enterprise cloud automation suite"]
    else recommendations in
  let pattern_analysis :=
    default empty_pattern_dict (ar_patterns (analysis_results self)) in
  let recommendations :=
    if default false (pa_time_based_patterns pattern_analysis)
    then recommendations ++
         ["✅ Scheduled automation scripts - Perfect for periodic reporting"]
    else recommendations in
  let recommendations :=
    if default false (pa_consolidation_patterns pattern_analysis)
    then recommendations ++
         ["✅ ETL tools (SSIS, Alteryx) - Specialized for data consolidation workflows"]
    else recommendations in
  let recommendations :=
    if ((50 <=? overall_score) && (formula_complexity <? 0.3))%float
    then recommendations ++
         ["✅ No-code platforms (Zapier, Microsoft Flow) - Quick implementation option"]
    else recommendations in
  recommendations.

(** The loop that removes duplicates, keeping first occurrences. *)
Fixpoint unique_loop (recommendations : list string) (seen : gset string)
    (unique_recommendations : list string) : list string :=
  match recommendations with
  | [] => unique_recommendations
  | rec :: rest =>
      if bool_decide (rec ∈ seen)
      then unique_loop rest seen unique_recommendations
      else unique_loop rest ({[rec]} ∪ seen) (unique_recommendations ++ [rec])
  end.

Definition recommend_automation_tools (self : ExcelAutomationChecker)
    (analysis_summary : AnalysisSummary) : list string :=
  let recommendations := emitted_recommendations self analysis_summary in
  let unique_recommendations := unique_loop recommendations ∅ [] in
  take 8 unique_recommendations.

(** ** [_calculate_analysis_completeness] *)

Definition structure_dict_nonempty (d : StructureDict) : bool :=
  bool_decide (is_Some (st_total_sheets d))
  || bool_decide (is_Some (st_sheet_names d))
  || bool_decide (is_Some (st_named_ranges d))
  || bool_decide (is_Some (st_has_hidden_sheets d))
  || bool_decide (is_Some (st_has_very_hidden_sheets d))
  || bool_decide (is_Some (st_file_size_mb d))
  || bool_decide (is_Some (st_structure_score d))
  || bool_decide (is_Some (st_sheet_types d))
  || bool_decide (is_Some (st_analysis_errors d)).

Definition formula_dict_nonempty (d : FormulaDict) : bool :=
  bool_decide (is_Some (fo_total_formulas d))
  || bool_decide (is_Some (fo_complex_formulas d))
  || bool_decide (is_Some (fo_simple_formulas d))
  || bool_decide (is_Some (fo_formula_complexity_ratio d))
  || bool_decide (is_Some (fo_formula_types_summary d))
  || bool_decide (is_Some (fo_most_complex_formulas d))
  || bool_decide (is_Some (fo_automation_difficulty_score d))
  || bool_decide (is_Some (fo_sheets_analyzed d))
  || bool_decide (is_Some (fo_analysis_errors d)).

Definition pattern_dict_nonempty (d : PatternDict) : bool :=
  bool_decide (is_Some (pa_repeated_structures d))
  || bool_decide (is_Some (pa_template_sheets d))
  || bool_decide (is_Some (pa_data_entry_sheets d))
  || bool_decide (is_Some (pa_calculation_sheets d))
  || bool_decide (is_Some (pa_reporting_sheets d))
  || bool_decide (is_Some (pa_summary_sheets d))
  || bool_decide (is_Some (pa_time_based_patterns d))
  || bool_decide (is_Some (pa_consolidation_patterns d))
  || bool_decide (is_Some (pa_pattern_score d))
  || bool_decide (is_Some (pa_detected_patterns d))
  || bool_decide (is_Some (pa_business_process_indicators d))
  || bool_decide (is_Some (pa_analysis_errors d)).

Definition _calculate_analysis_completeness (self : ExcelAutomationChecker)
    : float :=
  let results := analysis_results self in
  let total_components := 4 in
  let completed_components := 0 in
  let completed_components :=
    match ar_structure results with
    | Some d => if structure_dict_nonempty d then completed_components + 1
                else completed_components
    | None => completed_components
    end in
  let completed_components :=
    match ar_formulas results with
    | Some d => if formula_dict_nonempty d then completed_components + 1
                else completed_components
    | None => completed_components
    end in
  let completed_components :=
    match ar_patterns results with
    | Some d => if pattern_dict_nonempty d then completed_components + 1
                else completed_components
    | None => completed_components
    end in
  let completed_components :=
    match ar_red_flags results with
    | Some _ => completed_components + 1
    | None => completed_components
    end in
  (py_truediv completed_components total_components * 100)%float.

(** ** [generate_comprehensive_report] *)

Record FileInfoBlock := {
  fi_file_name : string;
  fi_file_path : string;
  fi_sheets : Z;
  fi_file_size_mb : float;
  fi_named_ranges : Z;
  fi_has_hidden_sheets : bool
}.

Record FormulaBlock := {
  fb_total_formulas : Z;
  fb_complex_formulas : Z;
  fb_simple_formulas : Z;
  fb_complexity_ratio : float;
  fb_formula_types : gmap string Z;
  fb_difficulty_score : Z
}.

Record PatternBlock := {
  pb_time_based_patterns : bool;
  pb_repeated_structures : bool;
  pb_consolidation_patterns : bool;
  pb_detected_patterns : list string;
  pb_business_indicators : list string
}.

Record Scores := {
  sc_structure_score : Z;
  sc_formula_difficulty_score : Z;
  sc_pattern_score : Z;
  sc_overall_score : float
}.

Record QualityMetrics := {
  qm_red_flags_count : Z;
  qm_opportunities_count : Z;
  qm_analysis_completeness : float
}.

Record DetailedAnalysis := {
  da_file_info : FileInfoBlock;
  da_formula_analysis : FormulaBlock;
  da_pattern_analysis : PatternBlock;
  da_scores : Scores;
  da_quality_metrics : QualityMetrics
}.

Record FileInfo := {
  info_name : string;
  info_size_mb : float;
  info_sheets : Z
}.

Record AutomationAssessment := {
  overall_score : float;
  feasibility_level : string;
  automation_recommendations : list string;
  detailed_analysis : DetailedAnalysis;
  red_flags : list string;
  opportunities : list string;
  estimated_effort : string;
  recommended_tools : list string;
  analysis_timestamp : string;
  file_info : FileInfo
}.

(** [os.path.basename] with [/] as the separator. *)
Fixpoint basename (p : string) : string :=
  match p with
  | EmptyString => EmptyString
  | String c r =>
      if py_in "/" r then basename r
      else if Ascii.eqb c "/" then r
      else p
  end.

(** The weighted score with the red-flag penalty applied, before rounding. *)
Definition weighted_score (structure_score formula_difficulty pattern_score : Z)
    : float :=
  (float_of_Z structure_score * 0.3 + float_of_Z formula_difficulty * 0.4
   + float_of_Z pattern_score * 0.3)%float.

Definition red_flag_penalty (red_flags : list string) : Z :=
  Z.min (len red_flags * 8) 40.

Definition penalized_score (structure_score formula_difficulty pattern_score : Z)
    (penalty : Z) : float :=
  py_max0
    (weighted_score structure_score formula_difficulty pattern_score
     - float_of_Z penalty)%float.

(** The feasibility level and the effort estimate of an overall score. *)
Definition feasibility (overall_score : float) : string * string :=
  if (80 <=? overall_score)%float then
    ("HIGH - Excellent automation candidate",
     "2-4 weeks development + 1 week testing")
  else if (65 <=? overall_score)%float then
    ("MEDIUM-HIGH - Very good automation potential",
     "1-2 months development + 2 weeks testing")
  else if (50 <=? overall_score)%float then
    ("MEDIUM - Good automation potential with preparation",
     "2-3 months development + 3 weeks testing")
  else if (35 <=? overall_score)%float then
    ("LOW-MEDIUM - Possible but requires significant restructuring",
     "3-4 months development + 1 month testing")
  else
    ("LOW - Not recommended for automation in current state",
     "6+ months or complete redesign recommended").

Definition set_structure (self : ExcelAutomationChecker) (d : StructureDict)
    : ExcelAutomationChecker :=
  set_analysis_results self
    {| ar_structure := Some d;
       ar_formulas := ar_formulas (analysis_results self);
       ar_patterns := ar_patterns (analysis_results self);
       ar_red_flags := ar_red_flags (analysis_results self) |}.

Definition set_formulas (self : ExcelAutomationChecker) (d : FormulaDict)
    : ExcelAutomationChecker :=
  set_analysis_results self
    {| ar_structure := ar_structure (analysis_results self);
       ar_formulas := Some d;
       ar_patterns := ar_patterns (analysis_results self);
       ar_red_flags := ar_red_flags (analysis_results self) |}.

Definition set_patterns (self : ExcelAutomationChecker) (d : PatternDict)
    : ExcelAutomationChecker :=
  set_analysis_results self
    {| ar_structure := ar_structure (analysis_results self);
       ar_formulas := ar_formulas (analysis_results self);
       ar_patterns := Some d;
       ar_red_flags := ar_red_flags (analysis_results self) |}.

Definition set_red_flags (self : ExcelAutomationChecker) (l : list string)
    : ExcelAutomationChecker :=
  set_analysis_results self
    {| ar_structure := ar_structure (analysis_results self);
       ar_formulas := ar_formulas (analysis_results self);
       ar_patterns := ar_patterns (analysis_results self);
       ar_red_flags := Some l |}.

(** The report and the checker it leaves behind. [now] is the formatted
    [datetime.now()]. Without a workbook the method raises [ValueError]. *)
Definition generate_comprehensive_report (self : ExcelAutomationChecker)
    (now : string) : result AutomationAssessment * ExcelAutomationChecker :=
  match workbook self with
  | None =>
      (Raise "No Excel file loaded. Please load a file first using load_excel_file()",
       self)
  | Some _ =>
      let structure_analysis := analyze_file_structure self in
      let self := set_structure self structure_analysis in
      let formula_analysis := analyze_formulas self in
      let self := set_formulas self formula_analysis in
      let pattern_analysis := detect_automation_patterns self in
      let self := set_patterns self pattern_analysis in
      let red_flags := identify_red_flags self in
      let self := set_red_flags self red_flags in
      let opportunities := identify_opportunities self in
      let structure_score := default 0 (st_structure_score structure_analysis) in
      let formula_difficulty :=
        100 - default 50 (fo_automation_difficulty_score formula_analysis) in
      let pattern_score := default 0 (pa_pattern_score pattern_analysis) in
      let overall_score :=
        penalized_score structure_score formula_difficulty pattern_score
          (red_flag_penalty red_flags) in
      let '(feasibility_level, estimated_effort) := feasibility overall_score in
      let analysis_summary :=
        {| as_overall_score := Some overall_score;
           as_formula_complexity_ratio :=
             Some (default 0%float (fo_formula_complexity_ratio formula_analysis));
           as_file_size_mb :=
             Some (default 0%float (st_file_size_mb structure_analysis));
           as_has_automation_patterns :=
             Some (20 <? default 0 (pa_pattern_score pattern_analysis));
           as_red_flags := Some red_flags;
           as_total_formulas :=
             Some (default 0 (fo_total_formulas formula_analysis)) |} in
      let recommended_tools := recommend_automation_tools self analysis_summary in
      let file_name :=
        if path_set (file_path self) then basename (default "" (file_path self))
        else "Unknown" in
      let detailed_analysis :=
        {| da_file_info :=
             {| fi_file_name := file_name;
                fi_file_path :=
                  if path_set (file_path self) then default "" (file_path self)
                  else "Unknown";
                fi_sheets := default 0 (st_total_sheets structure_analysis);
                fi_file_size_mb :=
                  py_round (default 0%float (st_file_size_mb structure_analysis)) 2;
                fi_named_ranges := default 0 (st_named_ranges structure_analysis);
                fi_has_hidden_sheets :=
                  default false (st_has_hidden_sheets structure_analysis) |};
           da_formula_analysis :=
             {| fb_total_formulas := default 0 (fo_total_formulas formula_analysis);
                fb_complex_formulas :=
                  default 0 (fo_complex_formulas formula_analysis);
                fb_simple_formulas :=
                  default 0 (fo_simple_formulas formula_analysis);
                fb_complexity_ratio :=
                  py_round
                    (default 0%float (fo_formula_complexity_ratio formula_analysis))
                    3;
                fb_formula_types :=
                  default ∅ (fo_formula_types_summary formula_analysis);
                fb_difficulty_score :=
                  default 0 (fo_automation_difficulty_score formula_analysis) |};
           da_pattern_analysis :=
             {| pb_time_based_patterns :=
                  default false (pa_time_based_patterns pattern_analysis);
                pb_repeated_structures :=
                  default false (pa_repeated_structures pattern_analysis);
                pb_consolidation_patterns :=
                  default false (pa_consolidation_patterns pattern_analysis);
                pb_detected_patterns :=
                  default [] (pa_detected_patterns pattern_analysis);
                pb_business_indicators :=
                  default [] (pa_business_process_indicators pattern_analysis) |};
           da_scores :=
             {| sc_structure_score := structure_score;
                sc_formula_difficulty_score :=
                  100 - default 50 (fo_automation_difficulty_score formula_analysis);
                sc_pattern_score := pattern_score;
                sc_overall_score := py_round overall_score 1 |};
           da_quality_metrics :=
             {| qm_red_flags_count := len red_flags;
                qm_opportunities_count := len opportunities;
                qm_analysis_completeness :=
                  _calculate_analysis_completeness self |} |} in
      (Ok {| overall_score := py_round overall_score 1;
             feasibility_level := feasibility_level;
             automation_recommendations := recommended_tools;
             detailed_analysis := detailed_analysis;
             red_flags := red_flags;
             opportunities := opportunities;
             estimated_effort := estimated_effort;
             recommended_tools := recommended_tools;
             analysis_timestamp := now;
             file_info :=
               {| info_name := file_name;
                  info_size_mb :=
                    default 0%float (st_file_size_mb structure_analysis);
                  info_sheets := default 0 (st_total_sheets structure_analysis) |} |},
       self)
  end.

(** ** The values of the stage scores *)

Definition structure_score_values : list Z :=
  [0; 20; 25; 30; 35; 40; 45; 50; 55; 60; 65; 70; 75; 80; 85; 90; 95; 100].

Definition difficulty_score_values : list Z :=
  [20; 25; 30; 35; 50; 55; 60; 70; 75; 80; 85; 90; 95].

Definition pattern_score_values : list Z :=
  [0; 15; 20; 25; 30; 35; 40; 45; 50; 55; 70; 75; 80; 85; 90; 95; 100; 105;
   110; 125].

Definition penalty_values : list Z := [0; 8; 16; 24; 32; 40].

Definition mem_Z (x : Z) (l : list Z) : bool := existsb (Z.eqb x) l.

(** The four threshold tests that decide the feasibility level agree on two
    scores. *)
Definition same_band (x y : float) : bool :=
  (Bool.eqb (80 <=? x) (80 <=? y) && Bool.eqb (65 <=? x) (65 <=? y)
   && Bool.eqb (50 <=? x) (50 <=? y) && Bool.eqb (35 <=? x) (35 <=? y))%float.

(** For one triple of stage scores and every penalty: the score before
    rounding is a number below 100, rounding keeps it in the band of its
    feasibility level and in [0, 100], and a larger penalty never gives a
    larger rounded score. *)
Definition score_grid_ok (s d p : Z) : bool :=
  let rows :=
    map (fun pen =>
           let o := penalized_score s (100 - d) p pen in (pen, o, py_round o 1))
        penalty_values in
  forallb (fun '(_, o, r) =>
             (o <? 100)%float && same_band o r
             && (0 <=? r)%float && (r <=? 100)%float
             && negb (PrimFloat.is_nan o)) rows
  && forallb (fun '(pen1, _, r1) =>
                forallb (fun '(pen2, _, r2) =>
                           implb (pen1 <=? pen2) (r2 <=? r1)%float) rows) rows.

(** ** The aggregation as the specification words it *)

(** [min(100, x)]. *)
Definition py_min100 (x : float) : float :=
  if (x <? 100)%float then x else 100%float.

(** Weighted sum, red-flag penalty floored at 0, clamp to [0, 100], one
    decimal. *)
Definition spec_overall_score (structure_score difficulty pattern_score : Z)
    (n_red_flags : Z) : float :=
  let overall :=
    (float_of_Z structure_score * 0.3 + float_of_Z (100 - difficulty) * 0.4
     + float_of_Z pattern_score * 0.3)%float in
  let overall := py_max0 (overall - float_of_Z (Z.min (8 * n_red_flags) 40))%float in
  py_round (py_max0 (py_min100 overall)) 1.

(** ** Assessments *)

Definition feasibility_levels : list (string * string) :=
  [("HIGH - Excellent automation candidate",
    "2-4 weeks development + 1 week testing");
   ("MEDIUM-HIGH - Very good automation potential",
    "1-2 months development + 2 weeks testing");
   ("MEDIUM - Good automation potential with preparation",
    "2-3 months development + 3 weeks testing");
   ("LOW-MEDIUM - Possible but requires significant restructuring",
    "3-4 months development + 1 month testing");
   ("LOW - Not recommended for automation in current state",
    "6+ months or complete redesign recommended")].


(** ** Workbooks of the examples *)

Definition no_results : AnalysisResults :=
  {| ar_structure := None; ar_formulas := None; ar_patterns := None;
     ar_red_flags := None |}.

Definition blank_cell : Cell :=
  {| cell_value := None; cell_has_data_validation := false;
     cell_data_type := "n" |}.

(** An empty, visible, unprotected sheet. *)
Definition plain_sheet (name : string) : Worksheet :=
  {| title := name;
     sheet_state := Some (Ok "visible");
     max_row := Ok (Some 1);
     max_column := Ok (Some 1);
     merged_cells := Some (Ok 0);
     protection := Some (Ok false);
     tables := Some (Ok 0);
     iter_rows := fun _ => [Ok [Ok blank_cell]];
     first_row := Ok [Ok blank_cell] |}.

(** A 1 KB [.xlsx] file of empty sheets, without named ranges or macros. *)
Definition plain_checker (names : list string) : ExcelAutomationChecker :=
  {| workbook :=
       Some {| worksheets := map plain_sheet names;
               defined_names := Some (Ok 0);
               vba_archive := false |};
     file_path := Some "book.xlsx";
     getsize := Ok 1024;
     analysis_results := no_results;
     max_rows_to_analyze := 10000;
     max_sheets_to_analyze := 50 |}.

(** A sheet whose every guarded attribute raises. *)
Definition broken_sheet (name : string) : Worksheet :=
  {| title := name;
     sheet_state := Some (Raise "state unavailable");
     max_row := Raise "dimensions unavailable";
     max_column := Raise "dimensions unavailable";
     merged_cells := Some (Raise "merged cells unavailable");
     protection := Some (Raise "protection unavailable");
     tables := Some (Raise "tables unavailable");
     iter_rows := fun _ => [Raise "rows unavailable"];
     first_row := Raise "row unavailable" |}.

(** A loaded workbook on which every sub-analysis meets a failure, the file
    having disappeared since it was loaded. *)
Definition broken_checker : ExcelAutomationChecker :=
  {| workbook :=
       Some {| worksheets := [broken_sheet "Data"];
               defined_names := Some (Raise "names unavailable");
               vba_archive := false |};
     file_path := Some "book.xlsx";
     getsize := Raise "No such file or directory";
     analysis_results := no_results;
     max_rows_to_analyze := 10000;
     max_sheets_to_analyze := 50 |}.

(** ** Reports up to their timestamp *)

Definition with_timestamp (t : string) (a : AutomationAssessment)
    : AutomationAssessment :=
  {| overall_score := overall_score a;
     feasibility_level := feasibility_level a;
     automation_recommendations := automation_recommendations a;
     detailed_analysis := detailed_analysis a;
     red_flags := red_flags a;
     opportunities := opportunities a;
     estimated_effort := estimated_effort a;
     recommended_tools := recommended_tools a;
     analysis_timestamp := t;
     file_info := file_info a |}.

(** The outcome of a run with the timestamp of its report blanked. *)
Definition erase_timestamp (r : result AutomationAssessment)
    : result AutomationAssessment :=
  match r with
  | Ok a => Ok (with_timestamp "" a)
  | Raise e => Raise e
  end.

(** ** The structure score as the specification words it *)




(** A summary as [generate_comprehensive_report] builds it. *)
Definition sample_summary : AnalysisSummary :=
  {| as_overall_score := Some 59%float;
     as_formula_complexity_ratio := Some 0%float;
     as_file_size_mb := Some 0%float;
     as_has_automation_patterns := Some false;
     as_red_flags := Some [];
     as_total_formulas := Some 0 |}.

(** ** Sheets without formulas *)

(** The cell holds text that starts with the formula marker. *)
Definition cell_is_formula (c : result Cell) : bool :=
  match c with
  | Ok cell =>
      match cell_value cell with
      | Some v => startswith v "="
      | None => false
      end
  | Raise _ => false
  end.

(** No row that the iterator yields holds a formula. *)
Definition formula_free (rows : list (result (list (result Cell)))) : Prop :=
  List.Forall
    (fun row =>
       match row with
       | Ok cells => List.Forall (fun c => cell_is_formula c = false) cells
       | Raise _ => True
       end)
    rows.

(** ** Loading a file: [validate_file_path], [load_excel_file] *)

(** What [open(path, 'rb')] followed by [f.read(1)] does. *)
Inductive OpenOutcome :=
  | Opened
  | PermissionError (e : string)
  | OtherError (e : string).

(** The calls into [os], [open] and [openpyxl.load_workbook]. On a [str],
    [os.path.exists] and [os.path.isfile] answer [False] where the underlying
    call fails. [load_workbook] takes [data_only] and [read_only]. *)
Record FileSystem := {
  path_exists : string -> bool;
  path_isfile : string -> bool;
  path_getsize : string -> result Z;
  open_rb : string -> OpenOutcome;
  load_workbook : string -> bool -> bool -> result Workbook
}.

(** [s.rfind(c)]: the index of the last [c], if there is one. *)
Fixpoint rfind (c : ascii) (s : string) : option nat :=
  match s with
  | EmptyString => None
  | String a r =>
      match rfind c r with
      | Some i => Some (S i)
      | None => if Ascii.eqb a c then Some O else None
      end
  end.

Fixpoint all_chars (p : ascii -> bool) (s : string) : bool :=
  match s with
  | EmptyString => true
  | String c r => p c && all_chars p r
  end.

(** [os.path.splitext] with [/] as the separator: the extension starts at
    the last dot of the last component, unless only dots precede it
    there. *)
Definition splitext (p : string) : string * string :=
  match rfind "."%char p with
  | None => (p, EmptyString)
  | Some dotIndex =>
      let filenameIndex :=
        match rfind "/"%char p with
        | Some sepIndex => S sepIndex
        | None => O
        end in
      if (filenameIndex <=? dotIndex)%nat
         && negb (all_chars (fun c => Ascii.eqb c "."%char)
                    (String.substring filenameIndex (dotIndex - filenameIndex) p))
      then (String.substring 0 dotIndex p,
            String.substring dotIndex (String.length p - dotIndex) p)
      else (p, EmptyString)
  end.

(** [self.supported_extensions], set by [__init__]. *)
Definition supported_extensions : list string := [".xlsx"; ".xlsm"; ".xls"].

(** [sep.join(l)]. *)
Fixpoint join (sep : string) (l : list string) : string :=
  match l with
  | [] => EmptyString
  | [x] => x
  | x :: rest => x +:+ sep +:+ join sep rest
  end.

(** The verdict and the error message. The size is read only to warn about
    large files on the log, but a failure to read it is a validation
    error. *)
Definition validate_file_path (fs : FileSystem) (file_path : string)
    : bool * string :=
  try_except
    (if negb (path_exists fs file_path) then
       Ok (false, "File not found: " +:+ file_path)
     else if negb (path_isfile fs file_path) then
       Ok (false, "Path is not a file: " +:+ file_path)
     else
       let '(_, ext) := splitext (lower file_path) in
       if negb (bool_decide (ext ∈ supported_extensions)) then
         Ok (false,
             "Unsupported file format: " +:+ ext +:+ ". Supported: "
             +:+ join ", " supported_extensions)
       else
         _ ← path_getsize fs file_path;
         match open_rb fs file_path with
         | PermissionError _ => Ok (false, "File is locked or permission denied")
         | OtherError e => Ok (false, "File access error: " +:+ e)
         | Opened => Ok (true, EmptyString)
         end)
    (fun e => (false, "Validation error: " +:+ e)).

(** [ExcelAutomationChecker.__init__]. No size is read before a path is
    set. *)
Definition new_checker : ExcelAutomationChecker :=
  {| workbook := None;
     file_path := None;
     getsize := Raise "no file path";
     analysis_results := no_results;
     max_rows_to_analyze := 10000;
     max_sheets_to_analyze := 50 |}.

(** [self.file_path = file_path]; the size that the analysis will read is
    the one the file has now. *)
Definition set_file_path (fs : FileSystem) (self : ExcelAutomationChecker)
    (p : string) : ExcelAutomationChecker :=
  {| workbook := workbook self; file_path := Some p;
     getsize := path_getsize fs p;
     analysis_results := analysis_results self;
     max_rows_to_analyze := max_rows_to_analyze self;
     max_sheets_to_analyze := max_sheets_to_analyze self |}.

(** [self.workbook = wb]. *)
Definition set_workbook (self : ExcelAutomationChecker) (wb : Workbook)
    : ExcelAutomationChecker :=
  {| workbook := Some wb; file_path := file_path self;
     getsize := getsize self;
     analysis_results := analysis_results self;
     max_rows_to_analyze := max_rows_to_analyze self;
     max_sheets_to_analyze := max_sheets_to_analyze self |}.

(** The two attempts to open the workbook: with formulas, then data
    only. *)
Definition open_workbook (fs : FileSystem) (file_path : string)
    : option Workbook :=
  match load_workbook fs file_path false false with
  | Ok wb => Some wb
  | Raise _ =>
      match load_workbook fs file_path true true with
      | Ok wb => Some wb
      | Raise _ => None
      end
  end.

(** The answer and the checker the call leaves behind. *)
Definition load_excel_file (fs : FileSystem) (self : ExcelAutomationChecker)
    (file_path : string) : bool * ExcelAutomationChecker :=
  let '(is_valid, _) := validate_file_path fs file_path in
  if negb is_valid then (false, self)
  else
    let self := set_file_path fs self file_path in
    match open_workbook fs file_path with
    | None => (false, self)
    | Some wb =>
        let self := set_workbook self wb in
        if negb (is_nonempty (sheetnames wb)) then (false, self)
        else (true, self)
    end.

(** ** [ExcelAutomationBot] *)

Record ExcelAutomationBot := {
  checker : ExcelAutomationChecker;
  last_assessment : option AutomationAssessment
}.

(** [ExcelAutomationBot.__init__]. *)
Definition new_bot : ExcelAutomationBot :=
  {| checker := new_checker; last_assessment := None |}.

(** [analyze_file]: the assessment, or [None], and the bot afterwards. What
    is printed is left out; [_display_results] handles its own
    exceptions. *)
Definition analyze_file (fs : FileSystem) (self : ExcelAutomationBot)
    (file_path now : string)
    : option AutomationAssessment * ExcelAutomationBot :=
  let '(loaded, checker') := load_excel_file fs (checker self) file_path in
  if negb loaded then
    (None, {| checker := checker'; last_assessment := last_assessment self |})
  else
    match generate_comprehensive_report checker' now with
    | (Ok assessment, checker'') =>
        (Some assessment,
         {| checker := checker''; last_assessment := Some assessment |})
    | (Raise _, checker'') =>
        (None,
         {| checker := checker''; last_assessment := last_assessment self |})
    end.

(** [analyze_single_file]: [requirements_met] is the answer of
    [check_requirements]. The export that may follow writes a file and
    prints; it does not change what is returned. *)
Definition analyze_single_file (fs : FileSystem) (requirements_met : bool)
    (file_path now : string) : option AutomationAssessment :=
  if negb requirements_met then None
  else fst (analyze_file fs new_bot file_path now).

(** ** [_display_results]: the choices it makes *)

(** What is printed before the feasibility level. *)
Definition level_mark (overall_score : float) : string :=
  if (80 <=? overall_score)%float then "Feasibility Level: ✅ "
  else if (50 <=? overall_score)%float then "Feasibility Level: ⚠️  "
  else "Feasibility Level: ❌ ".

(** The heading of the recommended next steps. *)
Definition next_steps (overall_score : float) : string :=
  if (70 <=? overall_score)%float then "✅ PROCEED WITH AUTOMATION:"
  else if (50 <=? overall_score)%float then "⚠️  PROCEED WITH PREPARATION:"
  else if (30 <=? overall_score)%float then "🔄 RESTRUCTURE BEFORE AUTOMATION:"
  else "❌ AUTOMATION NOT RECOMMENDED:".

(** Whether the completeness of the analysis is printed, and whether the
    warning about failed components follows it. *)
Definition completeness_shown (completeness : float) : bool * bool :=
  if (completeness <? 100)%float then (true, (completeness <? 80)%float)
  else (false, false).

(** ** A file system with one file *)

(** Only [p] exists: a readable regular file of [size] bytes that
    [load_workbook] opens as [wb] in either mode. *)
Definition single_file (p : string) (size : Z) (wb : result Workbook)
    : FileSystem :=
  {| path_exists := fun q => String.eqb q p;
     path_isfile := fun q => String.eqb q p;
     path_getsize := fun q =>
       if String.eqb q p then Ok size else Raise "No such file or directory";
     open_rb := fun q =>
       if String.eqb q p then Opened else OtherError "No such file or directory";
     load_workbook := fun q _ _ =>
       if String.eqb q p then wb else Raise "No such file or directory" |}.

(** The workbook of [plain_checker]. *)
Definition plain_workbook (names : list string) : Workbook :=
  {| worksheets := map plain_sheet names;
     defined_names := Some (Ok 0);
     vba_archive := false |}.

(** The position of a level in [feasibility_levels], the best first. *)
Definition level_rank (level : string * string) : nat :=
  default 5%nat (fst <$> list_find (fun l => l = level) feasibility_levels).

(** ** The cell scan of [analyze_sheet_data] *)

(** What the cell scan keeps: the formulas stored are those counted, each
    cut to 100 characters and still starting with the equals sign, and no
    more formulas are counted than used cells. *)
Definition scan_invariant (st : CellScan) : Prop :=
  len (formulas st) = formula_count st
  /\ 0 <= formula_count st <= used_cell_count st
  /\ List.Forall
       (fun f => startswith f "=" = true /\ (String.length f <= 100)%nat)
       (formulas st).

(** ** The visibility loop of [analyze_file_structure] *)



(** ** Sheet roles *)

#[global] Instance category_eq_dec : EqDecision category.
Proof. solve_decision. Defined.

(** The names of [sheet_names] filed under [c], in their order. *)
Definition sheets_of (c : category) (sheet_names : list string) : list string :=
  List.filter (fun name => bool_decide (sheet_category name = Some c)) sheet_names.

(** ** Summaries of the examples *)

(** A summary with the macro flag, at the given score. *)
Definition macro_summary (score : float) : AnalysisSummary :=
  {| as_overall_score := Some score;
     as_formula_complexity_ratio := Some 0%float;
     as_file_size_mb := Some 0%float;
     as_has_automation_patterns := Some false;
     as_red_flags :=
       Some ["VBA macros detected - requires specialized automation approach"];
     as_total_formulas := Some 0 |}.

(** * Properties *)




Lemma unique_loop_prefix (recs : list string) : forall seen acc,
  acc `prefix_of` unique_loop recs seen acc.
Proof.
  induction recs as [|x recs IH]; intros seen acc; simpl; [done|].
  case_bool_decide; [apply IH|].
  etrans; [|apply IH]. by apply prefix_app_r.
Qed.

Lemma unique_loop_spec (recs : list string) : forall (seen : gset string) acc,
  NoDup acc -> (forall x, x ∈ seen <-> x ∈ acc) ->
  NoDup (unique_loop recs seen acc)
  /\ unique_loop recs seen acc `sublist_of` acc ++ recs
  /\ (forall x, x ∈ unique_loop recs seen acc <-> x ∈ acc \/ x ∈ recs).
Proof.
  induction recs as [|x recs IH]; intros seen acc Hnd Hseen; simpl.
  - rewrite app_nil_r. split; [done|]. split; [done|].
    intros y. rewrite elem_of_nil. tauto.
  - case_bool_decide as Hx.
    + destruct (IH seen acc Hnd Hseen) as (H1 & H2 & H3).
      split; [done|]. split.
      * etrans; [apply H2|]. apply sublist_app; [done|]. by apply sublist_cons.
      * intros y. rewrite H3, elem_of_cons.
        apply Hseen in Hx. split; [tauto|]. intros [?|[->|?]]; tauto.
    + destruct (IH ({[x]} ∪ seen) (acc ++ [x])) as (H1 & H2 & H3).
      * apply NoDup_app. split; [done|]. split; [|apply NoDup_singleton].
        intros y Hy ->%list_elem_of_singleton. apply Hx, Hseen, Hy.
      * intros y. rewrite elem_of_union, elem_of_singleton, elem_of_app,
          list_elem_of_singleton, Hseen. tauto.
      * split; [done|]. split.
        -- by rewrite <- app_assoc in H2.
        -- intros y. rewrite H3, elem_of_app, list_elem_of_singleton, elem_of_cons.
           tauto.
Qed.


(** Two positive finite floats of one exponent, [m40 < m50]: a float not
    below the greater is at least the smaller. *)
Lemma SF_not_below_at_least (x : spec_float) (m40 m50 : positive) (e0 : Z) :
  (m40 < m50)%positive ->
  SFeqb x x = true ->
  SFltb x (S754_finite false m50 e0) = false ->
  SFleb (S754_finite false m40 e0) x = true.
Proof.
  intros Hlt. unfold SFeqb, SFltb, SFleb.
  destruct x as [s|s| |s m e]; try destruct s; try discriminate; try reflexivity.
  intros _. unfold SFcompare.
  rewrite (Z.compare_antisym e e0).
  destruct (e ?= e0) eqn:He; cbn [CompOpp]; try discriminate; try reflexivity.
  change (Pos.compare_cont Eq m m50) with (m ?= m50)%positive.
  change (Pos.compare_cont Eq m40 m) with (m40 ?= m)%positive.
  rewrite (Pos.compare_antisym m m40).
  destruct (m ?= m50)%positive eqn:Hm; try discriminate; intros _.
  - apply Pos.compare_eq in Hm. subst m.
    apply Pos.compare_gt_iff in Hlt. rewrite Hlt. reflexivity.
  - apply Pos.compare_gt_iff in Hm.
    assert (H : (m ?= m40)%positive = Gt) by (apply Pos.compare_gt_iff; lia).
    rewrite H. reflexivity.
Qed.

Lemma Prim2SF_50 : Prim2SF 50 = S754_finite false 7036874417766400 (-47).
Proof. vm_compute. reflexivity. Qed.

Lemma Prim2SF_40 : Prim2SF 40 = S754_finite false 5629499534213120 (-47).
Proof. vm_compute. reflexivity. Qed.

(** A number that is not below 50 is at least 40. *)
Lemma not_below_50_at_least_40 (x : float) :
  PrimFloat.is_nan x = false -> (x <? 50)%float = false -> (40 <=? x)%float = true.
Proof.
  unfold PrimFloat.is_nan.
  rewrite FloatAxioms.eqb_spec, ltb_spec, leb_spec, Prim2SF_50, Prim2SF_40.
  intros Hnan Hlt. apply negb_false_iff in Hnan.
  eapply SF_not_below_at_least; [|exact Hnan|exact Hlt].
  vm_compute. reflexivity.
Qed.
Lemma grow_nonempty {A} (c : bool) (l k : list A) :
  l <> [] -> (if c then l ++ k else l) <> [].
Proof. destruct c, l; simpl; congruence. Qed.

Lemma grow2_nonempty {A} (c1 c2 : bool) (l k1 k2 : list A) :
  l <> [] -> (if c1 then l ++ k1 else if c2 then l ++ k2 else l) <> [].
Proof. destruct c1, c2, l; simpl; congruence. Qed.

Lemma snoc_nonempty {A} (l k : list A) : k <> [] -> l ++ k <> [].
Proof. destruct l, k; simpl; congruence. Qed.

Lemma emitted_nonempty self summary :
  PrimFloat.is_nan (default 0%float (as_overall_score summary)) = false ->
  emitted_recommendations self summary <> [].
Proof.
  intros Hnan. unfold emitted_recommendations. cbv zeta.
  set (o := default 0%float (as_overall_score summary)) in *.
  do 4 apply grow_nonempty.
  destruct (o <? 50)%float eqn:H50.
  - rewrite orb_true_l. by apply snoc_nonempty.
  - apply grow_nonempty. apply grow2_nonempty.
    rewrite (not_below_50_at_least_40 o Hnan H50).
    destruct (_ && _ && _); by apply snoc_nonempty.
Qed.

Lemma recommend_at_most_8 self summary :
  (length (recommend_automation_tools self summary) <= 8)%nat.
Proof. unfold recommend_automation_tools. rewrite length_take. lia. Qed.

Lemma recommend_nonempty self summary :
  PrimFloat.is_nan (default 0%float (as_overall_score summary)) = false ->
  recommend_automation_tools self summary <> [].
Proof.
  intros Hnan. unfold recommend_automation_tools.
  pose proof (emitted_nonempty self summary Hnan) as Hne.
  destruct (emitted_recommendations self summary) as [|x l]; [done|].
  simpl. rewrite bool_decide_eq_false_2 by set_solver.
  destruct (unique_loop_prefix l ({[x]} ∪ ∅) [x]) as [k ->]. done.
Qed.

(** The grid of stage scores, checked by evaluation. *)
Lemma score_grid_holds :
  forallb (fun s =>
    forallb (fun d =>
      forallb (fun p => score_grid_ok s d p) pattern_score_values)
      difficulty_score_values)
    structure_score_values = true.
Proof. vm_compute. reflexivity. Qed.

Lemma mem_Z_In x l : mem_Z x l = true -> In x l.
Proof.
  unfold mem_Z. intros H. apply existsb_exists in H as (y & Hy & Heq).
  apply Z.eqb_eq in Heq. by subst.
Qed.

Lemma structure_scoring_values total_sheets named_ranges h vh size :
  mem_Z (Z.max 0 (Z.min 100 (structure_scoring total_sheets named_ranges h vh size)))
    structure_score_values = true.
Proof.
  unfold structure_scoring.
  destruct ((1 <=? total_sheets) && (total_sheets <=? 10)),
           ((11 <=? total_sheets) && (total_sheets <=? 20)),
           (30 <? total_sheets), (0 <? named_ranges), (named_ranges <=? 10),
           h, vh, (size <? 5)%float, (50 <? size)%float; reflexivity.
Qed.

Lemma structure_score_values_spec self :
  mem_Z (default 0 (st_structure_score (analyze_file_structure self)))
    structure_score_values = true.
Proof.
  unfold analyze_file_structure.
  destruct (workbook self) as [wb|]; [|reflexivity].
  destruct (path_set (file_path self)); [destruct (getsize self) as [size|e]|];
    cbn [mbind result_bind try_except]; try reflexivity.
  all: destruct (defined_names wb) as [[n|e]|];
    destruct (visibility_loop _ _) as [v [e'|]];
    cbn [default st_structure_score]; apply structure_scoring_values.
Qed.

Lemma difficulty_scoring_values total ratio :
  mem_Z (difficulty_scoring total ratio) difficulty_score_values = true.
Proof.
  unfold difficulty_scoring.
  destruct (total =? 0), (0.6 <? ratio)%float, (0.4 <? ratio)%float,
           (0.2 <? ratio)%float, (1000 <? total), (100 <? total); reflexivity.
Qed.

Lemma difficulty_score_values_spec self :
  mem_Z (default 50 (fo_automation_difficulty_score (analyze_formulas self)))
    difficulty_score_values = true.
Proof.
  unfold analyze_formulas.
  destruct (workbook self) as [wb|]; [|reflexivity].
  destruct (collect_formulas _ _ _ _ _) as [[n all] tys].
  destruct (categorize _ _ _) as [c s].
  cbn [default fo_automation_difficulty_score]. apply difficulty_scoring_values.
Qed.

Lemma pattern_score_values_spec self :
  mem_Z (default 0 (pa_pattern_score (detect_automation_patterns self)))
    pattern_score_values = true.
Proof.
  unfold detect_automation_patterns.
  destruct (workbook self) as [wb|]; [|reflexivity].
  cbv zeta. cbn [default pa_pattern_score].
  destruct (2 <=? len (time_based_sheets (sheetnames wb)));
  destruct ((3 <=? len (sheetnames wb)) && bool_decide (repeated_patterns (sheetnames wb) ≠ ∅));
  destruct ((2 <=? len (data_entry_sheets (categorize_sheets (sheetnames wb))))
            && (1 <=? len (reporting_sheets (categorize_sheets (sheetnames wb)))
                      + len (summary_sheets (categorize_sheets (sheetnames wb)))));
  destruct (is_nonempty (template_sheets (categorize_sheets (sheetnames wb)))
            && (2 <=? len (sheetnames wb) - len (template_sheets (categorize_sheets (sheetnames wb)))));
  destruct (is_nonempty (data_entry_sheets (categorize_sheets (sheetnames wb)))
            && is_nonempty (calculation_sheets (categorize_sheets (sheetnames wb)))
            && is_nonempty (reporting_sheets (categorize_sheets (sheetnames wb))));
  reflexivity.
Qed.

Lemma red_flag_penalty_values flags :
  mem_Z (red_flag_penalty flags) penalty_values = true.
Proof.
  unfold red_flag_penalty, len.
  destruct flags as [|? [|? [|? [|? [|? flags]]]]]; try reflexivity.
  replace (Z.min _ 40) with 40; [reflexivity|].
  cbn [length]. lia.
Qed.

Lemma score_grid_at s d p :
  mem_Z s structure_score_values = true ->
  mem_Z d difficulty_score_values = true ->
  mem_Z p pattern_score_values = true ->
  score_grid_ok s d p = true.
Proof.
  intros Hs%mem_Z_In Hd%mem_Z_In Hp%mem_Z_In.
  pose proof score_grid_holds as H.
  rewrite forallb_forall in H. specialize (H s Hs).
  rewrite forallb_forall in H. specialize (H d Hd).
  rewrite forallb_forall in H. exact (H p Hp).
Qed.

(** The facts of the grid for the stage scores of a run and one penalty. *)
Lemma score_row s d p pen :
  score_grid_ok s d p = true -> mem_Z pen penalty_values = true ->
  let o := penalized_score s (100 - d) p pen in
  (o <? 100)%float = true /\ same_band o (py_round o 1) = true
  /\ (0 <=? py_round o 1)%float = true /\ (py_round o 1 <=? 100)%float = true
  /\ PrimFloat.is_nan o = false.
Proof.
  intros Hok Hpen%mem_Z_In. unfold score_grid_ok in Hok.
  apply andb_prop in Hok as [Hrows _].
  rewrite forallb_forall in Hrows.
  specialize (Hrows (pen, penalized_score s (100 - d) p pen,
                     py_round (penalized_score s (100 - d) p pen) 1)).
  cbv beta iota zeta in Hrows.
  rewrite !andb_true_iff in Hrows. intros o. subst o.
  assert (Hin : In (pen, penalized_score s (100 - d) p pen,
                    py_round (penalized_score s (100 - d) p pen) 1)
                   (map (fun pen => (pen, penalized_score s (100 - d) p pen,
                           py_round (penalized_score s (100 - d) p pen) 1))
                      penalty_values)).
  { apply (in_map (fun pen => (pen, penalized_score s (100 - d) p pen,
                     py_round (penalized_score s (100 - d) p pen) 1))). exact Hpen. }
  destruct (Hrows Hin) as [[[[H1 H2] H3] H4] H5].
  apply negb_true_iff in H5. repeat split; assumption.
Qed.

Lemma score_monotone s d p pen1 pen2 :
  score_grid_ok s d p = true ->
  mem_Z pen1 penalty_values = true -> mem_Z pen2 penalty_values = true ->
  pen1 <= pen2 ->
  (py_round (penalized_score s (100 - d) p pen2) 1
   <=? py_round (penalized_score s (100 - d) p pen1) 1)%float = true.
Proof.
  intros Hok H1%mem_Z_In H2%mem_Z_In Hle. unfold score_grid_ok in Hok.
  apply andb_prop in Hok as [_ Hpairs].
  set (f := fun pen => (pen, penalized_score s (100 - d) p pen,
                        py_round (penalized_score s (100 - d) p pen) 1)) in *.
  rewrite forallb_forall in Hpairs.
  specialize (Hpairs (f pen1) (in_map f _ _ H1)). cbv beta iota zeta in Hpairs.
  unfold f at 1 in Hpairs.
  rewrite forallb_forall in Hpairs.
  specialize (Hpairs (f pen2) (in_map f _ _ H2)). unfold f in Hpairs.
  cbv beta iota zeta in Hpairs.
  apply Z.leb_le in Hle. rewrite Hle in Hpairs. exact Hpairs.
Qed.

Lemma same_band_feasibility x y :
  same_band x y = true -> feasibility y = feasibility x.
Proof.
  unfold same_band, feasibility. rewrite !andb_true_iff.
  intros [[[H1 H2] H3] H4].
  apply Bool.eqb_prop in H1, H2, H3, H4. by rewrite H1, H2, H3, H4.
Qed.

Lemma py_max0_idem x : py_max0 (py_max0 x) = py_max0 x.
Proof.
  unfold py_max0. destruct (0 <? x)%float eqn:H; [by rewrite H|reflexivity].
Qed.


(** *** The analyzers do not read [analysis_results] *)

Lemma set_analysis_results_twice self ar ar' :
  set_analysis_results (set_analysis_results self ar) ar'
  = set_analysis_results self ar'.
Proof. reflexivity. Qed.

Lemma analyze_file_structure_frame self ar :
  analyze_file_structure (set_analysis_results self ar)
  = analyze_file_structure self.
Proof. reflexivity. Qed.

Lemma analyze_sheet_data_frame self ar name :
  analyze_sheet_data (set_analysis_results self ar) name
  = analyze_sheet_data self name.
Proof. reflexivity. Qed.

Lemma collect_formulas_frame self ar names : forall n all tys,
  collect_formulas (set_analysis_results self ar) names n all tys
  = collect_formulas self names n all tys.
Proof.
  induction names as [|name names IH]; intros n all tys; [reflexivity|].
  cbn [collect_formulas]. rewrite analyze_sheet_data_frame, IH. reflexivity.
Qed.

Lemma analyze_formulas_frame self ar :
  analyze_formulas (set_analysis_results self ar) = analyze_formulas self.
Proof.
  unfold analyze_formulas.
  change (workbook (set_analysis_results self ar)) with (workbook self).
  destruct (workbook self); [|reflexivity].
  rewrite collect_formulas_frame. reflexivity.
Qed.

Lemma detect_automation_patterns_frame self ar :
  detect_automation_patterns (set_analysis_results self ar)
  = detect_automation_patterns self.
Proof. reflexivity. Qed.

Lemma sheet_red_flags_frame self ar :
  sheet_red_flags (set_analysis_results self ar) = sheet_red_flags self.
Proof. reflexivity. Qed.

(** [identify_red_flags] reads the structure and formula entries only. *)
Lemma identify_red_flags_frame self ar ar' :
  ar_structure ar = ar_structure ar' -> ar_formulas ar = ar_formulas ar' ->
  identify_red_flags (set_analysis_results self ar)
  = identify_red_flags (set_analysis_results self ar').
Proof.
  intros Hs Hf. unfold identify_red_flags.
  rewrite !sheet_red_flags_frame.
  change (analysis_results (set_analysis_results self ar)) with ar.
  change (analysis_results (set_analysis_results self ar')) with ar'.
  rewrite Hs, Hf. reflexivity.
Qed.


Lemma identify_red_flags_canon self S F P R :
  identify_red_flags
    (set_analysis_results self
       {| ar_structure := S; ar_formulas := F; ar_patterns := P;
          ar_red_flags := R |})
  = identify_red_flags
      (set_analysis_results self
         {| ar_structure := S; ar_formulas := F; ar_patterns := None;
            ar_red_flags := None |}).
Proof. by apply identify_red_flags_frame. Qed.

(** The report of a run over a loaded workbook, stage by stage. *)
Lemma report_fields self now wb :
  workbook self = Some wb ->
  exists a,
    fst (generate_comprehensive_report self now) = Ok a
    /\ sc_structure_score (da_scores (detailed_analysis a))
       = default 0 (st_structure_score (analyze_file_structure self))
    /\ sc_formula_difficulty_score (da_scores (detailed_analysis a))
       = 100 - default 50 (fo_automation_difficulty_score (analyze_formulas self))
    /\ sc_pattern_score (da_scores (detailed_analysis a))
       = default 0 (pa_pattern_score (detect_automation_patterns self))
    /\ sc_overall_score (da_scores (detailed_analysis a)) = overall_score a
    /\ overall_score a
       = py_round
           (penalized_score
              (sc_structure_score (da_scores (detailed_analysis a)))
              (sc_formula_difficulty_score (da_scores (detailed_analysis a)))
              (sc_pattern_score (da_scores (detailed_analysis a)))
              (red_flag_penalty (red_flags a))) 1
    /\ (feasibility_level a, estimated_effort a)
       = feasibility
           (penalized_score
              (sc_structure_score (da_scores (detailed_analysis a)))
              (sc_formula_difficulty_score (da_scores (detailed_analysis a)))
              (sc_pattern_score (da_scores (detailed_analysis a)))
              (red_flag_penalty (red_flags a)))
    /\ recommended_tools a = automation_recommendations a
    /\ (exists self' summary,
          recommended_tools a = recommend_automation_tools self' summary
          /\ as_overall_score summary
             = Some (penalized_score
                       (sc_structure_score (da_scores (detailed_analysis a)))
                       (sc_formula_difficulty_score (da_scores (detailed_analysis a)))
                       (sc_pattern_score (da_scores (detailed_analysis a)))
                       (red_flag_penalty (red_flags a))))
    /\ fb_difficulty_score (da_formula_analysis (detailed_analysis a))
       = default 0 (fo_automation_difficulty_score (analyze_formulas self))
    /\ qm_red_flags_count (da_quality_metrics (detailed_analysis a))
       = len (red_flags a)
    /\ qm_opportunities_count (da_quality_metrics (detailed_analysis a))
       = len (opportunities a)
    /\ analysis_timestamp a = now
    /\ red_flags a
       = identify_red_flags
           (set_analysis_results self
              {| ar_structure := Some (analyze_file_structure self);
                 ar_formulas := Some (analyze_formulas self);
                 ar_patterns := None;
                 ar_red_flags := None |}).
Proof.
  intros Hwb. unfold generate_comprehensive_report. rewrite Hwb. cbv zeta.
  unfold set_patterns, set_formulas, set_structure.
  rewrite !set_analysis_results_twice.
  rewrite !detect_automation_patterns_frame, !analyze_formulas_frame.
  rewrite (identify_red_flags_canon self _ _ (Some _)
             (ar_red_flags (analysis_results self))).
  destruct (feasibility _) as [level effort] eqn:Hf.
  eexists. split; [reflexivity|].
  cbn [overall_score detailed_analysis da_scores sc_structure_score
       sc_formula_difficulty_score sc_pattern_score sc_overall_score red_flags
       feasibility_level estimated_effort recommended_tools
       automation_recommendations da_quality_metrics qm_red_flags_count
       qm_opportunities_count opportunities analysis_timestamp
       da_formula_analysis fb_difficulty_score].
  rewrite Hf. repeat split.
  eexists _, _. split; [reflexivity|]. reflexivity.
Qed.

Lemma run_grid self :
  score_grid_ok
    (default 0 (st_structure_score (analyze_file_structure self)))
    (default 50 (fo_automation_difficulty_score (analyze_formulas self)))
    (default 0 (pa_pattern_score (detect_automation_patterns self))) = true.
Proof.
  apply score_grid_at.
  - apply structure_score_values_spec.
  - apply difficulty_score_values_spec.
  - apply pattern_score_values_spec.
Qed.

Lemma difficulty_present self wb :
  workbook self = Some wb ->
  exists x, fo_automation_difficulty_score (analyze_formulas self) = Some x.
Proof.
  intros Hwb. unfold analyze_formulas. rewrite Hwb.
  destruct (collect_formulas _ _ _ _ _) as [[n all] tys].
  destruct (categorize _ _ _) as [c s]. eexists. reflexivity.
Qed.

Lemma penalty_of_count n :
  0 <= n -> mem_Z (Z.min (8 * n) 40) penalty_values = true.
Proof.
  intros Hn.
  assert (H : n = 0 \/ n = 1 \/ n = 2 \/ n = 3 \/ n = 4 \/ 5 <= n) by lia.
  destruct H as [->|[->|[->|[->|[->|H]]]]]; try reflexivity.
  replace (Z.min (8 * n) 40) with 40 by lia. reflexivity.
Qed.

Lemma red_flag_penalty_count flags :
  red_flag_penalty flags = Z.min (8 * len flags) 40.
Proof. unfold red_flag_penalty. f_equal. lia. Qed.

Lemma py_min100_below x : (x <? 100)%float = true -> py_min100 x = x.
Proof. unfold py_min100. by intros ->. Qed.

(** On the stage scores of a run the clamp of the specification changes
    nothing. *)
Lemma spec_overall_score_eq s d p n :
  score_grid_ok s d p = true -> 0 <= n ->
  spec_overall_score s d p n
  = py_round (penalized_score s (100 - d) p (Z.min (8 * n) 40)) 1.
Proof.
  intros Hok Hn.
  destruct (score_row s d p (Z.min (8 * n) 40) Hok (penalty_of_count n Hn))
    as (Hlt & _).
  change (spec_overall_score s d p n)
    with (py_round
            (py_max0 (py_min100 (penalized_score s (100 - d) p (Z.min (8 * n) 40))))
            1).
  rewrite (py_min100_below _ Hlt). unfold penalized_score.
  rewrite py_max0_idem. reflexivity.
Qed.


Lemma len_nonneg {A} (l : list A) : 0 <= len l.
Proof. unfold len. lia. Qed.

(** The scores of a report lie on the checked grid. *)
Lemma report_on_grid self now wb :
  workbook self = Some wb ->
  exists a d,
    fst (generate_comprehensive_report self now) = Ok a
    /\ fb_difficulty_score (da_formula_analysis (detailed_analysis a)) = d
    /\ sc_formula_difficulty_score (da_scores (detailed_analysis a)) = 100 - d
    /\ score_grid_ok (sc_structure_score (da_scores (detailed_analysis a))) d
         (sc_pattern_score (da_scores (detailed_analysis a))) = true
    /\ overall_score a
       = py_round
           (penalized_score
              (sc_structure_score (da_scores (detailed_analysis a))) (100 - d)
              (sc_pattern_score (da_scores (detailed_analysis a)))
              (Z.min (8 * len (red_flags a)) 40)) 1
    /\ (feasibility_level a, estimated_effort a)
       = feasibility
           (penalized_score
              (sc_structure_score (da_scores (detailed_analysis a))) (100 - d)
              (sc_pattern_score (da_scores (detailed_analysis a)))
              (Z.min (8 * len (red_flags a)) 40))
    /\ sc_overall_score (da_scores (detailed_analysis a)) = overall_score a.
Proof.
  intros Hwb.
  destruct (report_fields self now wb Hwb)
    as (a & Ha & Hs & Hd & Hp & Hso & Ho & Hf & _ & _ & Hfb & _).
  destruct (difficulty_present self wb Hwb) as [x Hx].
  exists a, x. rewrite Hx in Hd, Hfb. cbn [default] in Hd, Hfb.
  pose proof (run_grid self) as Hg. rewrite Hx in Hg. cbn [default] in Hg.
  rewrite <- Hs, <- Hp in Hg.
  rewrite red_flag_penalty_count, Hd in Ho, Hf.
  repeat split; assumption.
Qed.

(** C7. Round trip of the feasibility level: for every loaded workbook, the
    level that the tier mapping gives to the rounded [overall_score] stored
    in the [scores] block of the report is the [feasibility_level] the report
    carries (thresholds 80, 65, 50 and 35, each inclusive). *)
Theorem feasibility_round_trip self now wb :
  workbook self = Some wb ->
  exists a,
    fst (generate_comprehensive_report self now) = Ok a
    /\ fst (feasibility (sc_overall_score (da_scores (detailed_analysis a))))
       = feasibility_level a.
Proof.
  intros Hwb.
  destruct (report_on_grid self now wb Hwb)
    as (a & d & Ha & _ & _ & Hg & Ho & Hf & Hso).
  exists a. split; [exact Ha|].
  destruct (score_row _ _ _ (Z.min (8 * len (red_flags a)) 40) Hg
              (penalty_of_count _ (len_nonneg (red_flags a))))
    as (_ & Hband & _).
  rewrite Hso, Ho, (same_band_feasibility _ _ Hband), <- Hf. reflexivity.
Qed.

(** C3. Aggregation: for every loaded workbook the overall score of the
    report is the weighted sum of the three stage scores (0.3, 0.4 on
    100 minus the difficulty, 0.3), less the red-flag penalty
    [min(8 * len(red_flags), 40)], floored at 0, clamped to [0, 100] and
    rounded to one decimal; for these stage scores it never grows with the
    number of red flags, and the penalty is at most 40. *)
Theorem overall_score_aggregation self now wb :
  workbook self = Some wb ->
  exists a,
    fst (generate_comprehensive_report self now) = Ok a
    /\ overall_score a
       = spec_overall_score
           (sc_structure_score (da_scores (detailed_analysis a)))
           (fb_difficulty_score (da_formula_analysis (detailed_analysis a)))
           (sc_pattern_score (da_scores (detailed_analysis a)))
           (len (red_flags a))
    /\ (forall n m, 0 <= n -> n <= m ->
          (spec_overall_score
             (sc_structure_score (da_scores (detailed_analysis a)))
             (fb_difficulty_score (da_formula_analysis (detailed_analysis a)))
             (sc_pattern_score (da_scores (detailed_analysis a))) m
           <=? spec_overall_score
                 (sc_structure_score (da_scores (detailed_analysis a)))
                 (fb_difficulty_score (da_formula_analysis (detailed_analysis a)))
                 (sc_pattern_score (da_scores (detailed_analysis a))) n)%float
          = true)
    /\ (forall flags, 0 <= red_flag_penalty flags <= 40).
Proof.
  intros Hwb.
  destruct (report_on_grid self now wb Hwb)
    as (a & d & Ha & Hd & _ & Hg & Ho & _).
  exists a. split; [exact Ha|]. rewrite Hd. split; [|split].
  - rewrite (spec_overall_score_eq _ _ _ _ Hg) by apply len_nonneg. exact Ho.
  - intros n m Hn Hnm.
    rewrite !(spec_overall_score_eq _ _ _ _ Hg) by lia.
    apply (score_monotone _ _ _ _ _ Hg);
      [apply penalty_of_count; lia | apply penalty_of_count; lia | lia].
  - intros flags. unfold red_flag_penalty, len. lia.
Qed.

(** What a run returns does not depend on the results left by earlier
    runs. *)
Lemma generate_frame self ar now now' :
  erase_timestamp (fst (generate_comprehensive_report (set_analysis_results self ar) now))
  = erase_timestamp (fst (generate_comprehensive_report self now')).
Proof.
  unfold generate_comprehensive_report.
  change (workbook (set_analysis_results self ar)) with (workbook self).
  destruct (workbook self) as [wb|]; [|reflexivity].
  cbv zeta. unfold set_red_flags, set_patterns, set_formulas, set_structure.
  rewrite !set_analysis_results_twice.
  change (analysis_results (set_analysis_results self ar)) with ar.
  rewrite !analyze_file_structure_frame, !analyze_formulas_frame,
    !detect_automation_patterns_frame.
  rewrite (identify_red_flags_canon self _ _ (Some _) (ar_red_flags ar)).
  rewrite (identify_red_flags_canon self _ _ (Some _)
             (ar_red_flags (analysis_results self))).
  destruct (feasibility _) as [level effort].
  reflexivity.
Qed.

(** C8. Determinism: two runs over one workbook snapshot (the same sheets,
    cells, file and limits), whatever results earlier runs left in either
    checker and whatever the clock says, return the same outcome once the
    timestamp is blanked: the same scores, red flags, opportunities and
    recommended tools. *)
Theorem report_deterministic self ar1 ar2 now1 now2 :
  erase_timestamp
    (fst (generate_comprehensive_report (set_analysis_results self ar1) now1))
  = erase_timestamp
      (fst (generate_comprehensive_report (set_analysis_results self ar2) now2)).
Proof.
  rewrite (generate_frame self ar1 now1 now1), (generate_frame self ar2 now2 now1).
  reflexivity.
Qed.



(** C6 (amended). For every loaded workbook whose sheets are named
    Jan_Input, Feb_Input, Q1_Report and Summary, the pattern detector sets
    the time-based flag (+30), files Jan_Input and Feb_Input under
    data_entry, files both Q1_Report and Summary under reporting (the
    reporting keywords, tried before the summary ones, contain "summary"),
    leaves the summary role empty, sets the consolidation flag (+20) and
    gives pattern score 50. *)
Theorem named_sheets_scenario self wb :
  workbook self = Some wb ->
  sheetnames wb = ["Jan_Input"; "Feb_Input"; "Q1_Report"; "Summary"] ->
  let d := detect_automation_patterns self in
  pa_time_based_patterns d = Some true
  /\ pa_data_entry_sheets d = Some ["Jan_Input"; "Feb_Input"]
  /\ pa_reporting_sheets d = Some ["Q1_Report"; "Summary"]
  /\ pa_summary_sheets d = Some []
  /\ pa_consolidation_patterns d = Some true
  /\ pa_detected_patterns d
     = Some ["Time-based sheet structure detected";
             "Data consolidation workflow detected"]
  /\ pa_pattern_score d = Some 50.
Proof.
  intros Hwb Hnames d. subst d. unfold detect_automation_patterns.
  rewrite Hwb, Hnames. vm_compute. repeat split.
Qed.

Lemma named_sheets_scenario_witness :
  let d := detect_automation_patterns
             (plain_checker ["Jan_Input"; "Feb_Input"; "Q1_Report"; "Summary"]) in
  pa_time_based_patterns d = Some true
  /\ pa_data_entry_sheets d = Some ["Jan_Input"; "Feb_Input"]
  /\ pa_reporting_sheets d = Some ["Q1_Report"; "Summary"]
  /\ pa_summary_sheets d = Some []
  /\ pa_consolidation_patterns d = Some true
  /\ pa_detected_patterns d
     = Some ["Time-based sheet structure detected";
             "Data consolidation workflow detected"]
  /\ pa_pattern_score d = Some 50.
Proof.
  exact (named_sheets_scenario
           (plain_checker ["Jan_Input"; "Feb_Input"; "Q1_Report"; "Summary"])
           _ eq_refl eq_refl).
Defined.

(** The role lists of the scenario are not those of the claim: Summary is a
    reporting sheet and no sheet has the summary role. *)
Lemma named_sheets_roles_differ :
  pa_reporting_sheets
    (detect_automation_patterns
       (plain_checker ["Jan_Input"; "Feb_Input"; "Q1_Report"; "Summary"]))
  = Some ["Q1_Report"; "Summary"]
  /\ pa_summary_sheets
       (detect_automation_patterns
          (plain_checker ["Jan_Input"; "Feb_Input"; "Q1_Report"; "Summary"]))
     = Some []
  /\ sheet_category "Summary" = Some reporting.
Proof. vm_compute. repeat split. Qed.

(** C1. The pattern score reported for the sheets Input_Jan, Input_Feb, Calc,
    Report and Template is 125: it is above 100. *)
Theorem pattern_score_above_100 :
  exists a,
    fst (generate_comprehensive_report
           (plain_checker ["Input_Jan"; "Input_Feb"; "Calc"; "Report"; "Template"])
           "2025-01-01 00:00:00") = Ok a
    /\ sc_pattern_score (da_scores (detailed_analysis a)) = 125
    /\ (sc_pattern_score (da_scores (detailed_analysis a)) <=? 100) = false.
Proof.
  eexists. split; [vm_compute; reflexivity|]. split; reflexivity.
Qed.

Lemma feasibility_round_trip_witness :
  exists a,
    fst (generate_comprehensive_report (plain_checker ["Sheet1"])
           "2025-01-01 00:00:00") = Ok a
    /\ fst (feasibility (sc_overall_score (da_scores (detailed_analysis a))))
       = feasibility_level a.
Proof.
  exact (feasibility_round_trip (plain_checker ["Sheet1"]) "2025-01-01 00:00:00"
           _ eq_refl).
Defined.




Lemma overall_score_aggregation_witness :
  exists a,
    fst (generate_comprehensive_report
           (plain_checker ["Input_Jan"; "Input_Feb"; "Calc"; "Report"; "Template"])
           "2025-01-01 00:00:00") = Ok a
    /\ overall_score a
       = spec_overall_score
           (sc_structure_score (da_scores (detailed_analysis a)))
           (fb_difficulty_score (da_formula_analysis (detailed_analysis a)))
           (sc_pattern_score (da_scores (detailed_analysis a)))
           (len (red_flags a))
    /\ (forall n m, 0 <= n -> n <= m ->
          (spec_overall_score
             (sc_structure_score (da_scores (detailed_analysis a)))
             (fb_difficulty_score (da_formula_analysis (detailed_analysis a)))
             (sc_pattern_score (da_scores (detailed_analysis a))) m
           <=? spec_overall_score
                 (sc_structure_score (da_scores (detailed_analysis a)))
                 (fb_difficulty_score (da_formula_analysis (detailed_analysis a)))
                 (sc_pattern_score (da_scores (detailed_analysis a))) n)%float
          = true)
    /\ (forall flags, 0 <= red_flag_penalty flags <= 40).
Proof.
  exact (overall_score_aggregation
           (plain_checker ["Input_Jan"; "Input_Feb"; "Calc"; "Report"; "Template"])
           "2025-01-01 00:00:00" _ eq_refl).
Defined.

(** C10. Tool recommendation: for every analysis summary whose overall score
    is a number, the returned list keeps the order in which the rules emit
    their recommendations, has no duplicate, has at most 8 entries and is
    not empty. *)
Theorem recommend_automation_tools_spec self summary :
  PrimFloat.is_nan (default 0%float (as_overall_score summary)) = false ->
  recommend_automation_tools self summary
    `sublist_of` emitted_recommendations self summary
  /\ NoDup (recommend_automation_tools self summary)
  /\ (length (recommend_automation_tools self summary) <= 8)%nat
  /\ recommend_automation_tools self summary <> [].
Proof.
  intros Hnan.
  destruct (unique_loop_spec (emitted_recommendations self summary) ∅ [])
    as (Hnd & Hsub & _).
  { apply NoDup_nil_2. }
  { intros x. rewrite elem_of_nil. set_solver. }
  split; [|split; [|split]].
  - unfold recommend_automation_tools. etrans; [apply sublist_take|]. exact Hsub.
  - unfold recommend_automation_tools.
    eapply sublist_NoDup; [exact Hnd|apply sublist_take].
  - apply recommend_at_most_8.
  - by apply recommend_nonempty.
Qed.

Lemma recommend_automation_tools_spec_witness :
  recommend_automation_tools (plain_checker ["Sheet1"]) sample_summary
    `sublist_of` emitted_recommendations (plain_checker ["Sheet1"]) sample_summary
  /\ NoDup (recommend_automation_tools (plain_checker ["Sheet1"]) sample_summary)
  /\ (length (recommend_automation_tools (plain_checker ["Sheet1"]) sample_summary)
      <= 8)%nat
  /\ recommend_automation_tools (plain_checker ["Sheet1"]) sample_summary <> [].
Proof.
  exact (recommend_automation_tools_spec (plain_checker ["Sheet1"]) sample_summary
           eq_refl).
Defined.

(** The scenario of one empty sheet in a 1 KB file: the structure score is
    90, not 100, and the overall score is 59.0, not 62.0. *)
Lemma single_sheet_scores_differ :
  exists a,
    fst (generate_comprehensive_report (plain_checker ["Sheet1"])
           "2025-01-01 00:00:00") = Ok a
    /\ sc_structure_score (da_scores (detailed_analysis a)) = 90
    /\ sc_formula_difficulty_score (da_scores (detailed_analysis a)) = 80
    /\ sc_pattern_score (da_scores (detailed_analysis a)) = 0
    /\ red_flags a = []
    /\ overall_score a = 59%float
    /\ (overall_score a =? 62)%float = false
    /\ feasibility_level a = "MEDIUM - Good automation potential with preparation".
Proof.
  eexists. split; [vm_compute; reflexivity|]. repeat split.
Qed.

(** ** A single sheet without formulas *)

Lemma scan_cell_formula_free i j c st :
  cell_is_formula c = false ->
  formula_count (scan_cell i j c st) = formula_count st
  /\ formulas (scan_cell i j c st) = formulas st
  /\ formula_types (scan_cell i j c st) = formula_types st.
Proof.
  intros H. destruct c as [cell|e]; unfold scan_cell.
  - unfold cell_is_formula in H.
    destruct (cell_value cell) as [v|]; [|done].
    cbv zeta. cbn [formula_count formulas formula_types]. by rewrite H.
  - by destruct (_ <? 5).
Qed.

Lemma scan_row_formula_free i cells : forall j st,
  List.Forall (fun c => cell_is_formula c = false) cells ->
  formula_count (scan_row i j cells st) = formula_count st
  /\ formulas (scan_row i j cells st) = formulas st
  /\ formula_types (scan_row i j cells st) = formula_types st.
Proof.
  induction cells as [|c rest IH]; intros j st Hfree; [done|].
  inversion Hfree as [|? ? Hc Hrest]; subst.
  cbn [scan_row].
  destruct (IH (j + 1) (scan_cell i j c st) Hrest) as (-> & -> & ->).
  by apply scan_cell_formula_free.
Qed.

Lemma scan_rows_formula_free rows : forall i st,
  formula_free rows ->
  formula_count (scan_rows i rows st) = formula_count st
  /\ formulas (scan_rows i rows st) = formulas st
  /\ formula_types (scan_rows i rows st) = formula_types st.
Proof.
  induction rows as [|row rest IH]; intros i st Hfree; [done|].
  inversion Hfree as [|? ? Hrow Hrest]; subst.
  destruct row as [cells|e]; cbn [scan_rows]; [|done].
  destruct (IH (i + 1) (scan_row i 1 cells st) Hrest) as (-> & -> & ->).
  by apply scan_row_formula_free.
Qed.

(** [0 / b] is [0.0]. *)
Lemma py_truediv_0 b : 0 < b -> py_truediv 0 b = 0%float.
Proof. destruct b; [lia|reflexivity|lia]. Qed.

(** Without merged cells and formulas, on a sheet of at most 100 cells, only
    the bonuses of the consistency score apply. *)
Lemma consistency_score_formula_free d t :
  sh_merged_cells d = Some 0 ->
  sh_formula_cells d = Some 0 ->
  sh_total_cells d = Some t ->
  t <= 100 ->
  In (_calculate_consistency_score d) [70; 80; 85; 90; 95; 100].
Proof.
  intros Hm Hf Ht Hle. unfold _calculate_consistency_score.
  set (used := Z.max 1 (default 1 (sh_used_cells d))).
  rewrite Hm, Hf, Ht. cbn [default]. unfold id.
  change (0 <? 0) with false. cbv iota.
  replace (100 <? Z.max 1 t) with false by (symmetry; apply Z.ltb_ge; lia).
  rewrite andb_false_r.
  rewrite (py_truediv_0 used) by (unfold used; lia).
  change (0.8 <? 0)%float with false.
  change ((0.1 <=? 0) && (0 <=? 0.5))%float with false.
  cbv iota.
  destruct (10 <? used), (sh_headers_detected d) as [[|h hs]|],
    (sh_has_data_validation d) as [[]|], (sh_has_tables d) as [[]|];
    vm_compute; auto 10.
Qed.

Lemma analyze_sheet_data_formula_free self wb name sheet rows cols :
  workbook self = Some wb ->
  getitem wb name = Some sheet ->
  max_row sheet = Ok (Some rows) ->
  max_column sheet = Ok (Some cols) ->
  rows * cols <= 100 ->
  merged_cells sheet = Some (Ok 0) ->
  protection sheet = Some (Ok false) ->
  (forall n, formula_free (iter_rows sheet n)) ->
  sh_merged_cells (analyze_sheet_data self name) = Some 0
  /\ sh_sheet_protection (analyze_sheet_data self name) = Some false
  /\ sh_formula_cells (analyze_sheet_data self name) = Some 0
  /\ sh_formulas (analyze_sheet_data self name) = Some []
  /\ sh_formula_types (analyze_sheet_data self name) = Some ∅
  /\ sh_total_cells (analyze_sheet_data self name) = Some (rows * cols)
  /\ (exists u, sh_used_cells (analyze_sheet_data self name) = Some u)
  /\ exists cs,
       sh_data_consistency_score (analyze_sheet_data self name) = Some cs
       /\ In cs [70; 80; 85; 90; 95; 100].
Proof.
  intros Hwb Hget Hr Hc Hle Hm Hp Hfree.
  unfold analyze_sheet_data. rewrite Hwb, Hget, Hr, Hc, Hm, Hp.
  cbv [mbind result_bind]. cbv beta iota. cbn [default]. unfold id.
  destruct (scan_rows_formula_free
              (iter_rows sheet (Z.min rows (max_rows_to_analyze self))) 1
              {| used_cell_count := 0; formula_count := 0;
                 data_validation_count := 0; formulas := [];
                 formula_types := ∅; scan_errors := [] |} (Hfree _))
    as (Hfc & Hfs & Hft).
  set (st := scan_rows _ _ _) in *.
  destruct (match tables sheet with Some _ => _ | None => _ end)
    as [has_tables errors].
  destruct (if 0 <? rows then _ else _) as [headers errors'].
  cbn [sh_sheet_name sh_dimensions sh_total_cells sh_used_cells
       sh_formula_cells sh_merged_cells sh_has_tables sh_has_data_validation
       sh_data_consistency_score sh_formulas sh_formula_types
       sh_headers_detected sh_analysis_errors sh_sheet_protection].
  rewrite Hfc, Hfs, Hft. cbn [formula_count formulas formula_types].
  repeat split; [by eexists|].
  eexists. split; [reflexivity|].
  by apply consistency_score_formula_free with (t := rows * cols).
Qed.

(** The structure analysis of a 1 KB file with one visible sheet and no
    named range. *)
Lemma analyze_file_structure_single self wb sheet :
  workbook self = Some wb ->
  worksheets wb = [sheet] ->
  sheet_state sheet = Some (Ok "visible") ->
  defined_names wb = Some (Ok 0) ->
  path_set (file_path self) = true ->
  getsize self = Ok 1024 ->
  st_structure_score (analyze_file_structure self) = Some 90
  /\ st_file_size_mb (analyze_file_structure self) = Some 0%float
  /\ st_total_sheets (analyze_file_structure self) = Some 1
  /\ st_has_hidden_sheets (analyze_file_structure self) = Some false
  /\ st_has_very_hidden_sheets (analyze_file_structure self) = Some false.
Proof.
  intros Hwb Hws Hstate Hnames Hpath Hsize.
  unfold analyze_file_structure, sheetnames.
  rewrite Hwb, Hpath, Hsize, Hnames, Hws.
  cbn [visibility_loop map]. rewrite Hstate.
  repeat split; vm_compute; reflexivity.
Qed.

Lemma add_formula_types_empty summary : add_formula_types ∅ summary = summary.
Proof. unfold add_formula_types. by rewrite map_fold_empty. Qed.

(** The formula analysis of a workbook whose only sheet has no formula. *)
Lemma analyze_formulas_single self wb sheet rows cols :
  workbook self = Some wb ->
  worksheets wb = [sheet] ->
  max_row sheet = Ok (Some rows) ->
  max_column sheet = Ok (Some cols) ->
  rows * cols <= 100 ->
  merged_cells sheet = Some (Ok 0) ->
  protection sheet = Some (Ok false) ->
  (forall n, formula_free (iter_rows sheet n)) ->
  fo_automation_difficulty_score (analyze_formulas self) = Some 20
  /\ fo_total_formulas (analyze_formulas self) = Some 0
  /\ fo_formula_complexity_ratio (analyze_formulas self) = Some 0%float
  /\ fo_formula_types_summary (analyze_formulas self) = Some ∅.
Proof.
  intros Hwb Hws Hr Hc Hle Hm Hp Hfree.
  assert (Hget : getitem wb (title sheet) = Some sheet).
  { unfold getitem. rewrite Hws. cbn [List.find]. by rewrite String.eqb_refl. }
  destruct (analyze_sheet_data_formula_free self wb (title sheet) sheet rows
              cols Hwb Hget Hr Hc Hle Hm Hp Hfree)
    as (_ & _ & _ & Hfs & Hft & _).
  assert (Hcollect : exists n,
             collect_formulas self (sheetnames wb) 0%nat [] ∅ = (n, [], ∅)).
  { unfold sheetnames. rewrite Hws. cbn [map collect_formulas].
    destruct (_ <=? _)%nat; [by eexists|].
    rewrite Hfs, Hft. cbn [default]. rewrite add_formula_types_empty.
    by eexists. }
  destruct Hcollect as [n Hcollect].
  unfold analyze_formulas. rewrite Hwb, Hcollect.
  repeat split.
Qed.

(** One sheet alone shows none of the patterns. *)
Lemma detect_automation_patterns_single self wb sheet :
  workbook self = Some wb ->
  worksheets wb = [sheet] ->
  pa_pattern_score (detect_automation_patterns self) = Some 0.
Proof.
  intros Hwb Hws. unfold detect_automation_patterns, sheetnames.
  rewrite Hwb, Hws. cbn [map].
  unfold time_based_sheets, categorize_sheets. cbn [List.filter foldl].
  destruct (is_time_based (title sheet)),
    (sheet_category (title sheet)) as [[]|]; reflexivity.
Qed.

(** No red flag is raised on such a workbook. *)
Lemma identify_red_flags_single self wb sheet rows cols S F :
  workbook self = Some wb ->
  worksheets wb = [sheet] ->
  max_row sheet = Ok (Some rows) ->
  max_column sheet = Ok (Some cols) ->
  rows * cols <= 100 ->
  merged_cells sheet = Some (Ok 0) ->
  protection sheet = Some (Ok false) ->
  (forall n, formula_free (iter_rows sheet n)) ->
  vba_archive wb = false ->
  endswith (lower (default "" (file_path self))) ".xlsm" = false ->
  ar_structure (analysis_results self) = Some S ->
  st_file_size_mb S = Some 0%float ->
  st_total_sheets S = Some 1 ->
  st_has_hidden_sheets S = Some false ->
  st_has_very_hidden_sheets S = Some false ->
  ar_formulas (analysis_results self) = Some F ->
  fo_total_formulas F = Some 0 ->
  fo_formula_complexity_ratio F = Some 0%float ->
  fo_formula_types_summary F = Some ∅ ->
  identify_red_flags self = [].
Proof.
  intros Hwb Hws Hr Hc Hle Hm Hp Hfree Hvba Hext HS Hsize Hsheets Hhid Hvhid
    HF Htotal Hratio Htypes.
  assert (Hget : getitem wb (title sheet) = Some sheet).
  { unfold getitem. rewrite Hws. cbn [List.find]. by rewrite String.eqb_refl. }
  destruct (analyze_sheet_data_formula_free self wb (title sheet) sheet rows
              cols Hwb Hget Hr Hc Hle Hm Hp Hfree)
    as (Hdm & Hdp & Hdf & _ & _ & Hdt & [u Hdu] & cs & Hdc & Hcs).
  assert (Hloop : forall flags,
    sheet_red_flags self
      {| total_merged_cells := 0; sheets_with_protection := 0;
         sheets_with_many_formulas := 0; loop_flags := flags |} (title sheet)
    = {| total_merged_cells := 0; sheets_with_protection := 0;
         sheets_with_many_formulas := 0; loop_flags := flags |}).
  { intros flags. unfold sheet_red_flags.
    rewrite Hdm, Hdp, Hdf, Hdt, Hdu. cbn [default]. unfold id. cbv zeta.
    cbn [total_merged_cells sheets_with_protection sheets_with_many_formulas
         loop_flags].
    replace (1000 <? rows * cols) with false by (symmetry; apply Z.ltb_ge; lia).
    rewrite andb_false_r.
    assert (Hheavy : (100 <? u) && (0.7 <? py_truediv 0 u)%float = false).
    { destruct (100 <? u) eqn:Hu; [|reflexivity].
      apply Z.ltb_lt in Hu. by rewrite py_truediv_0 by lia. }
    rewrite Hheavy. reflexivity. }
  unfold identify_red_flags. rewrite Hwb, HS, HF, Hvba, Hext.
  cbn [default]. unfold id. cbv zeta.
  rewrite Hsize, Hsheets, Hhid, Hvhid, Htotal, Hratio, Htypes.
  cbn [default]. unfold id.
  assert (Hfold :
    foldl (sheet_red_flags self)
      {| total_merged_cells := 0; sheets_with_protection := 0;
         sheets_with_many_formulas := 0; loop_flags := [] |}
      (take (max_sheets_to_analyze self) (sheetnames wb))
    = {| total_merged_cells := 0; sheets_with_protection := 0;
         sheets_with_many_formulas := 0; loop_flags := [] |}).
  { unfold sheetnames. rewrite Hws. cbn [map].
    destruct (max_sheets_to_analyze self); cbn [take foldl]; [reflexivity|].
    rewrite take_nil. apply Hloop. }
  set (flags := append_elif (2000 <? 0) _ _ _ _).
  assert (Hflags : flags = []) by reflexivity.
  rewrite Hflags, Hfold. clear flags Hflags.
  cbn [total_merged_cells sheets_with_protection sheets_with_many_formulas
       loop_flags].
  rewrite andb_false_r.
  unfold sheetnames. rewrite Hws. cbn [map take]. rewrite Hdc.
  cbn [In] in Hcs.
  destruct Hcs as [<-|[<-|[<-|[<-|[<-|[<-|[]]]]]]]; vm_compute; reflexivity.
Qed.

(** C5 (amended). For a loaded workbook with one visible, unprotected sheet
    of at most 100 cells, no formula, no merged cell, no named range and no
    macro, stored in a 1 KB file that is not an [.xlsm], the report has
    structure score 90 (70 base + 15 for the sheet count + 5 for the size;
    nothing is clamped), formula contribution 80 (100 - difficulty 20),
    pattern score 0, no red flag, overall score 59.0
    (90 * 0.3 + 80 * 0.4 + 0 * 0.3) and the MEDIUM feasibility level. *)
Theorem single_sheet_scenario self now wb sheet rows cols :
  workbook self = Some wb ->
  worksheets wb = [sheet] ->
  sheet_state sheet = Some (Ok "visible") ->
  max_row sheet = Ok (Some rows) ->
  max_column sheet = Ok (Some cols) ->
  rows * cols <= 100 ->
  merged_cells sheet = Some (Ok 0) ->
  protection sheet = Some (Ok false) ->
  (forall n, formula_free (iter_rows sheet n)) ->
  defined_names wb = Some (Ok 0) ->
  vba_archive wb = false ->
  path_set (file_path self) = true ->
  endswith (lower (default "" (file_path self))) ".xlsm" = false ->
  getsize self = Ok 1024 ->
  exists a,
    fst (generate_comprehensive_report self now) = Ok a
    /\ sc_structure_score (da_scores (detailed_analysis a)) = 70 + 15 + 5
    /\ sc_formula_difficulty_score (da_scores (detailed_analysis a)) = 100 - 20
    /\ sc_pattern_score (da_scores (detailed_analysis a)) = 0
    /\ red_flags a = []
    /\ overall_score a = 59%float
    /\ feasibility_level a
       = "MEDIUM - Good automation potential with preparation".
Proof.
  intros Hwb Hws Hstate Hr Hc Hle Hm Hp Hfree Hnames Hvba Hpath Hext Hsize.
  destruct (report_fields self now wb Hwb)
    as (a & Ha & Hs & Hd & Hpat & _ & Ho & Hf & _ & _ & _ & _ & _ & _ & Hrf).
  destruct (analyze_file_structure_single self wb sheet Hwb Hws Hstate Hnames
              Hpath Hsize) as (Hscore & Hmb & Hn & Hhid & Hvhid).
  destruct (analyze_formulas_single self wb sheet rows cols Hwb Hws Hr Hc Hle
              Hm Hp Hfree) as (Hdiff & Htotal & Hratio & Htypes).
  rewrite Hscore in Hs. rewrite Hdiff in Hd.
  rewrite (detect_automation_patterns_single self wb sheet Hwb Hws) in Hpat.
  rewrite (identify_red_flags_single
             (set_analysis_results self
                {| ar_structure := Some (analyze_file_structure self);
                   ar_formulas := Some (analyze_formulas self);
                   ar_patterns := None;
                   ar_red_flags := None |})
             wb sheet rows cols
             (analyze_file_structure self) (analyze_formulas self)
             Hwb Hws Hr Hc Hle Hm Hp Hfree Hvba Hext eq_refl Hmb Hn Hhid Hvhid
             eq_refl Htotal Hratio Htypes) in Hrf.
  rewrite Hs, Hd, Hpat, Hrf in Ho, Hf.
  exists a. split; [exact Ha|].
  split; [exact Hs|]. split; [exact Hd|]. split; [exact Hpat|].
  split; [exact Hrf|]. split; [exact Ho|].
  change (feasibility _) with
    ("MEDIUM - Good automation potential with preparation",
     "2-3 months development + 3 weeks testing") in Hf.
  congruence.
Qed.

Lemma single_sheet_scenario_witness :
  exists a,
    fst (generate_comprehensive_report (plain_checker ["Sheet1"])
           "2025-01-01 00:00:00") = Ok a
    /\ sc_structure_score (da_scores (detailed_analysis a)) = 70 + 15 + 5
    /\ sc_formula_difficulty_score (da_scores (detailed_analysis a)) = 100 - 20
    /\ sc_pattern_score (da_scores (detailed_analysis a)) = 0
    /\ red_flags a = []
    /\ overall_score a = 59%float
    /\ feasibility_level a
       = "MEDIUM - Good automation potential with preparation".
Proof.
  apply (single_sheet_scenario (plain_checker ["Sheet1"]) "2025-01-01 00:00:00"
           {| worksheets := [plain_sheet "Sheet1"];
              defined_names := Some (Ok 0);
              vba_archive := false |}
           (plain_sheet "Sheet1") 1 1);
    try reflexivity; [lia|].
  intros n. repeat constructor.
Defined.

(** * Further properties of the code *)

(** ** [validate_file_path] *)

Lemma append_cons c r t : String c r +:+ t = String c (r +:+ t).
Proof. reflexivity. Qed.

Lemma append_empty s : s +:+ EmptyString = s.
Proof.
  induction s as [|c r IH]; [reflexivity|]. by rewrite append_cons, IH.
Qed.

Lemma substring_all s : String.substring 0 (String.length s) s = s.
Proof.
  induction s as [|c r IH]; [reflexivity|].
  cbn [String.length String.substring]. by rewrite IH.
Qed.

Lemma substring_split s : forall n,
  String.substring 0 n s +:+ String.substring n (String.length s - n) s = s.
Proof.
  induction s as [|c r IH]; intros [|n]; try reflexivity.
  - rewrite Nat.sub_0_r.
    change (String.substring 0 0 (String c r)) with EmptyString.
    change (EmptyString +:+ ?t) with t. apply substring_all.
  - cbn [String.substring String.length Nat.sub].
    by rewrite append_cons, IH.
Qed.

(** The two parts that [splitext] returns make up the path. *)
Lemma splitext_append p : fst (splitext p) +:+ snd (splitext p) = p.
Proof.
  unfold splitext. destruct (rfind "." p) as [dotIndex|].
  - destruct (_ && _); cbn [fst snd];
      [apply substring_split|apply append_empty].
  - apply append_empty.
Qed.

Lemma length_append (s t : string) :
  String.length (s +:+ t) = (String.length s + String.length t)%nat.
Proof. induction s as [|c r IH]; [reflexivity|]. simpl. congruence. Qed.

Lemma substring_append s t :
  String.substring (String.length s) (String.length t) (s +:+ t) = t.
Proof.
  induction s as [|c r IH]; [apply substring_all|].
  rewrite append_cons. cbn [String.length String.substring]. exact IH.
Qed.

Lemma endswith_append s t : endswith (s +:+ t) t = true.
Proof.
  unfold endswith. rewrite length_append.
  replace (String.length s + String.length t - String.length t)%nat
    with (String.length s) by lia.
  rewrite substring_append, String.eqb_refl, andb_true_r.
  apply Nat.leb_le. lia.
Qed.

(** The verdict and the message agree: the message is empty exactly when
    the path is accepted. *)
Theorem validate_file_path_message fs p :
  fst (validate_file_path fs p) = true
  <-> snd (validate_file_path fs p) = EmptyString.
Proof.
  unfold validate_file_path.
  destruct (path_exists fs p); cbn [negb try_except fst snd];
    [|split; discriminate].
  destruct (path_isfile fs p); cbn [negb try_except fst snd];
    [|split; discriminate].
  destruct (splitext (lower p)) as [root ext].
  destruct (bool_decide _); cbn [negb try_except fst snd];
    [|split; discriminate].
  destruct (path_getsize fs p) as [size|e];
    cbn [mbind result_bind try_except fst snd]; [|split; discriminate].
  destruct (open_rb fs p); cbn [try_except fst snd]; split;
    first [reflexivity | discriminate].
Qed.

(** An accepted path names an existing regular file that can be sized and
    opened, and its lower-cased form ends in one of the supported
    extensions. *)
Theorem validate_file_path_accepted fs p :
  fst (validate_file_path fs p) = true ->
  path_exists fs p = true
  /\ path_isfile fs p = true
  /\ (exists size, path_getsize fs p = Ok size)
  /\ open_rb fs p = Opened
  /\ snd (splitext (lower p)) ∈ supported_extensions
  /\ endswith (lower p) (snd (splitext (lower p))) = true.
Proof.
  unfold validate_file_path.
  destruct (path_exists fs p); cbn [negb try_except fst]; [|discriminate].
  destruct (path_isfile fs p); cbn [negb try_except fst]; [|discriminate].
  pose proof (splitext_append (lower p)) as Happ.
  destruct (splitext (lower p)) as [root ext]. cbn [fst snd] in *.
  destruct (bool_decide_reflect (ext ∈ supported_extensions)) as [Hext|];
    cbn [negb try_except fst]; [|discriminate].
  destruct (path_getsize fs p) as [size|e];
    cbn [mbind result_bind try_except fst]; [|discriminate].
  destruct (open_rb fs p); cbn [try_except fst]; try discriminate.
  intros _. repeat split; [by eexists|exact Hext|].
  rewrite <- Happ at 1. apply endswith_append.
Qed.

Lemma validate_file_path_accepted_witness :
  path_exists (single_file "/data/Budget.XLSX" 1024 (Raise "unreadable"))
    "/data/Budget.XLSX" = true
  /\ path_isfile (single_file "/data/Budget.XLSX" 1024 (Raise "unreadable"))
       "/data/Budget.XLSX" = true
  /\ (exists size,
        path_getsize (single_file "/data/Budget.XLSX" 1024 (Raise "unreadable"))
          "/data/Budget.XLSX" = Ok size)
  /\ open_rb (single_file "/data/Budget.XLSX" 1024 (Raise "unreadable"))
       "/data/Budget.XLSX" = Opened
  /\ snd (splitext (lower "/data/Budget.XLSX")) ∈ supported_extensions
  /\ endswith (lower "/data/Budget.XLSX")
       (snd (splitext (lower "/data/Budget.XLSX"))) = true.
Proof.
  apply (validate_file_path_accepted
           (single_file "/data/Budget.XLSX" 1024 (Raise "unreadable"))
           "/data/Budget.XLSX").
  reflexivity.
Defined.

(** ** [os.path.splitext] on a name with an extension *)

Lemma rfind_app_some c s t i :
  rfind c t = Some i -> rfind c (s +:+ t) = Some (String.length s + i)%nat.
Proof.
  intros Ht. induction s as [|a r IH]; [exact Ht|].
  rewrite append_cons. cbn [rfind String.length]. by rewrite IH.
Qed.

Lemma rfind_app_none c s t :
  rfind c t = None -> rfind c (s +:+ t) = rfind c s.
Proof.
  intros Ht. induction s as [|a r IH]; [exact Ht|].
  rewrite append_cons. cbn [rfind]. by rewrite IH.
Qed.

Lemma rfind_lt c s i : rfind c s = Some i -> (i < String.length s)%nat.
Proof.
  revert i. induction s as [|a r IH]; intros i; cbn [rfind String.length];
    [discriminate|].
  destruct (rfind c r) as [j|].
  - intros [= <-]. specialize (IH j eq_refl). lia.
  - destruct (Ascii.eqb a c); [|discriminate]. intros [= <-]. lia.
Qed.

Lemma all_chars_substring (P : ascii -> bool) c t : forall s k,
  P c = false -> (k <= String.length s)%nat ->
  all_chars P
    (String.substring k (String.length s + 1 - k) (s +:+ String c t)) = false.
Proof.
  induction s as [|a r IH]; intros k Hc Hk.
  - cbn [String.length] in Hk. replace k with 0%nat by lia.
    change (all_chars P (String c (String.substring 0 0 t)) = false).
    cbn [all_chars]. by rewrite Hc.
  - rewrite append_cons. cbn [String.length] in *.
    destruct k as [|k].
    + replace (S (String.length r) + 1 - 0)%nat
        with (S (String.length r + 1 - 0)) by lia.
      cbn [String.substring all_chars].
      rewrite (IH 0%nat Hc) by lia. apply andb_false_r.
    + replace (S (String.length r) + 1 - S k)%nat
        with (String.length r + 1 - k)%nat by lia.
      cbn [String.substring]. apply IH; [exact Hc|lia].
Qed.

Lemma substring_prefix s t :
  String.substring 0 (String.length s) (s +:+ t) = s.
Proof.
  induction s as [|a r IH]; [by destruct t|].
  rewrite append_cons. cbn [String.length String.substring]. by rewrite IH.
Qed.

Lemma append_assoc (s t u : string) : (s +:+ t) +:+ u = s +:+ (t +:+ u).
Proof.
  induction s as [|a r IH]; [reflexivity|]. by rewrite !append_cons, IH.
Qed.

(** A supported extension that follows a character other than a dot and a
    slash is what [splitext] splits off. *)
Lemma splitext_supported x c e :
  c <> "."%char -> c <> "/"%char -> e ∈ supported_extensions ->
  splitext (x +:+ String c e) = (x +:+ String c EmptyString, e).
Proof.
  intros Hdot Hsep He.
  apply Ascii.eqb_neq in Hdot, Hsep.
  assert (Hrdot : rfind "." (String c e) = Some 1%nat).
  { cbn [rfind]. rewrite Hdot.
    unfold supported_extensions in He.
    repeat (apply elem_of_cons in He as [->|He]; [reflexivity|]).
    by apply elem_of_nil in He. }
  assert (Hrsep : rfind "/" (String c e) = None).
  { cbn [rfind]. rewrite Hsep.
    unfold supported_extensions in He.
    repeat (apply elem_of_cons in He as [->|He]; [reflexivity|]).
    by apply elem_of_nil in He. }
  unfold splitext.
  rewrite (rfind_app_some _ x _ _ Hrdot), (rfind_app_none _ x _ Hrsep).
  assert (Hstart :
    (match rfind "/" x with Some sepIndex => S sepIndex | None => 0 end
     <= String.length x)%nat).
  { destruct (rfind "/" x) as [i|] eqn:Hi; [|lia]. apply rfind_lt in Hi. lia. }
  set (filenameIndex :=
         match rfind "/" x with Some sepIndex => S sepIndex | None => 0%nat end)
    in *.
  replace (filenameIndex <=? String.length x + 1)%nat with true
    by (symmetry; apply Nat.leb_le; lia).
  rewrite (all_chars_substring _ c e x filenameIndex) by (exact Hdot || exact Hstart).
  cbn [andb negb].
  assert (Hsplit : x +:+ String c e = (x +:+ String c EmptyString) +:+ e)
    by (by rewrite append_assoc).
  assert (Hlen : String.length (x +:+ String c EmptyString)
                 = (String.length x + 1)%nat)
    by (rewrite length_append; reflexivity).
  rewrite Hsplit. rewrite <- Hlen.
  generalize (x +:+ String c EmptyString). intros stem.
  rewrite substring_prefix. f_equal.
  rewrite length_append.
  replace (String.length stem + String.length e - String.length stem)%nat
    with (String.length e) by lia.
  apply substring_append.
Qed.

(** ** [validate_file_path]: what is accepted *)

(** A readable regular file whose name, lower-cased, ends in a supported
    extension after a character other than a dot and a slash is accepted,
    in whatever directory it lies and in whatever case the name is
    written. *)
Theorem validate_file_path_accepts fs p x c e size :
  lower p = x +:+ String c e ->
  c <> "."%char -> c <> "/"%char -> e ∈ supported_extensions ->
  path_exists fs p = true ->
  path_isfile fs p = true ->
  path_getsize fs p = Ok size ->
  open_rb fs p = Opened ->
  validate_file_path fs p = (true, EmptyString).
Proof.
  intros Hp Hdot Hsep He Hexists Hisfile Hsize Hopen.
  unfold validate_file_path.
  rewrite Hexists, Hisfile, Hp, (splitext_supported x c e Hdot Hsep He).
  cbn [negb]. rewrite (bool_decide_eq_true_2 _ He). cbn [negb].
  rewrite Hsize, Hopen. reflexivity.
Qed.

Lemma validate_file_path_accepts_witness :
  validate_file_path
    (single_file "/data/Q1.reports/Budget.XLSM" 1024 (Raise "unreadable"))
    "/data/Q1.reports/Budget.XLSM"
  = (true, EmptyString).
Proof.
  apply (validate_file_path_accepts
           (single_file "/data/Q1.reports/Budget.XLSM" 1024 (Raise "unreadable"))
           "/data/Q1.reports/Budget.XLSM" "/data/q1.reports/budge" "t" ".xlsm"
           1024);
    try reflexivity; try discriminate.
  apply (bool_decide_unpack _). reflexivity.
Defined.

(** ** [load_excel_file] *)

(** The three outcomes of a load. *)
Lemma load_excel_file_cases fs self p :
  load_excel_file fs self p
  = if fst (validate_file_path fs p) then
      match open_workbook fs p with
      | None => (false, set_file_path fs self p)
      | Some wb =>
          (is_nonempty (sheetnames wb),
           set_workbook (set_file_path fs self p) wb)
      end
    else (false, self).
Proof.
  unfold load_excel_file.
  destruct (validate_file_path fs p) as [[] msg]; cbn [negb fst];
    [|reflexivity].
  destruct (open_workbook fs p) as [wb|]; [|reflexivity].
  by destruct (sheetnames wb).
Qed.

(** A loaded checker produces a report. *)
Lemma loaded_report fs self p now :
  fst (load_excel_file fs self p) = true ->
  exists a,
    fst (generate_comprehensive_report (snd (load_excel_file fs self p)) now)
    = Ok a.
Proof.
  rewrite load_excel_file_cases.
  destruct (fst (validate_file_path fs p)); [|discriminate].
  destruct (open_workbook fs p) as [wb|]; [|discriminate].
  cbn [fst snd]. intros _.
  destruct (report_fields (set_workbook (set_file_path fs self p) wb) now wb
              eq_refl) as (a & Ha & _).
  by exists a.
Qed.

(** A successful load leaves a workbook with at least one sheet under the
    given path; the results of earlier analyses stay where they were. *)
Theorem load_excel_file_success fs self p :
  fst (load_excel_file fs self p) = true ->
  fst (validate_file_path fs p) = true
  /\ exists wb,
       open_workbook fs p = Some wb
       /\ sheetnames wb <> []
       /\ workbook (snd (load_excel_file fs self p)) = Some wb
       /\ file_path (snd (load_excel_file fs self p)) = Some p
       /\ analysis_results (snd (load_excel_file fs self p))
          = analysis_results self.
Proof.
  unfold load_excel_file.
  destruct (validate_file_path fs p) as [[] msg]; cbn [negb fst snd];
    [|discriminate].
  destruct (open_workbook fs p) as [wb|]; cbn [fst snd]; [|discriminate].
  destruct (sheetnames wb) as [|name names] eqn:Hnames;
    cbn [is_nonempty negb fst snd]; [discriminate|].
  intros _. split; [reflexivity|]. exists wb. rewrite Hnames.
  repeat split. discriminate.
Qed.

Lemma load_excel_file_success_witness :
  fst (validate_file_path
         (single_file "book.xlsx" 1024 (Ok (plain_workbook ["Sheet1"])))
         "book.xlsx") = true
  /\ exists wb,
       open_workbook
         (single_file "book.xlsx" 1024 (Ok (plain_workbook ["Sheet1"])))
         "book.xlsx" = Some wb
       /\ sheetnames wb <> []
       /\ workbook
            (snd (load_excel_file
                    (single_file "book.xlsx" 1024
                       (Ok (plain_workbook ["Sheet1"])))
                    new_checker "book.xlsx")) = Some wb
       /\ file_path
            (snd (load_excel_file
                    (single_file "book.xlsx" 1024
                       (Ok (plain_workbook ["Sheet1"])))
                    new_checker "book.xlsx")) = Some "book.xlsx"
       /\ analysis_results
            (snd (load_excel_file
                    (single_file "book.xlsx" 1024
                       (Ok (plain_workbook ["Sheet1"])))
                    new_checker "book.xlsx"))
          = analysis_results new_checker.
Proof.
  apply (load_excel_file_success
           (single_file "book.xlsx" 1024 (Ok (plain_workbook ["Sheet1"])))
           new_checker "book.xlsx").
  reflexivity.
Defined.

(** A failed load: a path that fails validation leaves the checker as it
    was. When a validated file cannot be opened in either mode, or opens
    without sheets, the checker has changed all the same: it holds the new
    path, with the workbook of the earlier load in the first case and the
    empty workbook in the second. *)
Theorem load_excel_file_failure fs self p :
  fst (load_excel_file fs self p) = false ->
  if fst (validate_file_path fs p) then
    file_path (snd (load_excel_file fs self p)) = Some p
    /\ analysis_results (snd (load_excel_file fs self p))
       = analysis_results self
    /\ match open_workbook fs p with
       | None => workbook (snd (load_excel_file fs self p)) = workbook self
       | Some wb =>
           sheetnames wb = []
           /\ workbook (snd (load_excel_file fs self p)) = Some wb
       end
  else snd (load_excel_file fs self p) = self.
Proof.
  rewrite load_excel_file_cases.
  destruct (fst (validate_file_path fs p)); [|done].
  destruct (open_workbook fs p) as [wb|]; cbn [fst snd]; [|done].
  destruct (sheetnames wb); cbn [is_nonempty]; [done|discriminate].
Qed.

Lemma load_excel_file_failure_witness :
  if fst (validate_file_path
            (single_file "new.xlsx" 1024 (Raise "unreadable")) "new.xlsx")
  then
    file_path
      (snd (load_excel_file (single_file "new.xlsx" 1024 (Raise "unreadable"))
              (plain_checker ["Sheet1"]) "new.xlsx")) = Some "new.xlsx"
    /\ analysis_results
         (snd (load_excel_file
                 (single_file "new.xlsx" 1024 (Raise "unreadable"))
                 (plain_checker ["Sheet1"]) "new.xlsx"))
       = analysis_results (plain_checker ["Sheet1"])
    /\ match open_workbook (single_file "new.xlsx" 1024 (Raise "unreadable"))
               "new.xlsx" with
       | None =>
           workbook
             (snd (load_excel_file
                     (single_file "new.xlsx" 1024 (Raise "unreadable"))
                     (plain_checker ["Sheet1"]) "new.xlsx"))
           = workbook (plain_checker ["Sheet1"])
       | Some wb =>
           sheetnames wb = []
           /\ workbook
                (snd (load_excel_file
                        (single_file "new.xlsx" 1024 (Raise "unreadable"))
                        (plain_checker ["Sheet1"]) "new.xlsx")) = Some wb
       end
  else
    snd (load_excel_file (single_file "new.xlsx" 1024 (Raise "unreadable"))
           (plain_checker ["Sheet1"]) "new.xlsx")
    = plain_checker ["Sheet1"].
Proof.
  apply (load_excel_file_failure
           (single_file "new.xlsx" 1024 (Raise "unreadable"))
           (plain_checker ["Sheet1"]) "new.xlsx").
  reflexivity.
Defined.

(** ** [ExcelAutomationBot.analyze_file] *)

(** The bot returns an assessment exactly when the file loads; the
    assessment is the report of the loaded checker and is kept as
    [last_assessment]. When the load fails, the assessment kept from an
    earlier file is still there. *)
Theorem analyze_file_result fs bot p now :
  if fst (load_excel_file fs (checker bot) p) then
    exists a,
      fst (generate_comprehensive_report
             (snd (load_excel_file fs (checker bot) p)) now) = Ok a
      /\ fst (analyze_file fs bot p now) = Some a
      /\ last_assessment (snd (analyze_file fs bot p now)) = Some a
  else
    fst (analyze_file fs bot p now) = None
    /\ last_assessment (snd (analyze_file fs bot p now)) = last_assessment bot.
Proof.
  destruct (fst (load_excel_file fs (checker bot) p)) eqn:Hload.
  - destruct (loaded_report fs (checker bot) p now Hload) as [a Ha].
    exists a. split; [exact Ha|].
    unfold analyze_file.
    destruct (load_excel_file fs (checker bot) p) as [loaded checker'].
    cbn [fst snd] in *. subst loaded. cbn [negb].
    destruct (generate_comprehensive_report checker' now) as [r checker''].
    cbn [fst] in Ha. subst r. by split.
  - unfold analyze_file.
    destruct (load_excel_file fs (checker bot) p) as [loaded checker'].
    cbn [fst] in Hload. subst loaded. by split.
Qed.

(** ** [analyze_single_file] *)

(** The programmatic entry point returns an assessment exactly when the
    libraries are there, the path passes validation and one of the two
    loading modes gives a workbook with at least one sheet. *)
Theorem analyze_single_file_returns fs requirements_met p now :
  is_Some (analyze_single_file fs requirements_met p now)
  <-> requirements_met = true
      /\ fst (validate_file_path fs p) = true
      /\ exists wb, open_workbook fs p = Some wb /\ sheetnames wb <> [].
Proof.
  unfold analyze_single_file, analyze_file. cbn [checker new_bot].
  pose proof (loaded_report fs new_checker p now) as Hreport.
  rewrite load_excel_file_cases in *.
  destruct requirements_met; cbn [negb];
    [|split; [intros [? [=]]|intros [[=] _]]].
  destruct (fst (validate_file_path fs p));
    [|split; [intros [? [=]]|intros (_ & [=] & _)]].
  destruct (open_workbook fs p) as [wb|];
    [|split; [intros [? [=]]|intros (_ & _ & ? & [=] & _)]].
  destruct (sheetnames wb) as [|name names] eqn:Hnames; cbn [is_nonempty negb].
  - split; [intros [? [=]]|intros (_ & _ & ? & [= <-] & Hne)]. congruence.
  - cbn [fst snd] in Hreport. destruct (Hreport eq_refl) as [a Ha].
    destruct (generate_comprehensive_report _ now) as [r checker''].
    cbn [fst] in Ha. subst r. cbn [fst]. split; [|by eexists].
    intros _. repeat split. exists wb. split; [reflexivity|]. congruence.
Qed.


(** ** The order of the floats *)

Lemma SFleb_trans x y z :
  SFleb x y = true -> SFleb y z = true -> SFleb x z = true.
Proof.
  unfold SFleb, SFcompare.
  destruct x as [sx|sx| |sx mx ex], y as [sy|sy| |sy my ey],
    z as [sz|sz| |sz mz ez];
    try destruct sx; try destruct sy; try destruct sz;
    try discriminate; try reflexivity;
    change (Pos.compare_cont Eq ?a ?b) with (a ?= b)%positive;
    destruct (Z.compare_spec ex ey), (Z.compare_spec ey ez),
      (Z.compare_spec ex ez);
    try discriminate; try reflexivity; try lia; subst;
    destruct (Pos.compare_spec mx my), (Pos.compare_spec my mz),
      (Pos.compare_spec mx mz);
    cbn [CompOpp]; try discriminate; try reflexivity; lia.
Qed.

Lemma float_leb_trans (x y z : float) :
  (x <=? y)%float = true -> (y <=? z)%float = true -> (x <=? z)%float = true.
Proof. rewrite !leb_spec. apply SFleb_trans. Qed.

(** The thresholds of [feasibility], [level_mark] and [next_steps], from the
    highest down. *)
Lemma thresholds_chain (x : float) :
  ((80 <=? x)%float = true -> (70 <=? x)%float = true)
  /\ ((70 <=? x)%float = true -> (65 <=? x)%float = true)
  /\ ((65 <=? x)%float = true -> (50 <=? x)%float = true)
  /\ ((50 <=? x)%float = true -> (35 <=? x)%float = true)
  /\ ((35 <=? x)%float = true -> (30 <=? x)%float = true).
Proof.
  repeat split; apply float_leb_trans; reflexivity.
Qed.

(** ** [generate_comprehensive_report]: the feasibility bands *)

(** A higher score never gives a lower level: the level of [y] comes no
    later in the list of levels than the level of [x]. *)
Theorem feasibility_monotone (x y : float) :
  (x <=? y)%float = true ->
  (level_rank (feasibility y) <= level_rank (feasibility x))%nat.
Proof.
  intros Hxy. unfold feasibility.
  pose proof (fun t => float_leb_trans t x y) as Ht.
  destruct (80 <=? x)%float eqn:H80.
  { rewrite (Ht 80%float H80 Hxy). vm_compute. lia. }
  destruct (65 <=? x)%float eqn:H65.
  { rewrite (Ht 65%float H65 Hxy). destruct (80 <=? y)%float; vm_compute; lia. }
  destruct (50 <=? x)%float eqn:H50.
  { rewrite (Ht 50%float H50 Hxy).
    destruct (80 <=? y)%float, (65 <=? y)%float; vm_compute; lia. }
  destruct (35 <=? x)%float eqn:H35.
  { rewrite (Ht 35%float H35 Hxy).
    destruct (80 <=? y)%float, (65 <=? y)%float, (50 <=? y)%float;
      vm_compute; lia. }
  destruct (80 <=? y)%float, (65 <=? y)%float, (50 <=? y)%float,
    (35 <=? y)%float; vm_compute; lia.
Qed.

Lemma feasibility_monotone_witness :
  (level_rank (feasibility 82.5) <= level_rank (feasibility 49.9))%nat.
Proof. apply (feasibility_monotone 49.9 82.5). reflexivity. Defined.

(** The level of a report is the level of the rounded score it shows. *)
Lemma report_level_of_rounded self now wb :
  workbook self = Some wb ->
  exists a,
    fst (generate_comprehensive_report self now) = Ok a
    /\ feasibility (overall_score a) = (feasibility_level a, estimated_effort a).
Proof.
  intros Hwb.
  destruct (report_on_grid self now wb Hwb)
    as (a & d & Ha & _ & _ & Hgrid & Ho & Hf & _).
  exists a. split; [exact Ha|].
  destruct (score_row _ _ _ _ Hgrid (penalty_of_count _ (len_nonneg (red_flags a))))
    as (_ & Hband & _).
  rewrite Ho, Hf. by apply same_band_feasibility.
Qed.

(** ** [_display_results] *)

Ltac level_cases :=
  repeat match goal with |- _ /\ _ => split end;
  intros [=]; repeat split; auto.

(** What is printed agrees with the level of the report: the mark is the
    green one exactly for HIGH and the red one for LOW-MEDIUM and LOW; HIGH
    is told to proceed, MEDIUM to proceed with preparation, LOW-MEDIUM to
    restructure, and LOW is never told to proceed. *)
Theorem display_matches_level self now wb :
  workbook self = Some wb ->
  exists a,
    fst (generate_comprehensive_report self now) = Ok a
    /\ (feasibility_level a = "HIGH - Excellent automation candidate" ->
        level_mark (overall_score a) = "Feasibility Level: ✅ "
        /\ next_steps (overall_score a) = "✅ PROCEED WITH AUTOMATION:")
    /\ (feasibility_level a = "MEDIUM-HIGH - Very good automation potential" ->
        level_mark (overall_score a) = "Feasibility Level: ⚠️  "
        /\ (next_steps (overall_score a) = "✅ PROCEED WITH AUTOMATION:"
            \/ next_steps (overall_score a) = "⚠️  PROCEED WITH PREPARATION:"))
    /\ (feasibility_level a
        = "MEDIUM - Good automation potential with preparation" ->
        level_mark (overall_score a) = "Feasibility Level: ⚠️  "
        /\ next_steps (overall_score a) = "⚠️  PROCEED WITH PREPARATION:")
    /\ (feasibility_level a
        = "LOW-MEDIUM - Possible but requires significant restructuring" ->
        level_mark (overall_score a) = "Feasibility Level: ❌ "
        /\ next_steps (overall_score a) = "🔄 RESTRUCTURE BEFORE AUTOMATION:")
    /\ (feasibility_level a
        = "LOW - Not recommended for automation in current state" ->
        level_mark (overall_score a) = "Feasibility Level: ❌ "
        /\ (next_steps (overall_score a) = "🔄 RESTRUCTURE BEFORE AUTOMATION:"
            \/ next_steps (overall_score a) = "❌ AUTOMATION NOT RECOMMENDED:")).
Proof.
  intros Hwb.
  destruct (report_level_of_rounded self now wb Hwb) as (a & Ha & Hf).
  exists a. split; [exact Ha|].
  destruct (thresholds_chain (overall_score a)) as (H87 & H76 & H65 & H53 & H33).
  unfold feasibility in Hf. unfold level_mark, next_steps.
  destruct (80 <=? overall_score a)%float.
  { rewrite H87 by reflexivity. injection Hf as <- _.
    level_cases. }
  destruct (65 <=? overall_score a)%float.
  { rewrite H65 by reflexivity. injection Hf as <- _.
    destruct (70 <=? overall_score a)%float; level_cases. }
  destruct (50 <=? overall_score a)%float.
  { injection Hf as <- _.
    destruct (70 <=? overall_score a)%float; [discriminate (H76 eq_refl)|].
    level_cases. }
  destruct (35 <=? overall_score a)%float.
  { rewrite H33 by reflexivity. injection Hf as <- _.
    destruct (70 <=? overall_score a)%float; [discriminate (H76 eq_refl)|].
    level_cases. }
  injection Hf as <- _.
  destruct (70 <=? overall_score a)%float; [discriminate (H76 eq_refl)|].
  destruct (30 <=? overall_score a)%float; level_cases.
Qed.

Lemma display_matches_level_witness :
  exists a,
    fst (generate_comprehensive_report (plain_checker ["Sheet1"])
           "2025-01-01 00:00:00") = Ok a
    /\ (feasibility_level a = "HIGH - Excellent automation candidate" ->
        level_mark (overall_score a) = "Feasibility Level: ✅ "
        /\ next_steps (overall_score a) = "✅ PROCEED WITH AUTOMATION:")
    /\ (feasibility_level a = "MEDIUM-HIGH - Very good automation potential" ->
        level_mark (overall_score a) = "Feasibility Level: ⚠️  "
        /\ (next_steps (overall_score a) = "✅ PROCEED WITH AUTOMATION:"
            \/ next_steps (overall_score a) = "⚠️  PROCEED WITH PREPARATION:"))
    /\ (feasibility_level a
        = "MEDIUM - Good automation potential with preparation" ->
        level_mark (overall_score a) = "Feasibility Level: ⚠️  "
        /\ next_steps (overall_score a) = "⚠️  PROCEED WITH PREPARATION:")
    /\ (feasibility_level a
        = "LOW-MEDIUM - Possible but requires significant restructuring" ->
        level_mark (overall_score a) = "Feasibility Level: ❌ "
        /\ next_steps (overall_score a) = "🔄 RESTRUCTURE BEFORE AUTOMATION:")
    /\ (feasibility_level a
        = "LOW - Not recommended for automation in current state" ->
        level_mark (overall_score a) = "Feasibility Level: ❌ "
        /\ (next_steps (overall_score a) = "🔄 RESTRUCTURE BEFORE AUTOMATION:"
            \/ next_steps (overall_score a) = "❌ AUTOMATION NOT RECOMMENDED:")).
Proof.
  apply (display_matches_level (plain_checker ["Sheet1"]) "2025-01-01 00:00:00"
           (plain_workbook ["Sheet1"])).
  reflexivity.
Defined.

(** ** [analyze_sheet_data] *)

Lemma len_snoc {A} (l : list A) (x : A) : len (l ++ [x]) = len l + 1.
Proof. unfold len. rewrite length_app. cbn [length]. lia. Qed.

Lemma substring_length n : forall s,
  (String.length (String.substring 0 n s) <= n)%nat.
Proof.
  induction n as [|n IH]; intros [|c r]; cbn [String.substring String.length];
    try lia.
  specialize (IH r). lia.
Qed.

Lemma take_str_startswith n s p :
  startswith s (String p EmptyString) = true ->
  startswith (take_str (S n) s) (String p EmptyString) = true.
Proof.
  unfold startswith, take_str. destruct s as [|c r]; [discriminate|].
  cbn [String.substring String.prefix].
  destruct (ascii_dec p c); [|discriminate]. intros _.
  by destruct (String.substring 0 n r).
Qed.

Lemma scan_cell_invariant i j c st :
  scan_invariant st -> scan_invariant (scan_cell i j c st).
Proof.
  intros (Hlen & Hle & Hall). unfold scan_cell.
  destruct c as [cell|e]; [|by destruct (_ <? 5)].
  destruct (cell_value cell) as [v|]; [|done].
  cbv zeta. unfold scan_invariant.
  cbn [formulas formula_count used_cell_count].
  destruct (startswith v "=") eqn:Hv.
  - rewrite len_snoc, Hlen. split; [reflexivity|]. split; [lia|].
    apply Forall_app. split; [exact Hall|].
    constructor; [|constructor]. split.
    + by apply take_str_startswith.
    + apply substring_length.
  - split; [exact Hlen|]. split; [lia|exact Hall].
Qed.

Lemma scan_row_invariant i cells : forall j st,
  scan_invariant st -> scan_invariant (scan_row i j cells st).
Proof.
  induction cells as [|c rest IH]; intros j st Hst; [exact Hst|].
  cbn [scan_row]. apply IH. by apply scan_cell_invariant.
Qed.

Lemma scan_rows_invariant rows : forall i st,
  scan_invariant st -> scan_invariant (scan_rows i rows st).
Proof.
  induction rows as [|row rest IH]; intros i st Hst; [exact Hst|].
  destruct row as [cells|e]; cbn [scan_rows]; [|exact Hst].
  apply IH. by apply scan_row_invariant.
Qed.

(** Cell errors are recorded only while fewer than five errors are on the
    list; a failure of the row iterator adds one more. *)
Lemma scan_cell_errors i j c st :
  len (scan_errors (scan_cell i j c st)) <= Z.max 5 (len (scan_errors st)).
Proof.
  unfold scan_cell. destruct c as [cell|e].
  - destruct (cell_value cell); cbn [scan_errors]; lia.
  - destruct (Z.ltb_spec (len (scan_errors st)) 5); cbn [scan_errors];
      [rewrite len_snoc|]; lia.
Qed.

Lemma scan_row_errors i cells : forall j st,
  len (scan_errors (scan_row i j cells st)) <= Z.max 5 (len (scan_errors st)).
Proof.
  induction cells as [|c rest IH]; intros j st; cbn [scan_row]; [lia|].
  specialize (IH (j + 1) (scan_cell i j c st)).
  pose proof (scan_cell_errors i j c st). lia.
Qed.

Lemma scan_rows_errors rows : forall i st,
  len (scan_errors (scan_rows i rows st))
  <= Z.max 5 (len (scan_errors st)) + 1.
Proof.
  induction rows as [|row rest IH]; intros i st; cbn [scan_rows]; [lia|].
  destruct row as [cells|e].
  - specialize (IH (i + 1) (scan_row i 1 cells st)).
    pose proof (scan_row_errors i cells 1 st). lia.
  - cbn [scan_errors]. rewrite len_snoc. lia.
Qed.

(** The header loop stops at 20 headers, each cut to 50 characters. *)
Lemma header_loop_bounded cells : forall acc hs,
  header_loop cells acc = Ok hs ->
  len acc < 20 ->
  List.Forall (fun h => (String.length h <= 50)%nat) acc ->
  len hs <= 20 /\ List.Forall (fun h => (String.length h <= 50)%nat) hs.
Proof.
  induction cells as [|c rest IH]; intros acc hs; cbn [header_loop].
  - intros [= <-] Hlen Hall. split; [lia|exact Hall].
  - destruct c as [cell|e]; cbn [mbind result_bind]; [|discriminate].
    destruct (cell_value cell) as [v|].
    + destruct (Z.leb_spec 20 (len (acc ++ [take_str 50 v]))) as [Hfull|Hroom].
      * intros [= <-] Hlen Hall. rewrite len_snoc in *. split; [lia|].
        apply Forall_app. split; [exact Hall|].
        constructor; [apply substring_length|constructor].
      * intros Hloop Hlen Hall. apply (IH _ _ Hloop Hroom).
        apply Forall_app. split; [exact Hall|].
        constructor; [apply substring_length|constructor].
    + destruct (Z.leb_spec 20 (len acc)); [lia|]. apply IH.
Qed.

(** The entries of a sheet analysis that got past the dimensions. *)
Lemma analyze_sheet_data_main self wb name sheet r c :
  workbook self = Some wb ->
  getitem wb name = Some sheet ->
  max_row sheet = Ok r ->
  max_column sheet = Ok c ->
  exists errors0 errors1 hs,
    let st :=
      scan_rows 1
        (iter_rows sheet (Z.min (default 0 r) (max_rows_to_analyze self)))
        {| used_cell_count := 0; formula_count := 0;
           data_validation_count := 0; formulas := [];
           formula_types := ∅; scan_errors := errors0 |} in
    len errors0 <= 2
    /\ sh_formulas (analyze_sheet_data self name) = Some (formulas st)
    /\ sh_formula_cells (analyze_sheet_data self name) = Some (formula_count st)
    /\ sh_used_cells (analyze_sheet_data self name) = Some (used_cell_count st)
    /\ sh_analysis_errors (analyze_sheet_data self name) = Some errors1
    /\ len errors1 <= len (scan_errors st) + 2
    /\ sh_headers_detected (analyze_sheet_data self name) = Some hs
    /\ (hs = []
        \/ exists cells, first_row sheet = Ok cells /\ header_loop cells [] = Ok hs).
Proof.
  intros Hwb Hget Hr Hc.
  unfold analyze_sheet_data. rewrite Hwb, Hget, Hr, Hc.
  cbv [mbind result_bind]. cbv beta iota.
  destruct (match merged_cells sheet with Some _ => _ | None => _ end)
    as [merged e1] eqn:Hmerged.
  assert (He1 : len e1 <= 1).
  { destruct (merged_cells sheet) as [[n|e]|]; injection Hmerged as <- <-;
      vm_compute; discriminate. }
  destruct (match protection sheet with Some _ => _ | None => _ end)
    as [protected e2] eqn:Hprot.
  assert (He2 : len e2 <= 2).
  { destruct (protection sheet) as [[b|e]|]; injection Hprot as <- <-;
      rewrite ?len_snoc; lia. }
  exists e2.
  set (st := scan_rows _ _ _).
  destruct (match tables sheet with Some _ => _ | None => _ end)
    as [has_tables e3] eqn:Htables.
  assert (He3 : len e3 <= len (scan_errors st) + 1).
  { destruct (tables sheet) as [[n|e]|]; injection Htables as <- <-;
      rewrite ?len_snoc; lia. }
  destruct (if 0 <? default 0 r then _ else _) as [headers e4] eqn:Hheaders.
  exists e4, headers.
  cbn [sh_sheet_name sh_dimensions sh_total_cells sh_used_cells
       sh_formula_cells sh_merged_cells sh_has_tables sh_has_data_validation
       sh_data_consistency_score sh_formulas sh_formula_types
       sh_headers_detected sh_analysis_errors sh_sheet_protection].
  repeat split; try exact He2.
  - destruct (0 <? default 0 r); [|injection Hheaders as <- <-; lia].
    destruct (first_row sheet) as [cells|e];
      [destruct (header_loop cells [])|]; injection Hheaders as <- <-;
      rewrite ?len_snoc; lia.
  - destruct (0 <? default 0 r); [|injection Hheaders as <- <-; by left].
    destruct (first_row sheet) as [cells|e];
      [destruct (header_loop cells []) eqn:Hloop|];
      injection Hheaders as <- <-; [right; by exists cells|by left..].
Qed.

(** The outcomes of [analyze_sheet_data] that stop before the scan. *)
Lemma analyze_sheet_data_cases self name :
  analyze_sheet_data self name = empty_sheet_dict
  \/ (exists e,
        analyze_sheet_data self name
        = {| sh_sheet_name := Some name;
             sh_dimensions := Some (0, 0);
             sh_total_cells := Some 0;
             sh_used_cells := Some 0;
             sh_formula_cells := Some 0;
             sh_merged_cells := Some 0;
             sh_has_tables := Some false;
             sh_has_data_validation := Some false;
             sh_data_consistency_score := Some 0;
             sh_formulas := Some [];
             sh_formula_types := Some ∅;
             sh_headers_detected := Some [];
             sh_analysis_errors := Some ["Dimension analysis failed: " +:+ e];
             sh_sheet_protection := Some false |})
  \/ (exists wb sheet r c,
        workbook self = Some wb /\ getitem wb name = Some sheet
        /\ max_row sheet = Ok r /\ max_column sheet = Ok c).
Proof.
  unfold analyze_sheet_data.
  destruct (workbook self) as [wb|] eqn:Hwb; [|by left].
  destruct (getitem wb name) as [sheet|] eqn:Hget; [|by left].
  destruct (max_row sheet) as [r|e] eqn:Hr; [|right; left; by exists e].
  destruct (max_column sheet) as [c|e] eqn:Hc; [|right; left; by exists e].
  right; right. by exists wb, sheet, r, c.
Qed.

(** In every sheet analysis the stored formulas are exactly the counted
    formula cells, none of them longer than 100 characters and each starting
    with the equals sign, and the formula cells are among the used cells. *)
Theorem analyze_sheet_data_formulas self name :
  len (default [] (sh_formulas (analyze_sheet_data self name)))
  = default 0 (sh_formula_cells (analyze_sheet_data self name))
  /\ 0 <= default 0 (sh_formula_cells (analyze_sheet_data self name))
       <= default 0 (sh_used_cells (analyze_sheet_data self name))
  /\ List.Forall
       (fun f => startswith f "=" = true /\ (String.length f <= 100)%nat)
       (default [] (sh_formulas (analyze_sheet_data self name))).
Proof.
  destruct (analyze_sheet_data_cases self name)
    as [->|[[e ->]|(wb & sheet & r & c & Hwb & Hget & Hr & Hc)]];
    [split; [reflexivity|split; [cbv; split; discriminate|constructor]]..|].
  destruct (analyze_sheet_data_main self wb name sheet r c Hwb Hget Hr Hc)
    as (errors0 & errors1 & hs & _ & -> & -> & -> & _).
  cbn [default]. apply scan_rows_invariant. by repeat split.
Qed.

(** However many cells fail, a sheet analysis records at most eight
    errors. *)
Theorem analyze_sheet_data_errors self name :
  len (default [] (sh_analysis_errors (analyze_sheet_data self name))) <= 8.
Proof.
  destruct (analyze_sheet_data_cases self name)
    as [->|[[e ->]|(wb & sheet & r & c & Hwb & Hget & Hr & Hc)]];
    [by vm_compute..|].
  destruct (analyze_sheet_data_main self wb name sheet r c Hwb Hget Hr Hc)
    as (errors0 & errors1 & hs & H0 & _ & _ & _ & -> & H1 & _).
  cbn [default].
  pose proof (scan_rows_errors
                (iter_rows sheet (Z.min (default 0 r) (max_rows_to_analyze self)))
                1 {| used_cell_count := 0; formula_count := 0;
                     data_validation_count := 0; formulas := [];
                     formula_types := ∅; scan_errors := errors0 |}) as Hscan.
  change (len (scan_errors {| used_cell_count := 0; formula_count := 0;
                             data_validation_count := 0; formulas := [];
                             formula_types := ∅; scan_errors := errors0 |}))
    with (len errors0) in Hscan.
  unfold id. lia.
Qed.

(** A sheet analysis lists at most 20 headers, each of at most 50
    characters. *)
Theorem analyze_sheet_data_headers self name :
  len (default [] (sh_headers_detected (analyze_sheet_data self name))) <= 20
  /\ List.Forall (fun h => (String.length h <= 50)%nat)
       (default [] (sh_headers_detected (analyze_sheet_data self name))).
Proof.
  destruct (analyze_sheet_data_cases self name)
    as [->|[[e ->]|(wb & sheet & r & c & Hwb & Hget & Hr & Hc)]];
    [by split; [vm_compute|constructor]..|].
  destruct (analyze_sheet_data_main self wb name sheet r c Hwb Hget Hr Hc)
    as (errors0 & errors1 & hs & _ & _ & _ & _ & _ & _ & -> & Hhs).
  cbn [default]. unfold id.
  destruct Hhs as [->|(cells & _ & Hloop)]; [by split; [vm_compute|constructor]|].
  apply (header_loop_bounded cells [] hs Hloop); [by vm_compute|constructor].
Qed.

(** ** [_calculate_consistency_score] *)

(** The penalties never bring the score below 10, so the lower clamp is not
    reached; the bonuses can exceed 100 and are clamped. *)
Theorem consistency_score_bounds sheet_analysis :
  10 <= _calculate_consistency_score sheet_analysis <= 100.
Proof.
  unfold _calculate_consistency_score. cbv zeta.
  generalize (Z.max 1 (default 1 (sh_used_cells sheet_analysis))).
  generalize (Z.max 1 (default 1 (sh_total_cells sheet_analysis))).
  generalize (default 0 (sh_merged_cells sheet_analysis)).
  generalize (default 0 (sh_formula_cells sheet_analysis)).
  intros formula_cells merged total used.
  destruct (default false (sh_has_tables sheet_analysis)),
    (default false (sh_has_data_validation sheet_analysis)),
    (0 <? len (default [] (sh_headers_detected sheet_analysis)));
    (destruct (0 <? merged);
       [destruct (0.2 <? py_truediv merged used)%float;
          [|destruct (0.1 <? py_truediv merged used)%float]|]);
    (destruct ((0 <? used) && (100 <? total));
       [destruct (py_truediv used total <? 0.05)%float;
          [|destruct (py_truediv used total <? 0.1)%float]|]);
    (destruct (10 <? used);
       [destruct (0.8 <? py_truediv formula_cells used)%float;
          [|destruct ((0.1 <=? py_truediv formula_cells used)
                      && (py_truediv formula_cells used <=? 0.5))%float]|]);
    lia.
Qed.

(** ** [analyze_formulas] *)

Lemma sheet_formulas_len self name :
  len (default [] (sh_formulas (analyze_sheet_data self name)))
  = default 0 (sh_formula_cells (analyze_sheet_data self name)).
Proof.
  destruct (analyze_sheet_data_cases self name)
    as [->|[[e ->]|(wb & sheet & r & c & Hwb & Hget & Hr & Hc)]];
    [reflexivity..|].
  destruct (analyze_sheet_data_main self wb name sheet r c Hwb Hget Hr Hc)
    as (errors0 & errors1 & hs & _ & -> & -> & _).
  cbn [default]. apply scan_rows_invariant. by repeat split.
Qed.

Lemma sum_Z_from a l : foldl Z.add a l = a + sum_Z l.
Proof.
  unfold sum_Z. revert a. induction l as [|x l IH]; intros a; cbn [foldl].
  - lia.
  - rewrite IH, (IH (0 + x)). lia.
Qed.

Lemma sum_Z_cons x l : sum_Z (x :: l) = x + sum_Z l.
Proof. unfold sum_Z at 1. cbn [foldl]. rewrite sum_Z_from. lia. Qed.

(** The loop over the sheets: how many it visits and what it collects. *)
Lemma collect_formulas_spec self names : forall n acc types,
  let visited := take (max_sheets_to_analyze self - n) names in
  fst (fst (collect_formulas self names n acc types))
  = (n + length visited)%nat
  /\ len (snd (fst (collect_formulas self names n acc types)))
     = len acc
       + sum_Z (map (fun name =>
                       default 0 (sh_formula_cells (analyze_sheet_data self name)))
                  visited).
Proof.
  induction names as [|name rest IH]; intros n acc types.
  - cbn [collect_formulas fst snd]. rewrite take_nil.
    cbn [length map]. split; [lia|]. unfold sum_Z. cbn [foldl]. lia.
  - cbn [collect_formulas].
    destruct (Nat.leb_spec (max_sheets_to_analyze self) n) as [Hfull|Hroom].
    + replace (max_sheets_to_analyze self - n)%nat with 0%nat by lia.
      cbn [take fst snd length map]. split; [lia|].
      unfold sum_Z. cbn [foldl]. lia.
    + replace (max_sheets_to_analyze self - n)%nat
        with (S (max_sheets_to_analyze self - S n)) by lia.
      cbn [take length map]. cbv zeta.
      destruct (IH (S n)
                  (acc ++ default [] (sh_formulas (analyze_sheet_data self name)))
                  (add_formula_types
                     (default ∅ (sh_formula_types (analyze_sheet_data self name)))
                     types)) as [-> ->].
      split; [lia|].
      rewrite sum_Z_cons. unfold len at 1. rewrite length_app.
      pose proof (sheet_formulas_len self name) as Hlen. unfold len in *.
      lia.
Qed.

(** The sheets visited are the first ones, up to the sheet limit, and the
    number of formulas of the workbook is the sum of the formula cells of
    the sheets visited. *)
Theorem analyze_formulas_totals self wb :
  workbook self = Some wb ->
  fo_sheets_analyzed (analyze_formulas self)
  = Some (Z.of_nat (Nat.min (length (sheetnames wb))
                      (max_sheets_to_analyze self)))
  /\ fo_total_formulas (analyze_formulas self)
     = Some (sum_Z
               (map (fun name =>
                       default 0
                         (sh_formula_cells (analyze_sheet_data self name)))
                  (take (max_sheets_to_analyze self) (sheetnames wb)))).
Proof.
  intros Hwb. unfold analyze_formulas. rewrite Hwb.
  destruct (collect_formulas_spec self (sheetnames wb) 0 [] ∅) as [Hn Hall].
  rewrite Nat.sub_0_r in Hn, Hall.
  destruct (collect_formulas self (sheetnames wb) 0 [] ∅)
    as [[sheets_analyzed all_formulas] types].
  cbn [fst snd] in Hn, Hall.
  destruct (categorize all_formulas [] []) as [complex simple].
  cbn [fo_sheets_analyzed fo_total_formulas].
  rewrite Hn, Hall, length_take. split; [f_equal; lia|].
  reflexivity.
Qed.

Lemma analyze_formulas_totals_witness :
  fo_sheets_analyzed (analyze_formulas (plain_checker ["Jan"; "Feb"]))
  = Some (Z.of_nat
            (Nat.min
               (length (sheetnames (plain_workbook ["Jan"; "Feb"])))
               (max_sheets_to_analyze (plain_checker ["Jan"; "Feb"]))))
  /\ fo_total_formulas (analyze_formulas (plain_checker ["Jan"; "Feb"]))
     = Some (sum_Z
               (map (fun name =>
                       default 0
                         (sh_formula_cells
                            (analyze_sheet_data (plain_checker ["Jan"; "Feb"])
                               name)))
                  (take (max_sheets_to_analyze (plain_checker ["Jan"; "Feb"]))
                     (sheetnames (plain_workbook ["Jan"; "Feb"]))))).
Proof.
  apply (analyze_formulas_totals (plain_checker ["Jan"; "Feb"])
           (plain_workbook ["Jan"; "Feb"])).
  reflexivity.
Defined.



(** ** [analyze_file_structure] *)





(** ** [detect_automation_patterns] *)

(** The score is accounted for by the patterns found: none found, no
    points; at most five are found; three or more bring the bonus indicator
    and at least 70 points; the score never exceeds 125. *)
Theorem pattern_score_accounting self wb :
  workbook self = Some wb ->
  exists score patterns indicators,
    pa_pattern_score (detect_automation_patterns self) = Some score
    /\ pa_detected_patterns (detect_automation_patterns self) = Some patterns
    /\ pa_business_process_indicators (detect_automation_patterns self)
       = Some indicators
    /\ 0 <= score <= 125
    /\ (score = 0 <-> patterns = [])
    /\ len patterns <= 5
    /\ len indicators = len patterns + (if 3 <=? len patterns then 1 else 0)
    /\ (3 <= len patterns -> 70 <= score).
Proof.
  intros Hwb. unfold detect_automation_patterns. rewrite Hwb.
  cbv zeta.
  cbn [pa_pattern_score pa_detected_patterns pa_business_process_indicators].
  eexists _, _, _. split; [reflexivity|]. split; [reflexivity|].
  split; [reflexivity|].
  generalize (2 <=? len (time_based_sheets (sheetnames wb))).
  generalize ((3 <=? len (sheetnames wb))
              && bool_decide (repeated_patterns (sheetnames wb) ≠ ∅)).
  generalize
    ((2 <=? len (data_entry_sheets (categorize_sheets (sheetnames wb))))
     && (1 <=? len (reporting_sheets (categorize_sheets (sheetnames wb)))
               + len (summary_sheets (categorize_sheets (sheetnames wb))))).
  generalize
    (is_nonempty (template_sheets (categorize_sheets (sheetnames wb)))
     && (2 <=? len (sheetnames wb)
               - len (template_sheets (categorize_sheets (sheetnames wb))))).
  generalize
    (is_nonempty (data_entry_sheets (categorize_sheets (sheetnames wb)))
     && is_nonempty (calculation_sheets (categorize_sheets (sheetnames wb)))
     && is_nonempty (reporting_sheets (categorize_sheets (sheetnames wb)))).
  intros [] [] [] [] [];
  vm_compute; repeat split; congruence.
Qed.

Lemma pattern_score_accounting_witness :
  exists score patterns indicators,
    pa_pattern_score
      (detect_automation_patterns (plain_checker ["Jan"; "Feb"])) = Some score
    /\ pa_detected_patterns
         (detect_automation_patterns (plain_checker ["Jan"; "Feb"]))
       = Some patterns
    /\ pa_business_process_indicators
         (detect_automation_patterns (plain_checker ["Jan"; "Feb"]))
       = Some indicators
    /\ 0 <= score <= 125
    /\ (score = 0 <-> patterns = [])
    /\ len patterns <= 5
    /\ len indicators = len patterns + (if 3 <=? len patterns then 1 else 0)
    /\ (3 <= len patterns -> 70 <= score).
Proof.
  exact (pattern_score_accounting (plain_checker ["Jan"; "Feb"])
           (plain_workbook ["Jan"; "Feb"]) eq_refl).
Defined.

(** A workbook with fewer than two sheets shows no pattern, whatever the
    sheet is called. *)
Theorem few_sheets_no_pattern self wb :
  workbook self = Some wb ->
  (length (worksheets wb) <= 1)%nat ->
  pa_pattern_score (detect_automation_patterns self) = Some 0
  /\ pa_detected_patterns (detect_automation_patterns self) = Some []
  /\ pa_time_based_patterns (detect_automation_patterns self) = Some false
  /\ pa_repeated_structures (detect_automation_patterns self) = Some false
  /\ pa_consolidation_patterns (detect_automation_patterns self) = Some false.
Proof.
  intros Hwb Hlen.
  assert (Hnames : (length (sheetnames wb) <= 1)%nat)
    by (unfold sheetnames; by rewrite length_map).
  assert (H1 : (2 <=? len (time_based_sheets (sheetnames wb))) = false).
  { apply Z.leb_gt. unfold len, time_based_sheets.
    pose proof (List.filter_length_le is_time_based (sheetnames wb)). lia. }
  assert (H2 : (3 <=? len (sheetnames wb)) = false)
    by (apply Z.leb_gt; unfold len; lia).
  assert (H3 : (2 <=? len (data_entry_sheets (categorize_sheets (sheetnames wb))))
               = false).
  { destruct (sheetnames wb) as [|name [|name' rest]];
      [reflexivity| |cbn [length] in Hnames; lia].
    unfold categorize_sheets. cbn [foldl].
    by destruct (sheet_category name) as [[]|]. }
  assert (H4 : (2 <=? len (sheetnames wb)
                      - len (template_sheets (categorize_sheets (sheetnames wb))))
               = false).
  { apply Z.leb_gt.
    pose proof (len_nonneg (template_sheets (categorize_sheets (sheetnames wb)))).
    unfold len in *. lia. }
  assert (H5 : is_nonempty (data_entry_sheets (categorize_sheets (sheetnames wb)))
               && is_nonempty
                    (calculation_sheets (categorize_sheets (sheetnames wb)))
               && is_nonempty
                    (reporting_sheets (categorize_sheets (sheetnames wb)))
               = false).
  { destruct (sheetnames wb) as [|name [|name' rest]];
      [reflexivity| |cbn [length] in Hnames; lia].
    unfold categorize_sheets. cbn [foldl].
    by destruct (sheet_category name) as [[]|]. }
  unfold detect_automation_patterns. rewrite Hwb. cbv zeta.
  cbn [pa_pattern_score pa_detected_patterns pa_time_based_patterns
       pa_repeated_structures pa_consolidation_patterns].
  rewrite H1, H2, H3, H4, H5, andb_false_r. by repeat split.
Qed.

Lemma few_sheets_no_pattern_witness :
  pa_pattern_score
    (detect_automation_patterns (plain_checker ["Jan_Report_Input"])) = Some 0
  /\ pa_detected_patterns
       (detect_automation_patterns (plain_checker ["Jan_Report_Input"]))
     = Some []
  /\ pa_time_based_patterns
       (detect_automation_patterns (plain_checker ["Jan_Report_Input"]))
     = Some false
  /\ pa_repeated_structures
       (detect_automation_patterns (plain_checker ["Jan_Report_Input"]))
     = Some false
  /\ pa_consolidation_patterns
       (detect_automation_patterns (plain_checker ["Jan_Report_Input"]))
     = Some false.
Proof.
  apply (few_sheets_no_pattern (plain_checker ["Jan_Report_Input"])
           (plain_workbook ["Jan_Report_Input"]));
    [reflexivity|cbn; lia].
Defined.

(** Each role list of [categorize_sheets] holds the names filed under the
    role, in the order of the sheets. *)
Lemma categorize_sheets_loop names : forall r,
  let r' :=
    foldl (fun r sheet_name =>
             match sheet_category sheet_name with
             | Some c => append_role c sheet_name r
             | None => r
             end) r names in
  data_entry_sheets r' = data_entry_sheets r ++ sheets_of data_entry names
  /\ calculation_sheets r' = calculation_sheets r ++ sheets_of calculation names
  /\ reporting_sheets r' = reporting_sheets r ++ sheets_of reporting names
  /\ template_sheets r' = template_sheets r ++ sheets_of template names
  /\ summary_sheets r' = summary_sheets r ++ sheets_of summary names.
Proof.
  induction names as [|name rest IH]; intros r.
  - cbn. by rewrite !app_nil_r.
  - cbn [foldl]. cbv zeta.
    destruct (IH (match sheet_category name with
                  | Some c => append_role c name r
                  | None => r
                  end)) as (-> & -> & -> & -> & ->).
    unfold sheets_of. cbn [List.filter].
    destruct (sheet_category name) as [[]|];
      cbn [append_role data_entry_sheets calculation_sheets reporting_sheets
           template_sheets summary_sheets];
      repeat match goal with
             | |- context [bool_decide (?a = ?b)] =>
                 first [ rewrite (bool_decide_eq_true_2 (a = b)) by reflexivity
                       | rewrite (bool_decide_eq_false_2 (a = b)) by discriminate ]
             end;
      rewrite <- ?app_assoc; by repeat split.
Qed.

(** A sheet whose name contains "summary" is filed before the summary
    keywords are tried. *)
Lemma summary_keyword_shadowed name :
  py_in "summary" (lower name) = true ->
  sheet_category name <> Some summary.
Proof.
  intros Hin. unfold sheet_category, categorization_rules. cbn [List.find].
  destruct (any_in _ (lower name)); [discriminate|].
  destruct (any_in _ (lower name)); [discriminate|].
  unfold any_in at 1. cbn [existsb]. rewrite Hin, orb_true_r. cbn [orb].
  discriminate.
Qed.

(** The role lists partition the categorised sheets: each holds exactly the
    sheets whose first matching rule is its own, in sheet order. The
    keyword "summary" is tried for reports first, so no sheet with
    "summary" in its name reaches the summary list. *)
Theorem sheet_roles_partition self wb :
  workbook self = Some wb ->
  pa_data_entry_sheets (detect_automation_patterns self)
  = Some (sheets_of data_entry (sheetnames wb))
  /\ pa_calculation_sheets (detect_automation_patterns self)
     = Some (sheets_of calculation (sheetnames wb))
  /\ pa_reporting_sheets (detect_automation_patterns self)
     = Some (sheets_of reporting (sheetnames wb))
  /\ pa_template_sheets (detect_automation_patterns self)
     = Some (sheets_of template (sheetnames wb))
  /\ pa_summary_sheets (detect_automation_patterns self)
     = Some (sheets_of summary (sheetnames wb))
  /\ List.Forall (fun name => py_in "summary" (lower name) = false)
       (sheets_of summary (sheetnames wb)).
Proof.
  intros Hwb. unfold detect_automation_patterns. rewrite Hwb.
  cbv zeta.
  cbn [pa_data_entry_sheets pa_calculation_sheets pa_reporting_sheets
       pa_template_sheets pa_summary_sheets].
  destruct (categorize_sheets_loop (sheetnames wb)
              {| data_entry_sheets := []; calculation_sheets := [];
                 reporting_sheets := []; template_sheets := [];
                 summary_sheets := [] |}) as (H1 & H2 & H3 & H4 & H5).
  unfold categorize_sheets. rewrite H1, H2, H3, H4, H5.
  repeat split.
  apply List.Forall_forall. intros name Hname.
  apply List.filter_In in Hname as [_ Hcat].
  apply bool_decide_eq_true_1 in Hcat.
  destruct (py_in "summary" (lower name)) eqn:Hin; [|reflexivity].
  by destruct (summary_keyword_shadowed name Hin).
Qed.

Lemma sheet_roles_partition_witness :
  pa_data_entry_sheets
    (detect_automation_patterns (plain_checker ["Input"; "Summary"]))
  = Some (sheets_of data_entry (sheetnames (plain_workbook ["Input"; "Summary"])))
  /\ pa_calculation_sheets
       (detect_automation_patterns (plain_checker ["Input"; "Summary"]))
     = Some (sheets_of calculation
               (sheetnames (plain_workbook ["Input"; "Summary"])))
  /\ pa_reporting_sheets
       (detect_automation_patterns (plain_checker ["Input"; "Summary"]))
     = Some (sheets_of reporting
               (sheetnames (plain_workbook ["Input"; "Summary"])))
  /\ pa_template_sheets
       (detect_automation_patterns (plain_checker ["Input"; "Summary"]))
     = Some (sheets_of template
               (sheetnames (plain_workbook ["Input"; "Summary"])))
  /\ pa_summary_sheets
       (detect_automation_patterns (plain_checker ["Input"; "Summary"]))
     = Some (sheets_of summary
               (sheetnames (plain_workbook ["Input"; "Summary"])))
  /\ List.Forall (fun name => py_in "summary" (lower name) = false)
       (sheets_of summary (sheetnames (plain_workbook ["Input"; "Summary"]))).
Proof.
  exact (sheet_roles_partition (plain_checker ["Input"; "Summary"])
           (plain_workbook ["Input"; "Summary"]) eq_refl).
Defined.

(** ** [identify_opportunities] *)

Lemma append_if_sublist (c : bool) (x : string) (l all : list string) :
  l `sublist_of` all -> append_if c x l `sublist_of` all ++ [x].
Proof.
  intros Hl. unfold append_if. destruct c.
  - by apply sublist_app.
  - rewrite <- (app_nil_r l). apply sublist_app; [exact Hl|].
    by apply sublist_cons.
Qed.

(** No opportunity is listed twice, and at most 14 are listed: the 13 that
    the rules can raise and one closing remark. *)
Theorem identify_opportunities_distinct self :
  NoDup (identify_opportunities self)
  /\ (length (identify_opportunities self) <= 14)%nat.
Proof.
  unfold identify_opportunities. cbv zeta.
  match goal with
  | |- context [append_elif _ _ _ _ ?l] => set (base := l)
  end.
  assert (Hbase : exists all,
             base `sublist_of` all /\ length all = 13%nat
             /\ NoDup (all ++
                  ["Multiple automation opportunities identified - high ROI potential";
                   "Several automation opportunities - good ROI potential"])).
  { eexists. split.
    - unfold base. do 13 eapply append_if_sublist. apply sublist_nil.
    - split; [reflexivity|]. apply (bool_decide_unpack _). by vm_compute. }
  destruct Hbase as (all & Hsub & Hlen & Hnodup).
  clearbody base.
  pose proof (sublist_length _ _ Hsub) as Hle.
  unfold append_elif.
  destruct (5 <=? len base); [|destruct (3 <=? len base)].
  - split; [|rewrite length_app; cbn [length]; lia].
    eapply sublist_NoDup; [exact Hnodup|].
    apply sublist_app; [exact Hsub|]. by apply sublist_skip, sublist_cons.
  - split; [|rewrite length_app; cbn [length]; lia].
    eapply sublist_NoDup; [exact Hnodup|].
    apply sublist_app; [exact Hsub|]. apply sublist_cons, sublist_skip.
    apply sublist_nil.
  - split; [|lia].
    eapply sublist_NoDup; [exact Hnodup|]. by apply sublist_inserts_r.
Qed.

(** ** [_calculate_analysis_completeness] *)

(** The completeness is a multiple of 25 up to 100. *)
Theorem analysis_completeness_values self :
  In (_calculate_analysis_completeness self) [0; 25; 50; 75; 100]%float.
Proof.
  unfold _calculate_analysis_completeness. cbv zeta.
  destruct (ar_structure (analysis_results self)) as [d1|];
    [destruct (structure_dict_nonempty d1)|];
    (destruct (ar_formulas (analysis_results self)) as [d2|];
       [destruct (formula_dict_nonempty d2)|]);
    (destruct (ar_patterns (analysis_results self)) as [d3|];
       [destruct (pattern_dict_nonempty d3)|]);
    destruct (ar_red_flags (analysis_results self));
    vm_compute; auto 6.
Qed.

Lemma analyze_file_structure_nonempty self wb :
  workbook self = Some wb ->
  structure_dict_nonempty (analyze_file_structure self) = true.
Proof.
  intros Hwb. unfold analyze_file_structure. rewrite Hwb.
  destruct (if path_set (file_path self) then _ else _) as [mb|e];
    cbn [mbind result_bind try_except]; [|reflexivity].
  destruct (match defined_names wb with Some _ => _ | None => _ end).
  by destruct (visibility_loop _ _).
Qed.

Lemma analyze_formulas_nonempty self wb :
  workbook self = Some wb ->
  formula_dict_nonempty (analyze_formulas self) = true.
Proof.
  intros Hwb. unfold analyze_formulas. rewrite Hwb.
  destruct (collect_formulas _ _ _ _ _) as [[n all] types].
  by destruct (categorize _ _ _).
Qed.

Lemma detect_automation_patterns_nonempty self wb :
  workbook self = Some wb ->
  pattern_dict_nonempty (detect_automation_patterns self) = true.
Proof.
  intros Hwb. unfold detect_automation_patterns. rewrite Hwb. reflexivity.
Qed.

(** ** [generate_comprehensive_report]: the quality metrics *)

(** Every report of a loaded workbook records a completeness of 100: the
    four results are stored before it is computed, and none of them is an
    empty dictionary. The display therefore never prints the completeness
    line. *)
Theorem report_completeness self now wb :
  workbook self = Some wb ->
  exists a,
    fst (generate_comprehensive_report self now) = Ok a
    /\ qm_analysis_completeness (da_quality_metrics (detailed_analysis a))
       = 100%float
    /\ completeness_shown
         (qm_analysis_completeness (da_quality_metrics (detailed_analysis a)))
       = (false, false).
Proof.
  intros Hwb. unfold generate_comprehensive_report. rewrite Hwb. cbv zeta.
  destruct (feasibility _) as [level effort].
  eexists. split; [reflexivity|].
  cbn [detailed_analysis da_quality_metrics qm_analysis_completeness].
  unfold _calculate_analysis_completeness, set_red_flags, set_patterns,
    set_formulas, set_structure.
  cbv zeta.
  cbn [analysis_results set_analysis_results ar_structure ar_formulas
       ar_patterns ar_red_flags].
  rewrite (analyze_file_structure_nonempty self wb Hwb).
  rewrite analyze_formulas_nonempty with (wb := wb) by exact Hwb.
  rewrite detect_automation_patterns_nonempty with (wb := wb) by exact Hwb.
  by split.
Qed.

Lemma report_completeness_witness :
  exists a,
    fst (generate_comprehensive_report broken_checker "2025-01-01 00:00:00")
    = Ok a
    /\ qm_analysis_completeness (da_quality_metrics (detailed_analysis a))
       = 100%float
    /\ completeness_shown
         (qm_analysis_completeness (da_quality_metrics (detailed_analysis a)))
       = (false, false).
Proof.
  refine (report_completeness broken_checker "2025-01-01 00:00:00" _ eq_refl).
Defined.

(** ** [generate_comprehensive_report]: the score block *)

Lemma mem_Z_bounds x l lo hi :
  mem_Z x l = true -> forallb (fun v => (lo <=? v) && (v <=? hi)) l = true ->
  lo <= x <= hi.
Proof.
  intros Hx Hall. apply mem_Z_In in Hx.
  rewrite forallb_forall in Hall. specialize (Hall x Hx). lia.
Qed.

(** In the score block of every report the structure score lies in
    [0, 100], the formula score in [5, 80] and the pattern score in
    [0, 125]; the formula score and the difficulty score add up to 100. *)
Theorem report_scores_in_range self now wb :
  workbook self = Some wb ->
  exists a,
    fst (generate_comprehensive_report self now) = Ok a
    /\ 0 <= sc_structure_score (da_scores (detailed_analysis a)) <= 100
    /\ 5 <= sc_formula_difficulty_score (da_scores (detailed_analysis a)) <= 80
    /\ 0 <= sc_pattern_score (da_scores (detailed_analysis a)) <= 125
    /\ sc_formula_difficulty_score (da_scores (detailed_analysis a))
       + fb_difficulty_score (da_formula_analysis (detailed_analysis a)) = 100.
Proof.
  intros Hwb.
  destruct (report_fields self now wb Hwb)
    as (a & Ha & Hs & Hd & Hp & _ & _ & _ & _ & _ & Hfb & _).
  destruct (difficulty_present self wb Hwb) as [d Hdiff].
  exists a. split; [exact Ha|]. rewrite Hs, Hd, Hp, Hfb.
  pose proof (mem_Z_bounds _ _ 0 100 (structure_score_values_spec self) eq_refl).
  pose proof (mem_Z_bounds _ _ 20 95 (difficulty_score_values_spec self) eq_refl)
    as Hrange.
  pose proof (mem_Z_bounds _ _ 0 125 (pattern_score_values_spec self) eq_refl).
  rewrite Hdiff in *. cbn [default] in *. unfold id in *. lia.
Qed.

Lemma report_scores_in_range_witness :
  exists a,
    fst (generate_comprehensive_report broken_checker "2025-01-01 00:00:00")
    = Ok a
    /\ 0 <= sc_structure_score (da_scores (detailed_analysis a)) <= 100
    /\ 5 <= sc_formula_difficulty_score (da_scores (detailed_analysis a)) <= 80
    /\ 0 <= sc_pattern_score (da_scores (detailed_analysis a)) <= 125
    /\ sc_formula_difficulty_score (da_scores (detailed_analysis a))
       + fb_difficulty_score (da_formula_analysis (detailed_analysis a)) = 100.
Proof.
  refine (report_scores_in_range broken_checker "2025-01-01 00:00:00" _ eq_refl).
Defined.

(** ** [identify_red_flags]: macros *)

Lemma in_append_if x c y l : In x l -> In x (append_if c y l).
Proof.
  intros Hin. unfold append_if. destruct c; [|exact Hin].
  apply in_or_app. by left.
Qed.

Lemma in_append_elif x c1 y1 c2 y2 l : In x l -> In x (append_elif c1 y1 c2 y2 l).
Proof.
  intros Hin. unfold append_elif.
  destruct c1; [|destruct c2]; [apply in_or_app; by left..|exact Hin].
Qed.

(** A workbook loaded from an [.xlsm] path, in whatever case the extension
    is written, or one that carries a VBA archive, gets the macro flag. *)
Theorem identify_red_flags_macros self wb :
  workbook self = Some wb ->
  path_set (file_path self)
  && endswith (lower (default "" (file_path self))) ".xlsm"
  || vba_archive wb = true ->
  In "VBA macros detected - requires specialized automation approach"
    (identify_red_flags self).
Proof.
  intros Hwb Hmacros. unfold identify_red_flags. rewrite Hwb. cbv zeta.
  apply in_append_elif. rewrite Hmacros. cbn [orb].
  unfold append_if at 1. apply in_or_app. right. by left.
Qed.

Lemma identify_red_flags_macros_witness :
  In "VBA macros detected - requires specialized automation approach"
    (identify_red_flags
       (set_file_path (single_file "Ledger.XLSM" 2048 (Raise "unreadable"))
          (plain_checker ["Ledger"]) "Ledger.XLSM")).
Proof.
  apply (identify_red_flags_macros
           (set_file_path (single_file "Ledger.XLSM" 2048 (Raise "unreadable"))
              (plain_checker ["Ledger"]) "Ledger.XLSM")
           (plain_workbook ["Ledger"]));
    reflexivity.
Defined.

(** ** [recommend_automation_tools]: what is kept *)

Lemma prefix_grow {A} (c : bool) (base l k : list A) :
  base `prefix_of` l -> base `prefix_of` (if c then l ++ k else l).
Proof. intros H. destruct c; [by apply prefix_app_r|exact H]. Qed.

Lemma unique_loop_prefix_app l1 l2 : forall seen acc,
  unique_loop l1 seen acc `prefix_of` unique_loop (l1 ++ l2) seen acc.
Proof.
  induction l1 as [|x l1 IH]; intros seen acc.
  - apply unique_loop_prefix.
  - cbn [unique_loop app]. destruct (bool_decide (x ∈ seen)); apply IH.
Qed.

Lemma existsb_eqb_In x l : existsb (String.eqb x) l = true -> In x l.
Proof.
  intros H. apply existsb_exists in H as (y & Hy & Heq).
  apply String.eqb_eq in Heq. by subst.
Qed.

(** An entry among the first eight distinct ones emitted is recommended. *)
Lemma take_unique_prefix base emitted x :
  base `prefix_of` emitted ->
  existsb (String.eqb x) (unique_loop base ∅ []) = true ->
  (length (unique_loop base ∅ []) <=? 8)%nat = true ->
  In x (take 8 (unique_loop emitted ∅ [])).
Proof.
  intros [rest ->] Hin Hlen.
  apply existsb_eqb_In in Hin. apply Nat.leb_le in Hlen.
  destruct (unique_loop_prefix_app base rest ∅ []) as [tail ->].
  rewrite take_app_ge by exact Hlen. apply in_or_app. by left.
Qed.

(** What is recommended was emitted. *)
Lemma recommended_emitted self summary x :
  In x (recommend_automation_tools self summary) ->
  In x (emitted_recommendations self summary).
Proof.
  unfold recommend_automation_tools. cbv zeta. intros Hin.
  apply list_elem_of_In, elem_of_take in Hin as (i & Hi & _).
  apply list_elem_of_lookup_2 in Hi.
  destruct (unique_loop_spec (emitted_recommendations self summary) ∅ [])
    as (_ & _ & Hmem); [constructor|set_solver|].
  apply Hmem in Hi as [Hi|Hi]; [by apply elem_of_nil in Hi|].
  by apply list_elem_of_In.
Qed.

Lemma not_in_grow (c : bool) (x : string) (l k : list string) :
  ~ In x l -> forallb (fun y => negb (String.eqb x y)) k = true ->
  ~ In x (if c then l ++ k else l).
Proof.
  intros Hl Hk Hin. destruct c; [|by apply Hl].
  apply in_app_or in Hin as [Hin|Hin]; [by apply Hl|].
  rewrite forallb_forall in Hk. specialize (Hk x Hin).
  by rewrite String.eqb_refl in Hk.
Qed.

(** When a red flag mentions macros or VBA, the two VBA-based approaches are
    recommended and the approaches reserved for macro-free workbooks are
    not. *)
Theorem recommend_with_macros self summary :
  existsb (fun flag => py_in "macro" (lower flag) || py_in "vba" (lower flag))
    (default [] (as_red_flags summary)) = true ->
  In "✅ Enhanced VBA/Excel Macros - Build upon existing logic, add automation triggers"
    (recommend_automation_tools self summary)
  /\ In "✅ Excel + VBA + Python integration - Hybrid approach leveraging both platforms"
       (recommend_automation_tools self summary)
  /\ List.Forall (fun tool => ~ In tool (recommend_automation_tools self summary))
       ["✅ Python + pandas + openpyxl - Ideal for data processing, calculations, and report generation";
        "✅ Python + xlwings - Excel integration with Python logic, maintains Excel interface";
        "✅ Microsoft Power Automate - Excellent for workflow automation and Office 365 integration";
        "✅ Power BI + Power Query - Perfect for reporting automation and data transformation"].
Proof.
  intros Hmacros.
  assert (Hkept : forall x,
    existsb (String.eqb x)
      ["✅ Enhanced VBA/Excel Macros - Build upon existing logic, add automation triggers";
       "✅ Excel + VBA + Python integration - Hybrid approach leveraging both platforms"]
    = true ->
    In x (recommend_automation_tools self summary)).
  { intros x Hx. apply existsb_eqb_In in Hx. cbn [In] in Hx.
    unfold recommend_automation_tools, emitted_recommendations.
    cbv zeta. rewrite Hmacros. cbn [negb orb]. rewrite !andb_false_r.
    eapply take_unique_prefix; [do 5 apply prefix_grow; reflexivity|..];
      generalize ((50 <=? default 0 (as_overall_score summary))
                  && (default 0 (as_formula_complexity_ratio summary) <? 0.6))%float;
      generalize (40 <=? default 0 (as_overall_score summary))%float;
      destruct Hx as [<-|[<-|[]]]; by intros [] []. }
  split; [by apply Hkept|]. split; [by apply Hkept|].
  assert (Hleft : forall x,
    existsb (String.eqb x)
      ["✅ Python + pandas + openpyxl - Ideal for data processing, calculations, and report generation";
       "✅ Python + xlwings - Excel integration with Python logic, maintains Excel interface";
       "✅ Microsoft Power Automate - Excellent for workflow automation and Office 365 integration";
       "✅ Power BI + Power Query - Perfect for reporting automation and data transformation"]
    = true ->
    ~ In x (recommend_automation_tools self summary)).
  { intros x Hx Hin. apply recommended_emitted in Hin. revert Hin.
    unfold emitted_recommendations. cbv zeta.
    rewrite Hmacros. cbn [negb orb]. rewrite !andb_false_r.
    apply existsb_eqb_In in Hx. cbn [In] in Hx.
    destruct Hx as [<-|[<-|[<-|[<-|[]]]]];
      do 5 (apply not_in_grow; [|reflexivity]);
      (apply (not_in_grow true); [|reflexivity]);
      do 2 (apply not_in_grow; [|reflexivity]); by intros []. }
  repeat constructor; by apply Hleft.
Qed.

Lemma recommend_with_macros_witness :
  In "✅ Enhanced VBA/Excel Macros - Build upon existing logic, add automation triggers"
    (recommend_automation_tools new_checker (macro_summary 75))
  /\ In "✅ Excel + VBA + Python integration - Hybrid approach leveraging both platforms"
       (recommend_automation_tools new_checker (macro_summary 75))
  /\ List.Forall (fun tool => ~ In tool (recommend_automation_tools new_checker (macro_summary 75)))
       ["✅ Python + pandas + openpyxl - Ideal for data processing, calculations, and report generation";
        "✅ Python + xlwings - Excel integration with Python logic, maintains Excel interface";
        "✅ Microsoft Power Automate - Excellent for workflow automation and Office 365 integration";
        "✅ Power BI + Power Query - Perfect for reporting automation and data transformation"].
Proof.
  apply (recommend_with_macros new_checker (macro_summary 75)).
  reflexivity.
Defined.

Lemma unique_loop_app l1 l2 : forall (seen : gset string) acc,
  exists seen' : gset string,
    unique_loop (l1 ++ l2) seen acc
    = unique_loop l2 seen' (unique_loop l1 seen acc)
    /\ (forall y, y ∈ seen' <-> y ∈ seen \/ y ∈ l1).
Proof.
  induction l1 as [|x l1 IH]; intros seen acc.
  - exists seen. split; [reflexivity|]. intros y. split; [by left|].
    intros [Hy|Hy]; [exact Hy|by apply elem_of_nil in Hy].
  - cbn [app unique_loop]. destruct (bool_decide_reflect (x ∈ seen)) as [Hx|Hx].
    + destruct (IH seen acc) as (seen' & -> & Hseen).
      exists seen'. split; [reflexivity|]. intros y. rewrite Hseen.
      rewrite elem_of_cons. split; [tauto|].
      intros [Hy|[->|Hy]]; tauto.
    + destruct (IH ({[x]} ∪ seen) (acc ++ [x])) as (seen' & -> & Hseen).
      exists seen'. split; [reflexivity|]. intros y. rewrite Hseen.
      rewrite elem_of_union, elem_of_singleton, elem_of_cons. tauto.
Qed.

(** An entry emitted for the first time after fewer than eight others is
    recommended. *)
Lemma recommended_if_early l x rest :
  ~ In x l -> (length l < 8)%nat ->
  In x (take 8 (unique_loop (l ++ x :: rest) ∅ [])).
Proof.
  intros Hnew Hlen.
  destruct (unique_loop_app l (x :: rest) ∅ []) as (seen' & -> & Hseen).
  destruct (unique_loop_spec l ∅ []) as (_ & Hsub & _);
    [constructor|intros y; by rewrite elem_of_empty, elem_of_nil|].
  apply sublist_length in Hsub. cbn [app] in Hsub.
  cbn [unique_loop].
  rewrite bool_decide_eq_false_2.
  2: { intros Hin. apply Hseen in Hin as [Hin|Hin];
         [by apply elem_of_empty in Hin|].
       by apply list_elem_of_In in Hin. }
  destruct (unique_loop_prefix rest ({[x]} ∪ seen') (unique_loop l ∅ [] ++ [x]))
    as [tail ->].
  rewrite take_app_ge by (rewrite length_app; cbn [length]; lia).
  apply in_or_app. left. apply in_or_app. right. by left.
Qed.

Lemma length_grow2 {A} (c1 c2 : bool) (l k1 k2 : list A) n :
  (length l <= n)%nat -> (length k1 <= 2)%nat -> (length k2 <= 2)%nat ->
  (length (if c1 then l ++ k1 else if c2 then l ++ k2 else l) <= n + 2)%nat.
Proof. destruct c1, c2; rewrite ?length_app; lia. Qed.

Lemma not_in_grow2 (c1 c2 : bool) (x : string) (l k1 k2 : list string) :
  ~ In x l ->
  forallb (fun y => negb (String.eqb x y)) k1 = true ->
  forallb (fun y => negb (String.eqb x y)) k2 = true ->
  ~ In x (if c1 then l ++ k1 else if c2 then l ++ k2 else l).
Proof.
  intros Hl Hk1 Hk2. destruct c1; [by apply (not_in_grow true)|].
  by apply not_in_grow.
Qed.

(** Below a score of 50, or with more than three red flags, both fallback
    approaches are recommended: at most six entries are emitted before
    them, so they are among the first eight. *)
Theorem recommend_low_score self summary :
  (default 0 (as_overall_score summary) <? 50)%float
  || (3 <? len (default [] (as_red_flags summary))) = true ->
  In "⚠️ RPA Tools (UiPath, Automation Anywhere) - For processes that can't be restructured"
    (recommend_automation_tools self summary)
  /\ In "⚠️ Desktop automation - When existing file structure must be preserved"
       (recommend_automation_tools self summary).
Proof.
  intros Hlow.
  unfold recommend_automation_tools, emitted_recommendations.
  cbv zeta. rewrite Hlow.
  match goal with
  | |- context [unique_loop ?e _ _] =>
      assert (Hbase : exists l,
        (l ++ ["⚠️ RPA Tools (UiPath, Automation Anywhere) - For processes that can't be restructured";
               "⚠️ Desktop automation - When existing file structure must be preserved"])
        `prefix_of` e
        /\ (length l <= 0 + 2 + 2 + 2)%nat
        /\ ~ In "⚠️ RPA Tools (UiPath, Automation Anywhere) - For processes that can't be restructured" l
        /\ ~ In "⚠️ Desktop automation - When existing file structure must be preserved" l);
      [|destruct Hbase as (l & [rest ->] & Hlen & Hrpa & Hdesk)]
  end.
  { eexists. split; [do 4 apply prefix_grow; reflexivity|].
    split; [|split].
    - do 3 (apply length_grow2; [|cbn [length]; lia..]). cbn [length]. lia.
    - do 3 (apply not_in_grow2; [|reflexivity..]). by intros [].
    - do 3 (apply not_in_grow2; [|reflexivity..]). by intros []. }
  split.
  - rewrite <- app_assoc. cbn [app].
    apply recommended_if_early; [exact Hrpa|lia].
  - replace ((l ++ ["⚠️ RPA Tools (UiPath, Automation Anywhere) - For processes that can't be restructured";
                    "⚠️ Desktop automation - When existing file structure must be preserved"])
             ++ rest)
      with ((l ++ ["⚠️ RPA Tools (UiPath, Automation Anywhere) - For processes that can't be restructured"])
            ++ "⚠️ Desktop automation - When existing file structure must be preserved"
               :: rest)
      by (rewrite <- !app_assoc; reflexivity).
    apply recommended_if_early; [|rewrite length_app; cbn [length]; lia].
    intros Hin. apply in_app_or in Hin as [Hin|[Hin|[]]]; [by apply Hdesk|].
    discriminate Hin.
Qed.

Lemma recommend_low_score_witness :
  In "⚠️ RPA Tools (UiPath, Automation Anywhere) - For processes that can't be restructured"
    (recommend_automation_tools new_checker (macro_summary 35))
  /\ In "⚠️ Desktop automation - When existing file structure must be preserved"
       (recommend_automation_tools new_checker (macro_summary 35)).
Proof.
  apply (recommend_low_score new_checker (macro_summary 35)).
  reflexivity.
Defined.
